(** * The Grafana MCP OAuth gateway: embedding and properties

    A shallow embedding of the gateway under
    [servers/grafana-mcp-oauth-wrapper/src]:

    - [grafana-mcp-http-proxy.ts]  (class [GrafanaMcpHttpProxy])
    - [custom-tool-handler.ts]     (class [CustomToolHandler])
    - [custom-mcp-tools.ts]        (the [customTools] table)
    - [index.ts]                   (the Hono routes for POST and DELETE)

    The code is asynchronous JavaScript.  Every function is embedded as a
    term of a small free monad [Prog] whose nodes are the effects the code
    performs ([fetch], [setTimeout] sleeps, [spawn], reads and writes of
    the proxy object's fields, token validation).  Two semantics are given
    to the same terms: a sequential one ([run], one request handled alone
    against an environment oracle), and an interleaved one ([step], several
    requests suspended at their [await] points over one shared proxy
    object).

    Strings are byte strings (UTF-8); numbers are exact decimals
    [m * 10^e]: IEEE-754 rounding, and the exponent notation JavaScript
    prints outside [1e-6, 1e21), are outside the model.  [console.log]
    output is not modelled. *)

From Stdlib Require Import ZArith List String Ascii Bool Lia.
From stdpp Require Import base decidable option list strings pretty gmap.

Local Open Scope string_scope.
Local Open Scope Z_scope.

(* ===================================================================== *)
(** * JavaScript strings *)
(* ===================================================================== *)

Module Js.

Definition chr (n : nat) : string := String (ascii_of_nat n) EmptyString.

(** The double quote, the backslash and the line feed. *)
Definition dq : string := chr 34.
Definition bsl : string := chr 92.
Definition nl : string := chr 10.

Fixpoint bytes (l : list nat) : string :=
  match l with
  | [] => EmptyString
  | n :: l' => String (ascii_of_nat n) (bytes l')
  end.

(** [s.startsWith(p)] *)
Definition startsWith (s p : string) : bool := String.prefix p s.

(** [s.includes(needle)] *)
Fixpoint includes (s needle : string) : bool :=
  String.prefix needle s ||
  match s with
  | EmptyString => false
  | String _ s' => includes s' needle
  end.

(** [s.toLowerCase()], on the ASCII letters.  The header values it is
    applied to are byte strings, where the other letters it changes
    (Latin-1 capitals) are not ASCII before or after. *)
Definition lower_ascii (c : ascii) : ascii :=
  let n := nat_of_ascii c in
  if ((65 <=? n) && (n <=? 90))%nat then ascii_of_nat (n + 32) else c.

Fixpoint toLowerCase (s : string) : string :=
  match s with
  | EmptyString => EmptyString
  | String c s' => String (lower_ascii c) (toLowerCase s')
  end.

(** ECMAScript WhiteSpace and LineTerminator code points, as UTF-8. *)
Definition whitespace : list (list nat) :=
  [ [9]; [10]; [11]; [12]; [13]; [32];
    [194; 160];                                   (* U+00A0 *)
    [225; 154; 128];                              (* U+1680 *)
    [226; 128; 128]; [226; 128; 129]; [226; 128; 130]; [226; 128; 131];
    [226; 128; 132]; [226; 128; 133]; [226; 128; 134]; [226; 128; 135];
    [226; 128; 136]; [226; 128; 137]; [226; 128; 138];  (* U+2000..200A *)
    [226; 128; 168]; [226; 128; 169];             (* U+2028, U+2029 *)
    [226; 128; 175];                              (* U+202F *)
    [226; 129; 159];                              (* U+205F *)
    [227; 128; 128];                              (* U+3000 *)
    [239; 187; 191] ]%nat.                        (* U+FEFF *)

Fixpoint drop_prefix (p s : string) : option string :=
  match p, s with
  | EmptyString, _ => Some s
  | String a p', String b s' => if Ascii.eqb a b then drop_prefix p' s' else None
  | String _ _, EmptyString => None
  end.

Fixpoint strip_one (ws : list string) (s : string) : option string :=
  match ws with
  | [] => None
  | w :: ws' =>
      match drop_prefix w s with
      | Some rest => Some rest
      | None => strip_one ws' s
      end
  end.

Fixpoint strip (ws : list string) (fuel : nat) (s : string) : string :=
  match fuel with
  | O => s
  | S fuel' =>
      match strip_one ws s with
      | Some rest => strip ws fuel' rest
      | None => s
      end
  end.

Definition trimStart (s : string) : string :=
  strip (map bytes whitespace) (String.length s) s.

Definition trimEnd (s : string) : string :=
  String.rev (strip (map (fun w => bytes (rev w)) whitespace)
                    (String.length s) (String.rev s)).

(** [s.trim()] *)
Definition trim (s : string) : string := trimEnd (trimStart s).

(** [parts.join(sep)] *)
Definition join (sep : string) (parts : list string) : string :=
  String.concat sep parts.

Definition is_empty (s : string) : bool :=
  match s with EmptyString => true | _ => false end.

End Js.

(* ===================================================================== *)
(** * JavaScript values *)
(* ===================================================================== *)

(** The values the gateway handles: JSON data, [undefined], and [Error]
    objects (thrown and caught, and stored in an envelope's [data]; an
    [Error] has no enumerable property of its own).
    [JNum m e] is the number [m * 10^e].  An object is its list of own
    enumerable properties in property order. *)
#[warnings="-register-all"]
Inductive JsValue : Type :=
| JUndefined
| JNull
| JBool (b : bool)
| JNum (m e : Z)
| JStr (s : string)
| JArr (items : list JsValue)
| JObj (props : list (string * JsValue))
| JError (name message : string).

Abbreviation JInt z := (JNum z 0).

Module Value.

(** ToBoolean: what [if (v)], [v || d] and [v && d] test. *)
Definition truthy (v : JsValue) : bool :=
  match v with
  | JUndefined | JNull => false
  | JBool b => b
  | JNum m _ => negb (m =? 0)
  | JStr s => negb (Js.is_empty s)
  | JArr _ | JObj _ | JError _ _ => true
  end.

(** [a || b] and [a && b] *)
Definition or (a b : JsValue) : JsValue := if truthy a then a else b.
Definition and (a b : JsValue) : JsValue := if truthy a then b else a.

Definition nullish (v : JsValue) : bool :=
  match v with JUndefined | JNull => true | _ => false end.

(** Number::toString for the numbers of the model (fixed notation). *)
Definition number_to_string (m e : Z) : string :=
  if 0 <=? e then pretty (m * 10 ^ e)
  else
    let digits := pretty (Z.abs m) in
    let k := Z.to_nat (- e) in
    let padded :=
      Js.join "" (repeat "0" (S k - String.length digits)) +:+ digits in
    let n := String.length padded in
    (if m <? 0 then "-" else "") +:+ String.substring 0 (n - k) padded
      +:+ "." +:+ String.substring (n - k) k padded.

(** ToString, as a template literal applies it. *)
Fixpoint toString (v : JsValue) : string :=
  match v with
  | JUndefined => "undefined"
  | JNull => "null"
  | JBool b => if b then "true" else "false"
  | JNum m e => number_to_string m e
  | JStr s => s
  | JArr items =>
      Js.join "," (map (fun x => if nullish x then "" else toString x) items)
  | JObj _ => "[object Object]"
  | JError name msg =>
      if Js.is_empty msg then name
      else if Js.is_empty name then msg
      else name +:+ ": " +:+ msg
  end.

(** Array index keys ("0", "1", ... up to 2^32 - 2) come first in property
    order, ascending; the other keys follow in insertion order. *)
Definition digit_of (c : ascii) : option Z :=
  let n := Z.of_nat (nat_of_ascii c) in
  if (48 <=? n) && (n <=? 57) then Some (n - 48) else None.

Fixpoint digits_value (acc : Z) (s : string) : option Z :=
  match s with
  | EmptyString => Some acc
  | String c s' =>
      match digit_of c with
      | Some d => digits_value (10 * acc + d) s'
      | None => None
      end
  end.

Definition array_index (k : string) : option Z :=
  match k with
  | EmptyString => None
  | String c rest =>
      if Ascii.eqb c "0" && negb (Js.is_empty rest) then None
      else match digits_value 0 k with
           | Some n => if n <=? 4294967294 then Some n else None
           | None => None
           end
  end.

Definition precedes (k k' : string) : bool :=
  match array_index k, array_index k' with
  | Some i, Some j => i <? j
  | Some _, None => true
  | None, _ => false
  end.

(** [o[k] = v] on an ordinary object (CreateDataProperty). *)
Fixpoint set (k : string) (v : JsValue) (props : list (string * JsValue))
  : list (string * JsValue) :=
  match props with
  | [] => [(k, v)]
  | (k', v') :: rest =>
      if String.eqb k k' then (k, v) :: rest
      else if precedes k k' then (k, v) :: props
      else (k', v') :: set k v rest
  end.

(** An object literal [{k1: v1, ..., kn: vn}], properties defined in turn. *)
Definition object (kvs : list (string * JsValue)) : list (string * JsValue) :=
  fold_left (fun o kv => set (fst kv) (snd kv) o) kvs [].

Fixpoint lookup (k : string) (props : list (string * JsValue)) : option JsValue :=
  match props with
  | [] => None
  | (k', v) :: rest => if String.eqb k k' then Some v else lookup k rest
  end.

Definition has (k : string) (props : list (string * JsValue)) : bool :=
  match lookup k props with Some _ => true | None => false end.

(** Own enumerable properties that a spread [...v] copies: those of an
    object, the elements of an array and the characters of a string under
    their indices, nothing for the other values. *)
Fixpoint indexed (i : nat) (items : list JsValue) : list (string * JsValue) :=
  match items with
  | [] => []
  | x :: rest => (pretty i, x) :: indexed (S i) rest
  end.

Fixpoint chars (s : string) : list JsValue :=
  match s with
  | EmptyString => []
  | String c s' => JStr (String c EmptyString) :: chars s'
  end.

Definition own_props (v : JsValue) : list (string * JsValue) :=
  match v with
  | JObj props => props
  | JArr items => indexed 0 items
  | JStr s => indexed 0 (chars s)
  | _ => []
  end.

(** [{...o, ...v}]: the properties of [v] assigned onto [o] in order. *)
Definition spread (o : list (string * JsValue)) (v : JsValue)
  : list (string * JsValue) :=
  fold_left (fun o kv => set (fst kv) (snd kv) o) (own_props v) o.

(** [v?.k]: a property read that yields [undefined] on [null] and
    [undefined].  On the other values it is the plain read [v.k]. *)
Definition get (v : JsValue) (k : string) : JsValue :=
  match v with
  | JObj props => default JUndefined (lookup k props)
  | JArr items =>
      if String.eqb k "length" then JInt (Z.of_nat (length items))
      else match array_index k with
           | Some i => default JUndefined (items !! Z.to_nat i)
           | None => JUndefined
           end
  | JStr s =>
      if String.eqb k "length" then JInt (Z.of_nat (String.length s))
      else match array_index k with
           | Some i => default JUndefined (chars s !! Z.to_nat i)
           | None => JUndefined
           end
  | JError name msg =>
      if String.eqb k "message" then JStr msg
      else if String.eqb k "name" then JStr name
      else JUndefined
  | _ => JUndefined
  end.

(** [a === b] against a string literal, as [switch] and the route tests
    use it. *)
Definition is_str (v : JsValue) (s : string) : bool :=
  match v with JStr s' => String.eqb s' s | _ => false end.

Definition is_error (v : JsValue) : bool :=
  match v with JError _ _ => true | _ => false end.

End Value.

(* ===================================================================== *)
(** * The JSON object: [JSON.stringify] and [JSON.parse] *)
(* ===================================================================== *)

Module JSON.

Definition hex_digit (n : Z) : string :=
  String.substring (Z.to_nat n) 1 "0123456789abcdef".

(** QuoteJSONString *)
Definition quote_char (c : ascii) : string :=
  let n := Z.of_nat (nat_of_ascii c) in
  if n =? 34 then Js.bsl +:+ Js.dq
  else if n =? 92 then Js.bsl +:+ Js.bsl
  else if n =? 8 then Js.bsl +:+ "b"
  else if n =? 12 then Js.bsl +:+ "f"
  else if n =? 10 then Js.bsl +:+ "n"
  else if n =? 13 then Js.bsl +:+ "r"
  else if n =? 9 then Js.bsl +:+ "t"
  else if n <? 32 then Js.bsl +:+ "u00" +:+ hex_digit (n / 16) +:+ hex_digit (n mod 16)
  else String c EmptyString.

Fixpoint quote_chars (s : string) : string :=
  match s with
  | EmptyString => EmptyString
  | String c s' => quote_char c +:+ quote_chars s'
  end.

Definition quote (s : string) : string := Js.dq +:+ quote_chars s +:+ Js.dq.

(** The brackets around the serialized members: [gap] is the indentation
    unit (empty for the compact form), [ind] the current indentation. *)
Definition wrap (opening closing gap ind : string) (parts : list string) : string :=
  match parts with
  | [] => opening +:+ closing
  | _ =>
      if Js.is_empty gap then opening +:+ Js.join "," parts +:+ closing
      else opening +:+ Js.nl +:+ ind +:+ gap
             +:+ Js.join ("," +:+ Js.nl +:+ ind +:+ gap) parts
             +:+ Js.nl +:+ ind +:+ closing
  end.

(** SerializeJSONProperty; [None] is [undefined]. *)
Fixpoint serialize (gap ind : string) (v : JsValue) : option string :=
  match v with
  | JUndefined => None
  | JNull => Some "null"
  | JBool b => Some (if b then "true" else "false")
  | JNum m e => Some (Value.number_to_string m e)
  | JStr s => Some (quote s)
  | JError _ _ => Some "{}"
  | JArr items =>
      Some (wrap "[" "]" gap ind
              (map (fun x => default "null" (serialize gap (ind +:+ gap) x)) items))
  | JObj props =>
      Some (wrap "{" "}" gap ind
              (omap (fun kv =>
                       match serialize gap (ind +:+ gap) (snd kv) with
                       | Some t =>
                           Some (quote (fst kv) +:+ ":"
                                   +:+ (if Js.is_empty gap then "" else " ") +:+ t)
                       | None => None
                       end) props))
  end.

(** [JSON.stringify(v)] *)
Definition stringify (v : JsValue) : option string := serialize "" "" v.

(** [JSON.stringify(v, null, 2)] *)
Definition stringify2 (v : JsValue) : option string := serialize "  " "" v.

(** ** Parsing *)

Definition is_ws (c : ascii) : bool :=
  let n := nat_of_ascii c in
  ((n =? 32) || (n =? 9) || (n =? 10) || (n =? 13))%nat.

Fixpoint skip_ws (cs : list ascii) : list ascii :=
  match cs with
  | c :: cs' => if is_ws c then skip_ws cs' else cs
  | [] => []
  end.

Definition hex_value (c : ascii) : option Z :=
  let n := Z.of_nat (nat_of_ascii c) in
  if (48 <=? n) && (n <=? 57) then Some (n - 48)
  else if (65 <=? n) && (n <=? 70) then Some (n - 55)
  else if (97 <=? n) && (n <=? 102) then Some (n - 87)
  else None.

Definition hex4 (a b c d : ascii) : option Z :=
  match hex_value a, hex_value b, hex_value c, hex_value d with
  | Some x, Some y, Some z, Some w => Some (((x * 16 + y) * 16 + z) * 16 + w)
  | _, _, _, _ => None
  end.

(** A string body is read as a list of raw bytes and UTF-16 code units
    (from [\uXXXX]); the code units are then encoded as UTF-8, a surrogate
    pair as one code point. *)
Inductive unit16 := Raw (c : ascii) | Unit (u : Z).

Definition byte (n : Z) : ascii := ascii_of_nat (Z.to_nat n).

Definition utf8 (cp : Z) : list ascii :=
  if cp <? 128 then [byte cp]
  else if cp <? 2048 then [byte (192 + cp / 64); byte (128 + cp mod 64)]
  else if cp <? 65536 then
    [byte (224 + cp / 4096); byte (128 + (cp / 64) mod 64); byte (128 + cp mod 64)]
  else
    [byte (240 + cp / 262144); byte (128 + (cp / 4096) mod 64);
     byte (128 + (cp / 64) mod 64); byte (128 + cp mod 64)].

Fixpoint encode (us : list unit16) : list ascii :=
  match us with
  | [] => []
  | Raw c :: rest => c :: encode rest
  | Unit hi :: rest =>
      match rest with
      | Unit lo :: rest' =>
          if (55296 <=? hi) && (hi <=? 56319) && (56320 <=? lo) && (lo <=? 57343)
          then utf8 (65536 + (hi - 55296) * 1024 + (lo - 56320)) ++ encode rest'
          else utf8 hi ++ encode rest
      | _ => utf8 hi ++ encode rest
      end
  end.

(** The single-character escapes: quote, backslash, slash, b, f, n, r, t. *)
Definition escape (c : ascii) : option Z :=
  let n := Z.of_nat (nat_of_ascii c) in
  if n =? 34 then Some 34
  else if n =? 92 then Some 92
  else if n =? 47 then Some 47
  else if n =? 98 then Some 8
  else if n =? 102 then Some 12
  else if n =? 110 then Some 10
  else if n =? 114 then Some 13
  else if n =? 116 then Some 9
  else None.

(** The characters of a string literal after its opening quote. *)
Fixpoint string_body (cs : list ascii) : option (list unit16 * list ascii) :=
  match cs with
  | [] => None
  | c :: rest =>
      let n := nat_of_ascii c in
      if (n =? 34)%nat then Some ([], rest)
      else if (n =? 92)%nat then
        match rest with
        | e :: rest1 =>
            if (nat_of_ascii e =? 117)%nat then
              match rest1 with
              | a :: b :: c' :: d :: rest2 =>
                  match hex4 a b c' d, string_body rest2 with
                  | Some u, Some (us, r) => Some (Unit u :: us, r)
                  | _, _ => None
                  end
              | _ => None
              end
            else
              match escape e, string_body rest1 with
              | Some u, Some (us, r) => Some (Unit u :: us, r)
              | _, _ => None
              end
        | [] => None
        end
      else if (n <? 32)%nat then None
      else
        match string_body rest with
        | Some (us, r) => Some (Raw c :: us, r)
        | None => None
        end
  end.

Definition string_literal (cs : list ascii) : option (string * list ascii) :=
  match string_body cs with
  | Some (us, r) => Some (string_of_list_ascii (encode us), r)
  | None => None
  end.

(** Numbers: [-? int frac? exp?]. *)
Fixpoint digits (cs : list ascii) : list Z * list ascii :=
  match cs with
  | c :: cs' =>
      match Value.digit_of c with
      | Some d => let '(ds, r) := digits cs' in (d :: ds, r)
      | None => ([], cs)
      end
  | [] => ([], [])
  end.

Definition of_digits (ds : list Z) : Z := fold_left (fun acc d => 10 * acc + d) ds 0.

Fixpoint strip_zeros (k : nat) (m : Z) : Z * Z :=
  match k with
  | O => (m, 0)
  | S k' => if m mod 10 =? 0 then strip_zeros k' (m / 10) else (m, - Z.of_nat k)
  end.

Definition normalize (m e : Z) : JsValue :=
  if m =? 0 then JInt 0
  else if 0 <=? e then JInt (m * 10 ^ e)
  else let '(m', e') := strip_zeros (Z.to_nat (- e)) m in JNum m' e'.

Definition number (cs : list ascii) : option (JsValue * list ascii) :=
  let '(neg, cs1) :=
    match cs with
    | c :: r => if (nat_of_ascii c =? 45)%nat then (true, r) else (false, cs)
    | [] => (false, cs)
    end in
  let '(int, cs2) := digits cs1 in
  match int with
  | [] => None
  | d :: more =>
      if (d =? 0) && negb (length more =? 0)%nat then None
      else
        let '(frac, cs3, ok_frac) :=
          match cs2 with
          | c :: r =>
              if (nat_of_ascii c =? 46)%nat then
                let '(fr, r') := digits r in (fr, r', negb (length fr =? 0)%nat)
              else ([], cs2, true)
          | [] => ([], cs2, true)
          end in
        let '(ex, cs4, ok_exp) :=
          match cs3 with
          | c :: r =>
              if ((nat_of_ascii c =? 101) || (nat_of_ascii c =? 69))%nat then
                let '(sgn, r1) :=
                  match r with
                  | s :: r' =>
                      if (nat_of_ascii s =? 45)%nat then (-1, r')
                      else if (nat_of_ascii s =? 43)%nat then (1, r')
                      else (1, r)
                  | [] => (1, r)
                  end in
                let '(eds, r2) := digits r1 in
                (sgn * of_digits eds, r2, negb (length eds =? 0)%nat)
              else (0, cs3, true)
          | [] => (0, cs3, true)
          end in
        if ok_frac && ok_exp then
          let m := of_digits (int ++ frac) in
          Some (normalize (if neg then - m else m) (ex - Z.of_nat (length frac)), cs4)
        else None
  end.

Definition literal (word : string) (v : JsValue) (cs : list ascii)
  : option (JsValue * list ascii) :=
  match Js.drop_prefix word (string_of_list_ascii cs) with
  | Some rest => Some (v, list_ascii_of_string rest)
  | None => None
  end.

(** Values, array elements and object members.  Every call consumes at
    least one character before it recurses, so [fuel] above the length of
    the text never runs out. *)
Fixpoint value (fuel : nat) (cs : list ascii) : option (JsValue * list ascii) :=
  match fuel with
  | O => None
  | S fuel' =>
      match skip_ws cs with
      | [] => None
      | c :: rest =>
          let n := nat_of_ascii c in
          if (n =? 34)%nat then
            match string_literal rest with
            | Some (s, r) => Some (JStr s, r)
            | None => None
            end
          else if (n =? 91)%nat then
            match skip_ws rest with
            | c' :: r' =>
                if (nat_of_ascii c' =? 93)%nat then Some (JArr [], r')
                else match elements fuel' rest with
                     | Some (items, r) => Some (JArr items, r)
                     | None => None
                     end
            | [] => None
            end
          else if (n =? 123)%nat then
            match skip_ws rest with
            | c' :: r' =>
                if (nat_of_ascii c' =? 125)%nat then Some (JObj [], r')
                else match members fuel' [] rest with
                     | Some (props, r) => Some (JObj props, r)
                     | None => None
                     end
            | [] => None
            end
          else if (n =? 116)%nat then literal "true" (JBool true) (c :: rest)
          else if (n =? 102)%nat then literal "false" (JBool false) (c :: rest)
          else if (n =? 110)%nat then literal "null" JNull (c :: rest)
          else number (c :: rest)
      end
  end
with elements (fuel : nat) (cs : list ascii) : option (list JsValue * list ascii) :=
  match fuel with
  | O => None
  | S fuel' =>
      match value fuel' cs with
      | Some (v, r) =>
          match skip_ws r with
          | c :: r' =>
              if (nat_of_ascii c =? 93)%nat then Some ([v], r')
              else if (nat_of_ascii c =? 44)%nat then
                match elements fuel' r' with
                | Some (vs, r'') => Some (v :: vs, r'')
                | None => None
                end
              else None
          | [] => None
          end
      | None => None
      end
  end
with members (fuel : nat) (acc : list (string * JsValue)) (cs : list ascii)
  : option (list (string * JsValue) * list ascii) :=
  match fuel with
  | O => None
  | S fuel' =>
      match skip_ws cs with
      | q :: r0 =>
          if (nat_of_ascii q =? 34)%nat then
            match string_literal r0 with
            | Some (k, r1) =>
                match skip_ws r1 with
                | colon :: r2 =>
                    if (nat_of_ascii colon =? 58)%nat then
                      match value fuel' r2 with
                      | Some (v, r3) =>
                          let acc' := Value.set k v acc in
                          match skip_ws r3 with
                          | c :: r4 =>
                              if (nat_of_ascii c =? 125)%nat then Some (acc', r4)
                              else if (nat_of_ascii c =? 44)%nat then members fuel' acc' r4
                              else None
                          | [] => None
                          end
                      | None => None
                      end
                    else None
                | [] => None
                end
            | None => None
            end
          else None
      | [] => None
      end
  end.

(** [JSON.parse(text)]; [None] when it throws a SyntaxError. *)
Definition parse (text : string) : option JsValue :=
  let cs := list_ascii_of_string text in
  match value (S (S (length cs))) cs with
  | Some (v, rest) =>
      match skip_ws rest with
      | [] => Some v
      | _ => None
      end
  | None => None
  end.

End JSON.

(* ===================================================================== *)
(** * Effects: HTTP, child processes, and the program monad *)
(* ===================================================================== *)

(** The completion of an evaluation or of a promise: a value, or a thrown
    value (a rejection). *)
Inductive Completion (A : Type) : Type :=
| Normal (a : A)
| Thrown (e : JsValue).
Arguments Normal {A} a.
Arguments Thrown {A} e.

(** [new Error(msg)] and the engine's [TypeError]s. *)
Definition Error (msg : string) : JsValue := JError "Error" msg.
Definition TypeError (msg : string) : JsValue := JError "TypeError" msg.
Definition SyntaxError (msg : string) : JsValue := JError "SyntaxError" msg.

(** The argument of [fetch(url, init)].  Header names are as the code
    writes them. *)
Record Request : Type := {
  req_method : string;
  req_url : string;
  req_headers : gmap string string;
  req_body : option string
}.

(** A [Response].  The headers of a received response are keyed by their
    lower-case names, which is how [headers.get] looks them up.  [body] is
    what [text()] completes with. *)
Record Response : Type := {
  status : Z;
  statusText : string;
  headers : gmap string string;
  body : Completion string
}.

(** [response.ok] *)
Definition ok (r : Response) : bool := (200 <=? status r) && (status r <=? 299).

(** [response.headers.get(name)] *)
Definition headers_get (r : Response) (name : string) : option string :=
  headers r !! Js.toLowerCase name.

(** [new Response(body, init)] *)
Definition new_Response (b : string) (st : Z) (stText : string)
    (hs : gmap string string) : Response :=
  {| status := st; statusText := stText; headers := hs; body := Normal b |}.

(** The handle [spawn] returns. *)
Record ChildProcess : Type := { pid : nat; killed : bool }.

(** The fields of a [GrafanaMcpHttpProxy] that its methods read and write. *)
Record ProxyFields : Type := {
  mcpProcess : option ChildProcess;
  isInitialized : bool
}.

Definition set_mcpProcess (p : option ChildProcess) (f : ProxyFields) : ProxyFields :=
  {| mcpProcess := p; isInitialized := isInitialized f |}.
Definition set_isInitialized (b : bool) (f : ProxyFields) : ProxyFields :=
  {| mcpProcess := mcpProcess f; isInitialized := b |}.

(** Programs.  [Fetch], [Sleep] and [ValidateToken] are awaited: the
    caller is suspended there and other requests may run.  [Spawn],
    [GetThis] and [ModifyThis] are synchronous. *)
Inductive Prog (A : Type) : Type :=
| Ret (a : A)
| Throw (e : JsValue)
| Fetch (rq : Request) (k : Completion Response -> Prog A)
| Sleep (ms : Z) (k : Prog A)
| ValidateToken (token : string) (k : Completion JsValue -> Prog A)
| Spawn (cmd : string) (args : list string) (env : list (string * string))
        (k : ChildProcess -> Prog A)
| GetThis (k : ProxyFields -> Prog A)
| ModifyThis (f : ProxyFields -> ProxyFields) (k : Prog A).
Arguments Ret {A} a.
Arguments Throw {A} e.
Arguments Fetch {A} rq k.
Arguments Sleep {A} ms k.
Arguments ValidateToken {A} token k.
Arguments Spawn {A} cmd args env k.
Arguments GetThis {A} k.
Arguments ModifyThis {A} f k.

Fixpoint bind {A B : Type} (p : Prog A) (f : A -> Prog B) : Prog B :=
  match p with
  | Ret a => f a
  | Throw e => Throw e
  | Fetch rq k => Fetch rq (fun r => bind (k r) f)
  | Sleep ms k => Sleep ms (bind k f)
  | ValidateToken t k => ValidateToken t (fun r => bind (k r) f)
  | Spawn c a e k => Spawn c a e (fun h => bind (k h) f)
  | GetThis k => GetThis (fun s => bind (k s) f)
  | ModifyThis g k => ModifyThis g (bind k f)
  end.

(** [try { p } catch (e) { h e }] *)
Fixpoint try_catch {A : Type} (p : Prog A) (h : JsValue -> Prog A) : Prog A :=
  match p with
  | Ret a => Ret a
  | Throw e => h e
  | Fetch rq k => Fetch rq (fun r => try_catch (k r) h)
  | Sleep ms k => Sleep ms (try_catch k h)
  | ValidateToken t k => ValidateToken t (fun r => try_catch (k r) h)
  | Spawn c a e k => Spawn c a e (fun x => try_catch (k x) h)
  | GetThis k => GetThis (fun s => try_catch (k s) h)
  | ModifyThis g k => ModifyThis g (try_catch k h)
  end.

(** [Prog] is a monad; programs are written with stdpp's notation
    [x ← p; q] for "await [p], bind its value to [x], continue with [q]". *)
#[global] Instance prog_ret : MRet Prog := @Ret.
#[global] Instance prog_bind : MBind Prog := fun A B f p => bind p f.

Definition of_completion {A : Type} (c : Completion A) : Prog A :=
  match c with
  | Normal a => Ret a
  | Thrown e => Throw e
  end.

(** [await fetch(...)] *)
Definition fetch (rq : Request) : Prog Response := Fetch rq of_completion.

(** [await response.text()] *)
Definition text (r : Response) : Prog string := of_completion (body r).

(** [await sleep(ms)] *)
Definition sleep (ms : Z) : Prog unit := Sleep ms (Ret tt).

Definition spawn (cmd : string) (args : list string) (env : list (string * string))
  : Prog ChildProcess := Spawn cmd args env Ret.

Definition get_this : Prog ProxyFields := GetThis Ret.
Definition modify_this (f : ProxyFields -> ProxyFields) : Prog unit :=
  ModifyThis f (Ret tt).

(** [v.k]: a TypeError on [null] and [undefined] (V8's message). *)
Definition prop (v : JsValue) (k : string) : Prog JsValue :=
  if Value.nullish v
  then Throw (TypeError ("Cannot read properties of " +:+ Value.toString v
                           +:+ " (reading '" +:+ k +:+ "')"))
  else Ret (Value.get v k).

(** ** The sequential semantics *)

(** What a program did to the outside world, in order. *)
Inductive Event : Type :=
| EvFetch (rq : Request)
| EvSleep (ms : Z)
| EvValidate (token : string)
| EvSpawn (cmd : string) (args : list string) (env : list (string * string)).

(** The outside world: what a [fetch] completes with and what the token
    validator answers, each given everything that happened before. *)
Record World : Type := {
  net : list Event -> Request -> Completion Response;
  idp : list Event -> string -> Completion JsValue
}.

Record Machine : Type := {
  this : ProxyFields;
  trace : list Event
}.

Definition emit (ev : Event) (m : Machine) : Machine :=
  {| this := this m; trace := trace m ++ [ev] |}.

Definition is_spawn (ev : Event) : bool :=
  match ev with EvSpawn _ _ _ => true | _ => false end.

Definition spawn_count (evs : list Event) : nat :=
  length (filter (fun ev => is_spawn ev = true) evs).

(** The handle of the next child process: processes are numbered in the
    order they are spawned. *)
Definition next_process (m : Machine) : ChildProcess :=
  {| pid := S (spawn_count (trace m)); killed := false |}.

Fixpoint run {A : Type} (w : World) (p : Prog A) (m : Machine)
  : Completion A * Machine :=
  match p with
  | Ret a => (Normal a, m)
  | Throw e => (Thrown e, m)
  | Fetch rq k => run w (k (net w (trace m) rq)) (emit (EvFetch rq) m)
  | Sleep ms k => run w k (emit (EvSleep ms) m)
  | ValidateToken t k => run w (k (idp w (trace m) t)) (emit (EvValidate t) m)
  | Spawn c a e k => run w (k (next_process m)) (emit (EvSpawn c a e) m)
  | GetThis k => run w (k (this m)) m
  | ModifyThis f k => run w k {| this := f (this m); trace := trace m |}
  end.

(* ===================================================================== *)
(** * grafana-mcp-http-proxy.ts *)
(* ===================================================================== *)

Module GrafanaMcpHttpProxy.

(** [GrafanaMcpHttpProxyConfig] *)
Record Config : Type := {
  grafanaServiceAccountToken : string;
  grafanaUrl : string;
  mcpServerPort : option Z
}.

Section Proxy.

Variable config : Config.

(** [config.mcpServerPort || 3001] *)
Definition port : Z :=
  match mcpServerPort config with
  | Some p => if p =? 0 then 3001 else p
  | None => 3001
  end.

(** [this.mcpServerUrl], set by the constructor. *)
Definition mcpServerUrl : string := "http://localhost:" +:+ pretty port +:+ "/mcp".

Definition maxRetries : nat := 10.
Definition retryDelayMs : Z := 500.

Definition json_headers : gmap string string :=
  {[ "Content-Type" := "application/json" ]}.

(** The body of the readiness handshake,
    [JSON.stringify({ jsonrpc: '2.0', method: 'ping', id: 1 })]. *)
Definition ping : option string :=
  JSON.stringify
    (JObj (Value.object [("jsonrpc", JStr "2.0"); ("method", JStr "ping"); ("id", JInt 1)])).

Definition post_probe : Request :=
  {| req_method := "POST"; req_url := mcpServerUrl;
     req_headers := json_headers; req_body := ping |}.

Definition sse_probe : Request :=
  {| req_method := "GET"; req_url := mcpServerUrl;
     req_headers := {[ "Accept" := "text/event-stream" ]}; req_body := None |}.

(** What the first [try] block of an attempt decides on the handshake's
    response: [res.ok], or status 400 with the session text in the body
    ([res.text().catch(() => '')] reads it). *)
Definition post_ready (res : Response) : bool :=
  ok res ||
  let text := match body res with Normal s => s | Thrown _ => "" end in
  (status res =? 400) && Js.includes text "Invalid session ID".

(** What the second [try] block decides on the stream probe's response. *)
Definition sse_ready (sse : Response) : bool :=
  let ctype := Js.toLowerCase (default "" (headers_get sse "content-type")) in
  (status sse =? 200) && Js.includes ctype "text/event-stream".

(** 1) the POST handshake; a rejected or aborted [fetch] is caught and
    logged.  The result is [true] where the code returns from
    [waitForServer]. *)
Definition try_post : Prog bool :=
  try_catch (res ← fetch post_probe; mret (post_ready res))
            (fun _ => mret false).

(** 2) the fallback probe of the stream endpoint. *)
Definition try_sse : Prog bool :=
  try_catch (sse ← fetch sse_probe; mret (sse_ready sse))
            (fun _ => mret false).

(** One iteration of the [for] loop up to its [sleep]: [true] where the
    code returns from [waitForServer]. *)
Definition attempt : Prog bool :=
  ready ← try_post;
  if ready : bool then mret true else try_sse.

(** The [for] loop of [waitForServer] with [remaining = maxRetries - i]
    iterations to go, and the [throw] after it. *)
Fixpoint attempts (remaining : nat) : Prog unit :=
  match remaining with
  | O => Throw (Error "MCP server failed to start")
  | S remaining' =>
      ready ← attempt;
      if ready : bool then mret tt
      else sleep retryDelayMs;; attempts remaining'
  end.

Definition waitForServer : Prog unit := attempts maxRetries.

(** [this.isInitialized && this.mcpProcess && !this.mcpProcess.killed] *)
Definition running (f : ProxyFields) : bool :=
  isInitialized f &&
  match mcpProcess f with
  | Some p => negb (killed p)
  | None => false
  end.

Definition initializeMcpServer : Prog unit :=
  f ← get_this;
  if running f then mret tt
  else
    p ← spawn "mcp-grafana"
          ["-t"; "streamable-http"; "--address"; "0.0.0.0:" +:+ pretty port]
          [("GRAFANA_URL", grafanaUrl config);
           ("GRAFANA_SERVICE_ACCOUNT_TOKEN", grafanaServiceAccountToken config)];
    modify_this (set_mcpProcess (Some p));;
    waitForServer;;
    modify_this (set_isInitialized true).

(** The ['exit'] and ['error'] listeners installed on the child process. *)
Definition on_exit (f : ProxyFields) : ProxyFields := set_isInitialized false f.

(** The headers of the forwarded request: the session header only for a
    truthy [sessionId]. *)
Definition forward_headers (sessionId : option string) : gmap string string :=
  match sessionId with
  | Some sid => if Js.is_empty sid then json_headers
                else <[ "mcp-session-id" := sid ]> json_headers
  | None => json_headers
  end.

Definition forward (requestBody : JsValue) (sessionId : option string) : Request :=
  {| req_method := "POST"; req_url := mcpServerUrl;
     req_headers := forward_headers sessionId;
     req_body := JSON.stringify requestBody |}.

Definition retry (requestBody : JsValue) : Request :=
  {| req_method := "POST"; req_url := mcpServerUrl;
     req_headers := json_headers;
     req_body := JSON.stringify requestBody |}.

(** The synthesized envelope for a plain-text error body. *)
Definition errorResponse (id : JsValue) (responseBody : string) : JsValue :=
  JObj (Value.object
    [("jsonrpc", JStr "2.0");
     ("id", Value.or id (JInt 1));
     ("error", JObj (Value.object
        [("code", JInt (-32603));
         ("message", JStr "Internal error");
         ("data", JStr (Js.trim responseBody))]))]).

(** [!response.ok && responseBody && !responseBody.trim().startsWith('{')] *)
Definition plain_text_error (response : Response) (responseBody : string) : bool :=
  negb (ok response) && negb (Js.is_empty responseBody)
  && negb (Js.startsWith (Js.trim responseBody) "{").

(** The [try] block of [handleMcpRequest]; its [catch] logs and rethrows. *)
Definition forwarding (requestBody : JsValue) (sessionId : option string)
  : Prog Response :=
  try_catch
    (response ← fetch (forward requestBody sessionId);
     responseBody ← text response;
     if (status response =? 400) && Js.includes responseBody "Invalid session ID"
     then
       retryResponse ← fetch (retry requestBody);
       retryBody ← text retryResponse;
       mret (new_Response retryBody (status retryResponse)
               (statusText retryResponse) (headers retryResponse))
     else if plain_text_error response responseBody
     then
       id ← prop requestBody "id";
       mret (new_Response
               (default "" (JSON.stringify (errorResponse id responseBody)))
               200 "" json_headers)
     else
       mret (new_Response responseBody (status response)
               (statusText response) (headers response)))
    (fun error => Throw error).

Definition handleMcpRequest (requestBody : JsValue) (sessionId : option string)
  : Prog Response :=
  initializeMcpServer;;
  forwarding requestBody sessionId.

End Proxy.

End GrafanaMcpHttpProxy.

(* ===================================================================== *)
(** * custom-mcp-tools.ts *)
(* ===================================================================== *)

Module CustomMcpTools.

Definition lines (ls : list string) : string := Js.join Js.nl ls.

Definition prop_schema (type description : string) : JsValue :=
  JObj (Value.object [("type", JStr type); ("description", JStr description)]).

Definition query_datasource : JsValue :=
  JObj (Value.object
    [("name", JStr "query_datasource");
     ("description", JStr (lines
        ["Query any Grafana datasource with native query formats:";
         "- Azure Monitor: KQL queries for logs and metrics";
         "- Prometheus: PromQL for metrics  ";
         "- MySQL/PostgreSQL: SQL queries";
         "- InfluxDB: Flux or InfluxQL queries";
         "- Loki: LogQL queries";
         "- Any other datasource type supported by Grafana";
         "";
         "IMPORTANT: Use list_datasources_detailed (not list_datasources) first to get datasource UIDs and query format examples."]));
     ("inputSchema", JObj (Value.object
        [("type", JStr "object");
         ("properties", JObj (Value.object
            [("datasourceUid",
              prop_schema "string" "UID of the datasource (get from list_datasources_detailed)");
             ("query",
              prop_schema "object" "Query object - format depends on datasource type. Examples: {kusto: 'KQL query'} for Azure Monitor, {expr: 'PromQL'} for Prometheus, {rawSql: 'SQL'} for SQL databases");
             ("timeRange", JObj (Value.object
                [("type", JStr "object");
                 ("description", JStr "Time range for the query");
                 ("properties", JObj (Value.object
                    [("from", prop_schema "string" "Start time (ISO string or relative like 'now-1h')");
                     ("to", prop_schema "string" "End time (ISO string or relative like 'now')")]))]));
             ("maxDataPoints",
              prop_schema "number" "Maximum number of data points to return (optional)")]));
         ("required", JArr [JStr "datasourceUid"; JStr "query"])]))]).

Definition list_datasources_detailed : JsValue :=
  JObj (Value.object
    [("name", JStr "list_datasources_detailed");
     ("description", JStr "Enhanced datasource listing with query examples and detailed type information. Use this instead of list_datasources when you need to query datasources, as it provides query format examples for Azure Monitor (KQL), Prometheus (PromQL), SQL databases, and other types. The basic list_datasources only shows names and UIDs.");
     ("inputSchema", JObj (Value.object
        [("type", JStr "object");
         ("properties", JObj []);
         ("required", JArr [])]))]).

(** [customTools : Record<string, CustomTool>] *)
Definition customTools : list (string * JsValue) :=
  Value.object
    [("query_datasource", query_datasource);
     ("list_datasources_detailed", list_datasources_detailed)].

End CustomMcpTools.

(* ===================================================================== *)
(** * custom-tool-handler.ts *)
(* ===================================================================== *)

Module CustomToolHandler.

Section Handler.

(** The constructor's parameters. *)
Variable grafanaUrl : string.
Variable grafanaApiKey : string.

Definition quoted (s : string) : string := Js.dq +:+ s +:+ Js.dq.
Definition str_obj (kvs : list (string * string)) : JsValue :=
  JObj (Value.object (map (fun kv => (fst kv, JStr (snd kv))) kvs)).

(** [const { k, ... } = v]: a TypeError on [null] and [undefined]
    (V8's message). *)
Definition destructure (v : JsValue) (var k : string) : Prog unit :=
  if Value.nullish v
  then Throw (TypeError ("Cannot destructure property '" +:+ k +:+ "' of '" +:+ var
                           +:+ "' as it is " +:+ Value.toString v +:+ "."))
  else mret tt.

(** [await response.json()] *)
Definition json (r : Response) : Prog JsValue :=
  t ← text r;
  match JSON.parse t with
  | Some v => mret v
  | None => Throw (SyntaxError "Unexpected token in JSON")
  end.

Definition api_headers : gmap string string :=
  <[ "Content-Type" := "application/json" ]>
    {[ "Authorization" := "Bearer " +:+ grafanaApiKey ]}.

Definition text_content (s : string) : JsValue :=
  JObj (Value.object [("type", JStr "text"); ("text", JStr s)]).

Definition handleInitialize (params : JsValue) : Prog JsValue :=
  mret (JObj (Value.object
    [("protocolVersion", JStr "2025-06-18");
     ("capabilities", JObj (Value.object [("tools", JObj [])]));
     ("serverInfo", str_obj [("name", "grafana-mcp-custom-tools"); ("version", "1.0.0")]);
     ("instructions", JStr (CustomMcpTools.lines
        ["Custom Grafana MCP tools for enhanced datasource querying.";
         "";
         "Available tools:";
         "- query_datasource: Query any Grafana datasource by UID with native query format";
         "- list_datasources_detailed: Get detailed information about all configured datasources";
         "";
         "These tools extend the official Grafana MCP server with generic datasource querying capabilities."]))])).

(** [Object.values(customTools)] *)
Definition handleToolsList : Prog JsValue :=
  mret (JObj (Value.object
    [("tools", JArr (map snd CustomMcpTools.customTools))])).

(** The single element of [queryRequest.queries]. *)
Definition query_entry (datasourceUid query timeRange maxDataPoints : JsValue)
  : list (string * JsValue) :=
  let q0 := Value.object [("datasource", JObj (Value.object [("uid", datasourceUid)]))] in
  let q1 := Value.spread q0 query in
  let q2 := Value.set "refId" (JStr "A") q1 in
  let q3 := Value.spread q2
              (Value.and timeRange
                 (JObj (Value.object
                    [("timeRange", JObj (Value.object
                        [("from", Value.or (Value.get timeRange "from") (JStr "now-1h"));
                         ("to", Value.or (Value.get timeRange "to") (JStr "now"))]))]))) in
  Value.spread q3
    (Value.and maxDataPoints (JObj (Value.object [("maxDataPoints", maxDataPoints)]))).

Definition queryRequest (datasourceUid query timeRange maxDataPoints : JsValue) : JsValue :=
  JObj (Value.object
    [("queries", JArr [JObj (query_entry datasourceUid query timeRange maxDataPoints)])]).

Definition ds_query (datasourceUid query timeRange maxDataPoints : JsValue) : Request :=
  {| req_method := "POST";
     req_url := grafanaUrl +:+ "/api/ds/query";
     req_headers := api_headers;
     req_body := JSON.stringify (queryRequest datasourceUid query timeRange maxDataPoints) |}.

(** [result.results?.A?.frames?.length || 0], once [result.results] is read. *)
Definition frameCount (results : JsValue) : JsValue :=
  Value.or (Value.get (Value.get (Value.get results "A") "frames") "length") (JInt 0).

Definition query_summary (datasourceUid query timeRange count : JsValue) : string :=
  let summary := "Query executed successfully. Returned " +:+ Value.toString count
                   +:+ " data frames." in
  "**Query Results Summary**" +:+ Js.nl +:+ Js.nl +:+ summary +:+ Js.nl +:+ Js.nl
  +:+ "**Datasource**: " +:+ Value.toString datasourceUid +:+ Js.nl
  +:+ "**Query**: " +:+ default "undefined" (JSON.stringify2 query) +:+ Js.nl
  +:+ "**Time Range**: "
  +:+ Value.toString (Value.or (Value.get timeRange "from") (JStr "now-1h"))
  +:+ " to "
  +:+ Value.toString (Value.or (Value.get timeRange "to") (JStr "now"))
  +:+ Js.nl +:+ Js.nl
  +:+ "**Data Frames**: " +:+ Value.toString count.

Definition raw_data (result : JsValue) : string :=
  "**Raw Data**:" +:+ Js.nl +:+ "```json" +:+ Js.nl
  +:+ default "undefined" (JSON.stringify2 result) +:+ Js.nl +:+ "```".

Definition queryDatasource (params : JsValue) : Prog JsValue :=
  destructure params "params" "datasourceUid";;
  let datasourceUid := Value.get params "datasourceUid" in
  let query := Value.get params "query" in
  let timeRange := Value.get params "timeRange" in
  let maxDataPoints := Value.get params "maxDataPoints" in
  response ← fetch (ds_query datasourceUid query timeRange maxDataPoints);
  if negb (ok response) then
    errorText ← text response;
    Throw (Error ("Grafana query failed: " +:+ pretty (status response) +:+ " "
                    +:+ statusText response +:+ " - " +:+ errorText))
  else
    result ← json response;
    results ← prop result "results";
    let count := frameCount results in
    mret (JObj (Value.object
      [("content", JArr
          [text_content (query_summary datasourceUid query timeRange count);
           text_content (raw_data result)])])).

Definition ds_list : Request :=
  {| req_method := "GET";
     req_url := grafanaUrl +:+ "/api/datasources";
     req_headers := api_headers;
     req_body := None |}.

Fixpoint map_prog {A B : Type} (f : A -> Prog B) (l : list A) : Prog (list B) :=
  match l with
  | [] => mret []
  | x :: l' => y ← f x; ys ← map_prog f l'; mret (y :: ys)
  end.

(** [datasources.map(f)] on a value that need not be an array. *)
Definition array_map (v : JsValue) (var : string) (f : JsValue -> Prog JsValue)
  : Prog (list JsValue) :=
  match v with
  | JArr items => map_prog f items
  | JUndefined | JNull =>
      Throw (TypeError ("Cannot read properties of " +:+ Value.toString v
                          +:+ " (reading 'map')"))
  | _ => Throw (TypeError (var +:+ ".map is not a function"))
  end.

(** [ds => ({ uid: ds.uid, name: ds.name, type: ds.type, url: ds.url,
              isDefault: ds.isDefault || false })] *)
Definition detailed (ds : JsValue) : Prog JsValue :=
  uid ← prop ds "uid";
  mret (JObj (Value.object
    [("uid", uid);
     ("name", Value.get ds "name");
     ("type", Value.get ds "type");
     ("url", Value.get ds "url");
     ("isDefault", Value.or (Value.get ds "isDefault") (JBool false))])).

Definition datasource_text (ds : JsValue) : string :=
  "**" +:+ Value.toString (Value.get ds "name") +:+ "** ("
  +:+ Value.toString (Value.get ds "type") +:+ ")" +:+ Js.nl
  +:+ "- UID: `" +:+ Value.toString (Value.get ds "uid") +:+ "`" +:+ Js.nl
  +:+ "- Default: " +:+ (if Value.truthy (Value.get ds "isDefault") then "Yes" else "No")
  +:+ Js.nl
  +:+ "- URL: " +:+ Value.toString (Value.or (Value.get ds "url") (JStr "N/A")).

Definition example (field text description : string) : JsValue :=
  JObj (Value.object
    [("query", str_obj [(field, text); ("description", description)])]).

Definition queryExamples : JsValue :=
  JObj (Value.object
    [("grafana-azure-monitor-datasource", JObj (Value.object
        [("logs", str_obj
            [("kusto", "Heartbeat | where TimeGenerated > ago(1h) | limit 10");
             ("description", "KQL query for Azure Monitor Logs")]);
         ("metrics", JObj (Value.object
            [("metricDefinition", str_obj
                [("resourceGroup", "your-resource-group");
                 ("metricNamespace", "Microsoft.Compute/virtualMachines");
                 ("resourceName", "your-vm-name");
                 ("metricName", "Percentage CPU")]);
             ("description", JStr "Azure Monitor metrics query")]))]));
     ("prometheus", example "expr" "up" "PromQL query for Prometheus");
     ("loki", example "expr"
        ("{job=" +:+ quoted "your-job" +:+ "} |= " +:+ quoted "error")
        "LogQL query for Loki");
     ("mysql", example "rawSql" "SELECT * FROM your_table LIMIT 10" "SQL query for MySQL");
     ("postgres", example "rawSql" "SELECT * FROM your_table LIMIT 10"
        "SQL query for PostgreSQL");
     ("influxdb", example "query"
        ("from(bucket:" +:+ quoted "your-bucket" +:+ ") |> range(start: -1h) |> limit(n:10)")
        "Flux query for InfluxDB")]).

(** [typeof value === 'object'] *)
Definition typeof_object (v : JsValue) : bool :=
  match v with
  | JObj _ | JArr _ | JNull | JError _ _ => true
  | _ => false
  end.

Definition example_line (kv : string * JsValue) : string :=
  "- " +:+ fst kv +:+ ": `"
  +:+ (if typeof_object (snd kv) then default "undefined" (JSON.stringify (snd kv))
       else Value.toString (snd kv))
  +:+ "`".

Definition examples_text (kv : string * JsValue) : string :=
  "**" +:+ fst kv +:+ "**:" +:+ Js.nl
  +:+ Js.join Js.nl (map example_line (Value.own_props (snd kv))).

Definition usage_guide : string :=
  CustomMcpTools.lines
    ["**Usage Guide**:";
     "- Azure Monitor: Use {queryType: " +:+ quoted "Azure Log Analytics"
       +:+ ", azureLogAnalytics: {query: " +:+ quoted "your KQL query"
       +:+ ", workspace: " +:+ quoted "workspace-id" +:+ "}}";
     "- Prometheus: Use {expr: " +:+ quoted "your PromQL query" +:+ "}";
     "- SQL databases: Use {rawSql: " +:+ quoted "your SQL query" +:+ "}";
     "- Loki: Use {expr: " +:+ quoted "your LogQL query" +:+ "}"].

Definition listDatasourcesDetailed : Prog JsValue :=
  response ← fetch ds_list;
  if negb (ok response) then
    errorText ← text response;
    Throw (Error ("Failed to fetch datasources: " +:+ pretty (status response) +:+ " "
                    +:+ statusText response +:+ " - " +:+ errorText))
  else
    datasources ← json response;
    detailedDatasources ← array_map datasources "datasources" detailed;
    mret (JObj (Value.object
      [("content", JArr
          [text_content
             ("**Datasources Found**: " +:+ pretty (length detailedDatasources)
                +:+ Js.nl +:+ Js.nl
                +:+ Js.join (Js.nl +:+ Js.nl) (map datasource_text detailedDatasources));
           text_content
             ("**Query Examples**:" +:+ Js.nl +:+ Js.nl
                +:+ Js.join (Js.nl +:+ Js.nl)
                      (map examples_text (Value.own_props queryExamples)));
           text_content usage_guide])])).

(** The [switch (method)] of [handleCustomTool]. *)
Definition dispatch (method params : JsValue) : Prog JsValue :=
  if Value.is_str method "initialize" then handleInitialize params
  else if Value.is_str method "tools/list" then handleToolsList
  else if Value.is_str method "query_datasource" then queryDatasource params
  else if Value.is_str method "list_datasources_detailed" then listDatasourcesDetailed
  else Throw (Error ("Unknown custom tool: " +:+ Value.toString method)).

(** The envelope the [catch] block returns. *)
Definition error_envelope (id error : JsValue) : JsValue :=
  JObj (Value.object
    [("jsonrpc", JStr "2.0");
     ("id", id);
     ("error", JObj (Value.object
        [("code", JInt (-1));
         ("message", if Value.is_error error then Value.get error "message"
                     else JStr "Unknown error");
         ("data", error)]))]).

Definition result_envelope (id result : JsValue) : JsValue :=
  JObj (Value.object [("jsonrpc", JStr "2.0"); ("id", id); ("result", result)]).

Definition handleCustomTool (request : JsValue) : Prog JsValue :=
  destructure request "request" "method";;
  let method := Value.get request "method" in
  let params := Value.get request "params" in
  let id := Value.get request "id" in
  try_catch
    (result ← dispatch method params;
     mret (result_envelope id result))
    (fun error => mret (error_envelope id error)).

Definition isCustomTool (method : JsValue) : bool :=
  Value.is_str method "query_datasource" || Value.is_str method "list_datasources_detailed".

End Handler.

End CustomToolHandler.

(* ===================================================================== *)
(** * index.ts *)
(* ===================================================================== *)

Module Gateway.

(** [c.json(object, status)] *)
Definition c_json (object : JsValue) (st : Z) : Response :=
  new_Response (default "" (JSON.stringify object)) st ""
    {[ "content-type" := "application/json" ]}.

(** [await c.req.json()] on the text of the request body. *)
Definition c_req_json (body_text : string) : Prog JsValue :=
  match JSON.parse body_text with
  | Some v => mret v
  | None => Throw (SyntaxError "Unexpected token in JSON")
  end.

(** [await oauthValidator.validateToken(token)]; the validator itself
    ([oauth-validator.ts]) is the world's [idp]. *)
Definition validateToken (token : string) : Prog JsValue :=
  ValidateToken token of_completion.

Definition error_body (error error_description : string) : JsValue :=
  JObj (Value.object
    [("error", JStr error); ("error_description", JStr error_description)]).

(** The [customTools] array written out in the [tools/list] branch. *)
Definition customTools : list JsValue :=
  [ JObj (Value.object
      [("name", JStr "list_datasources_detailed");
       ("description", JStr "List all Grafana datasources with detailed information including query examples for Azure Monitor (KQL), Prometheus (PromQL), SQL databases, and more");
       ("inputSchema", JObj (Value.object
          [("type", JStr "object");
           ("properties", JObj []);
           ("required", JArr [])]))]);
    JObj (Value.object
      [("name", JStr "query_datasource");
       ("description", JStr "Query any Grafana datasource using native query formats (KQL for Azure Monitor, PromQL for Prometheus, SQL for databases, etc.)");
       ("inputSchema", JObj (Value.object
          [("type", JStr "object");
           ("properties", JObj (Value.object
              [("datasourceUid",
                CustomMcpTools.prop_schema "string" "The UID of the datasource to query");
               ("query",
                CustomMcpTools.prop_schema "object"
                  ("Query object in native format (e.g., {kusto: "
                     +:+ CustomToolHandler.quoted "KQL query"
                     +:+ "} for Azure Monitor, {expr: "
                     +:+ CustomToolHandler.quoted "PromQL" +:+ "} for Prometheus)"));
               ("timeRange", JObj (Value.object
                  [("type", JStr "object");
                   ("properties", JObj (Value.object
                      [("from", CustomMcpTools.prop_schema "string"
                                  ("Start time (e.g., " +:+ CustomToolHandler.quoted "now-1h" +:+ ")"));
                       ("to", CustomMcpTools.prop_schema "string"
                                ("End time (e.g., " +:+ CustomToolHandler.quoted "now" +:+ ")"))]))]));
               ("maxDataPoints",
                CustomMcpTools.prop_schema "number" "Maximum number of data points to return")]));
           ("required", JArr [JStr "datasourceUid"; JStr "query"])]))]) ].

(** [[...v]]: the elements of an array, the characters of a string, a
    TypeError on the other values ([v] is truthy where this is used). *)
Definition spread_array (v : JsValue) (source : string) : Prog (list JsValue) :=
  match v with
  | JArr items => mret items
  | JStr s => mret (Value.chars s)
  | _ => Throw (TypeError (source +:+ " is not iterable"))
  end.

Section Routes.

(** [process.env.MCP_TRANSPORT || 'stdio'] *)
Variable mcpTransport : string.
(** [process.env.GRAFANA_URL || 'http://localhost:3000'] and
    [process.env.GRAFANA_SERVICE_ACCOUNT_TOKEN] *)
Variable grafanaUrl : string.
Variable grafanaServiceAccountToken : string.
(** [parseInt(process.env.MCP_SERVER_PORT || '3001')] *)
Variable mcpServerPort : Z.
(** [grafanaProxy.handleMcpRequest] of the stdio proxy
    ([grafana-mcp-proxy.ts]), used when the transport is not ['http']. *)
Variable stdioProxy : JsValue -> option string -> Prog Response.

Definition proxyConfig : GrafanaMcpHttpProxy.Config :=
  {| GrafanaMcpHttpProxy.grafanaServiceAccountToken := grafanaServiceAccountToken;
     GrafanaMcpHttpProxy.grafanaUrl := grafanaUrl;
     GrafanaMcpHttpProxy.mcpServerPort := Some mcpServerPort |}.

(** [grafanaProxy.handleMcpRequest] *)
Definition grafanaProxy (requestBody : JsValue) (sessionId : option string)
  : Prog Response :=
  if String.eqb mcpTransport "http"
  then GrafanaMcpHttpProxy.handleMcpRequest proxyConfig requestBody sessionId
  else stdioProxy requestBody sessionId.

Definition customToolHandler_handleCustomTool : JsValue -> Prog JsValue :=
  CustomToolHandler.handleCustomTool grafanaUrl grafanaServiceAccountToken.

(** The request headers [c.req.header(name)] reads, keyed by lower-case
    name. *)
Definition c_req_header (hdrs : gmap string string) (name : string) : option string :=
  hdrs !! Js.toLowerCase name.

(** The branch for [body.method === 'tools/list']. *)
Definition tools_list (hdrs : gmap string string) (body : JsValue) : Prog Response :=
  try_catch
    (let sessionId := c_req_header hdrs "mcp-session-id" in
     grafanaResponse ← grafanaProxy body sessionId;
     responseText ← text grafanaResponse;
     let grafanaData :=
       match JSON.parse responseText with
       | Some data => data
       | None => JObj (Value.object [("result", JObj (Value.object [("tools", JArr [])]))])
       end in
     result ← prop grafanaData "result";
     if Value.truthy result && Value.truthy (Value.get result "tools")
     then
       tools ← spread_array (Value.get result "tools") "grafanaData.result.tools";
       let combinedTools := (tools ++ customTools)%list in
       mret (c_json (JObj (Value.object
               [("jsonrpc", JStr "2.0");
                ("id", Value.get body "id");
                ("result", JObj (Value.object [("tools", JArr combinedTools)]))])) 200)
     else mret (c_json grafanaData 200))
    (fun error =>
       mret (c_json (error_body "internal_error"
                       ("Failed to combine tools: " +:+ Value.toString error)) 500)).

(** The POST route after the token has been validated. *)
Definition authenticated (hdrs : gmap string string) (body_text : string)
  : Prog Response :=
  body ← c_req_json body_text;
  method ← prop body "method";
  let name := Value.get (Value.get body "params") "name" in
  if Value.is_str method "tools/call" && Value.truthy name
     && CustomToolHandler.isCustomTool name
  then
    let customRequest :=
      JObj (Value.object
        [("method", name);
         ("params", Value.or (Value.get (Value.get body "params") "arguments") (JObj []));
         ("id", Value.get body "id")]) in
    response ← customToolHandler_handleCustomTool customRequest;
    mret (c_json response 200)
  else if Value.is_str method "tools/list" then tools_list hdrs body
  else grafanaProxy body (c_req_header hdrs "mcp-session-id").

(** [!authHeader || !authHeader.startsWith('Bearer ')] *)
Definition no_bearer (authHeader : option string) : bool :=
  match authHeader with
  | None => true
  | Some h => Js.is_empty h || negb (Js.startsWith h "Bearer ")
  end.

(** [authHeader.substring(7)] *)
Definition bearer_token (authHeader : option string) : string :=
  let h := default "" authHeader in
  String.substring 7 (String.length h - 7) h.

(** [app.post(`${basePath}/`, ...)] *)
Definition post (hdrs : gmap string string) (body_text : string) : Prog Response :=
  try_catch
    (let authHeader := c_req_header hdrs "authorization" in
     if no_bearer authHeader
     then mret (c_json (error_body "unauthorized"
                          "Missing or invalid authorization header") 401)
     else
       valid ← try_catch (validateToken (bearer_token authHeader);; mret true)
                         (fun _ => mret false);
       if valid : bool then authenticated hdrs body_text
       else mret (c_json (error_body "unauthorized"
                            "Invalid or expired access token") 401))
    (fun _ =>
       mret (c_json (error_body "internal_error" "Failed to process MCP request") 500)).

(** The request the DELETE route forwards. *)
Definition delete_request (hdrs : gmap string string) : Request :=
  {| req_method := "DELETE";
     req_url := "http://localhost:" +:+ pretty mcpServerPort +:+ "/mcp";
     req_headers :=
       match c_req_header hdrs "mcp-session-id" with
       | Some sessionId =>
           if Js.is_empty sessionId then ∅ else {[ "mcp-session-id" := sessionId ]}
       | None => ∅
       end;
     req_body := None |}.

(** [app.delete(`${basePath}/`, ...)] *)
Definition delete (hdrs : gmap string string) : Prog Response :=
  try_catch
    (if String.eqb mcpTransport "http"
     then
       response ← fetch (delete_request hdrs);
       mret {| status := status response; statusText := "";
               headers := headers response; body := body response |}
     else mret (c_json (JObj (Value.object [("error", JStr "not_supported")])) 400))
    (fun _ =>
       mret (c_json (error_body "internal_error" "Failed to terminate session") 500)).

End Routes.

End Gateway.

(* ===================================================================== *)
(** * The interleaved semantics *)
(* ===================================================================== *)

(** Requests are served on one thread: a handler runs without
    interruption up to its next awaited operation, where it is suspended
    and another handler may run.  All handlers share the one proxy
    object. *)
Module Interleaving.

(** Run the synchronous prefix of a program, up to its first awaited
    operation, its return or its throw. *)
Fixpoint settle {A : Type} (p : Prog A) (m : Machine) : Prog A * Machine :=
  match p with
  | Spawn c a e k => settle (k (next_process m)) (emit (EvSpawn c a e) m)
  | GetThis k => settle (k (this m)) m
  | ModifyThis f k => settle k {| this := f (this m); trace := trace m |}
  | _ => (p, m)
  end.

(** A demand that has not been taken up yet, or one that has run up to an
    awaited operation (or to its end). *)
Inductive Task : Type :=
| Pending (p : Prog unit)
| Started (p : Prog unit).

Record Config : Type := {
  machine : Machine;
  tasks : list Task
}.

Definition resume (i : nat) (p : Prog unit) (m : Machine) (ts : list Task) : Config :=
  {| machine := snd (settle p m); tasks := <[ i := Started (fst (settle p m)) ]> ts |}.

(** One scheduling step.  The completions of awaited operations are
    arbitrary: the relation covers every behaviour of the backend, and the
    exit of a spawned child process at any moment. *)
Inductive step : Config -> Config -> Prop :=
| step_arrive (c : Config) (i : nat) (p : Prog unit) :
    tasks c !! i = Some (Pending p) ->
    step c (resume i p (machine c) (tasks c))
| step_fetch (c : Config) (i : nat) (rq : Request) (k : Completion Response -> Prog unit)
             (r : Completion Response) :
    tasks c !! i = Some (Started (Fetch rq k)) ->
    step c (resume i (k r) (emit (EvFetch rq) (machine c)) (tasks c))
| step_sleep (c : Config) (i : nat) (ms : Z) (k : Prog unit) :
    tasks c !! i = Some (Started (Sleep ms k)) ->
    step c (resume i k (emit (EvSleep ms) (machine c)) (tasks c))
| step_validate (c : Config) (i : nat) (t : string) (k : Completion JsValue -> Prog unit)
                (r : Completion JsValue) :
    tasks c !! i = Some (Started (ValidateToken t k)) ->
    step c (resume i (k r) (emit (EvValidate t) (machine c)) (tasks c))
| step_exit (c : Config) :
    mcpProcess (this (machine c)) <> None ->
    step c {| machine := {| this := GrafanaMcpHttpProxy.on_exit (this (machine c));
                            trace := trace (machine c) |};
              tasks := tasks c |}.

Inductive steps : Config -> Config -> Prop :=
| steps_refl (c : Config) : steps c c
| steps_step (c1 c2 c3 : Config) : steps c1 c2 -> step c2 c3 -> steps c1 c3.

(** A freshly constructed proxy. *)
Definition fresh : Machine :=
  {| this := {| mcpProcess := None; isInitialized := false |}; trace := [] |}.

(** [n] first-time demands for backend readiness on a fresh proxy. *)
Definition demands (config : GrafanaMcpHttpProxy.Config) (n : nat) : Config :=
  {| machine := fresh;
     tasks := replicate n (Pending (GrafanaMcpHttpProxy.initializeMcpServer config)) |}.

Definition is_started (t : Task) : bool :=
  match t with Started _ => true | Pending _ => false end.

Definition started (c : Config) : nat :=
  length (filter (fun t => is_started t = true) (tasks c)).

Definition spawned (c : Config) : nat := spawn_count (trace (machine c)).

End Interleaving.


(* ===================================================================== *)
(** * Vocabulary of the properties *)
(* ===================================================================== *)

Module Readiness.

Import GrafanaMcpHttpProxy.

(** What a probe's [try] block decides on the completion of its [fetch]:
    a rejection (or an abort by the 2500 ms timer) decides nothing. *)
Definition confirms (ready : Response -> bool) (c : Completion Response) : bool :=
  match c with
  | Normal res => ready res
  | Thrown _ => false
  end.

(** The events of an iteration of [waitForServer] that confirmed nothing. *)
Definition failed_attempt (config : Config) : list Event :=
  [EvFetch (post_probe config); EvFetch (sse_probe config); EvSleep 500].

(** The machine after [k] such iterations. *)
Definition after (config : Config) (k : nat) (m : Machine) : Machine :=
  {| this := this m;
     trace := trace m ++ concat (replicate k (failed_attempt config)) |}.

End Readiness.


(** The spec's protocol envelope, for a response: a JSON object with
    exactly one of [result] and [error]. *)
Module Envelope.


End Envelope.

(** Concrete configurations, machines and worlds on which the properties
    are evaluated. *)
Module Scenario.

Definition config : GrafanaMcpHttpProxy.Config :=
  {| GrafanaMcpHttpProxy.grafanaServiceAccountToken := "glsa_token";
     GrafanaMcpHttpProxy.grafanaUrl := "http://grafana:3000";
     GrafanaMcpHttpProxy.mcpServerPort := Some 3001 |}.

(** A proxy whose backend has been started and confirmed. *)
Definition initialized : Machine :=
  {| this := {| mcpProcess := Some {| pid := 1; killed := false |};
                isInitialized := true |};
     trace := [EvSpawn "mcp-grafana" [] []] |}.

Definition reply (st : Z) (stText : string) (ctype : string) (b : string)
  : Completion Response :=
  Normal {| status := st; statusText := stText;
            headers := {[ "content-type" := ctype ]}; body := Normal b |}.

(** A world whose [i]-th awaited [fetch] (counting the fetches in the
    trace) completes with the [i]-th element of [script], and with a
    network error once the script is over; every token is valid. *)
Definition is_fetch (ev : Event) : bool :=
  match ev with EvFetch _ => true | _ => false end.

Definition scripted (script : list (Completion Response)) : World :=
  {| net := fun history _ =>
       default (Thrown (TypeError "fetch failed"))
               (script !! length (filter (fun ev => is_fetch ev = true) history));
     idp := fun _ _ => Normal (JObj []) |}.

(** The same, with a validator that accepts the token "good" only. *)
Definition guarded (script : list (Completion Response)) : World :=
  {| net := net (scripted script);
     idp := fun _ token =>
       if String.eqb token "good" then Normal (JObj [])
       else Thrown (Error "Invalid token") |}.

Definition request (id : JsValue) (method : string) : JsValue :=
  JObj (Value.object
    [("jsonrpc", JStr "2.0"); ("id", id); ("method", JStr method)]).

End Scenario.


Module Scenarios.

Import Scenario.

Definition quoted := CustomToolHandler.quoted.

(** A backend that rejects a stale session, then answers the retry. *)
Definition stale_session : World :=
  scripted
    [ reply 400 "Bad Request" "text/plain" "Invalid session ID";
      reply 200 "OK" "application/json"
        ("{" +:+ quoted "jsonrpc" +:+ ":" +:+ quoted "2.0" +:+ ","
           +:+ quoted "id" +:+ ":3," +:+ quoted "result" +:+ ":{}}") ].






End Scenarios.


(** The tool catalog of a [tools/list] result. *)
Module Catalog.

(** The names of a list of tool descriptors. *)
Definition names (tools : list JsValue) : list JsValue :=
  map (fun tool => Value.get tool "name") tools.




End Catalog.

Module GatewayScenarios.

Import Scenario Scenarios.

Definition no_stdio (requestBody : JsValue) (sessionId : option string)
  : Prog Response :=
  Throw (Error "stdio transport is not configured").

(** The gateway in http transport mode. *)
Definition post : gmap string string -> string -> Prog Response :=
  Gateway.post "http" "http://grafana:3000" "glsa_token" 3001 no_stdio.

Definition delete : gmap string string -> Prog Response :=
  Gateway.delete "http" 3001.

Definition json_object (members : list string) : string :=
  "{" +:+ Js.join "," members +:+ "}".
Definition member (key value : string) : string := quoted key +:+ ":" +:+ value.

(** The text of a [tools/list] request with id 1. *)
Definition tools_list_request : string :=
  json_object [member "jsonrpc" (quoted "2.0"); member "id" "1";
               member "method" (quoted "tools/list")].

(** A backend catalog with one tool of the given name. *)
Definition catalog (name : string) : string :=
  json_object
    [member "jsonrpc" (quoted "2.0"); member "id" "1";
     member "result"
       (json_object [member "tools" ("[" +:+ json_object [member "name" (quoted name)] +:+ "]")])].

(** A backend that fails the request with a protocol error. *)
Definition method_not_found : string :=
  json_object
    [member "jsonrpc" (quoted "2.0"); member "id" "1";
     member "error"
       (json_object [member "code" "-32601"; member "message" (quoted "Method not found")])].

Definition backend (answer : string) : World :=
  guarded [ reply 200 "OK" "application/json" answer ].

Definition bearer (token : string) : gmap string string :=
  {[ "authorization" := "Bearer " +:+ token ]}.

End GatewayScenarios.


Module CatalogScenarios.

Import Scenario Scenarios GatewayScenarios.


(** The parsed [tools/list] request. *)
Definition request_body : JsValue :=
  JObj [("jsonrpc", JStr "2.0"); ("id", JInt 1); ("method", JStr "tools/list")].


(** The machine once the token is validated and the request forwarded. *)
Definition forwarded : Machine :=
  {| this := this initialized;
     trace := trace initialized
                ++ [EvValidate "good";
                    EvFetch (GrafanaMcpHttpProxy.forward
                               (Gateway.proxyConfig "http://grafana:3000" "glsa_token" 3001)
                               request_body None)] |}.

End CatalogScenarios.


Module ToolScenarios.

Import Scenario Scenarios GatewayScenarios.

(** The arguments of the spec's [query_datasource] scenario. *)
Definition arguments : JsValue :=
  JObj [("datasourceUid", JStr "X");
        ("query", JObj [("expr", JStr "up")]);
        ("timeRange", JObj [("from", JStr "now-1h"); ("to", JStr "now")])].


Definition call_body : JsValue :=
  JObj [("jsonrpc", JStr "2.0"); ("id", JInt 1); ("method", JStr "tools/call");
        ("params", JObj [("name", JStr "query_datasource"); ("arguments", arguments)])].

(** The text of that [tools/call] request. *)
Definition call_text : string := default "" (JSON.stringify call_body).

(** An upstream result with two frames. *)
Definition two_frames : JsValue :=
  JObj [("results", JObj [("A", JObj [("frames", JArr [JObj []; JObj []])])])].

Definition upstream_ok : World :=
  guarded [ reply 200 "OK" "application/json" (default "" (JSON.stringify two_frames)) ].



Definition queryDatasource : JsValue -> Prog JsValue :=
  CustomToolHandler.queryDatasource "http://grafana:3000" "glsa_token".

Definition ds_query : JsValue -> JsValue -> JsValue -> JsValue -> Request :=
  CustomToolHandler.ds_query "http://grafana:3000" "glsa_token".

Definition authenticated : gmap string string -> string -> Prog Response :=
  Gateway.authenticated "http" "http://grafana:3000" "glsa_token" 3001 no_stdio.

End ToolScenarios.


Module Supervisor.

Import GrafanaMcpHttpProxy.

(** The event of [initializeMcpServer]'s call of [spawn]. *)
Definition backend_spawned (config : Config) : Event :=
  EvSpawn "mcp-grafana"
    ["-t"; "streamable-http"; "--address"; "0.0.0.0:" +:+ pretty (port config)]
    [("GRAFANA_URL", grafanaUrl config);
     ("GRAFANA_SERVICE_ACCOUNT_TOKEN", grafanaServiceAccountToken config)].

(** The machine once a demand has run up to its first [await]: the
    process spawned and stored, readiness not yet probed. *)
Definition spawning (config : Config) (m : Machine) : Machine :=
  {| this := set_mcpProcess (Some (next_process m)) (this m);
     trace := trace m ++ [backend_spawned config] |}.

End Supervisor.


Module Quiet.

(** Programs that never call [spawn], whatever their awaited operations
    complete with. *)
Inductive quiet {A : Type} : Prog A -> Prop :=
| quiet_ret (a : A) : quiet (Ret a)
| quiet_throw (e : JsValue) : quiet (Throw e)
| quiet_fetch (rq : Request) (k : Completion Response -> Prog A) :
    (forall r, quiet (k r)) -> quiet (Fetch rq k)
| quiet_sleep (ms : Z) (k : Prog A) : quiet k -> quiet (Sleep ms k)
| quiet_validate (t : string) (k : Completion JsValue -> Prog A) :
    (forall r, quiet (k r)) -> quiet (ValidateToken t k)
| quiet_get (k : ProxyFields -> Prog A) :
    (forall f, quiet (k f)) -> quiet (GetThis k)
| quiet_modify (f : ProxyFields -> ProxyFields) (k : Prog A) :
    quiet k -> quiet (ModifyThis f k).

(** The tasks of a configuration of readiness demands: not taken up yet,
    or past their spawn. *)
Definition demand (config : GrafanaMcpHttpProxy.Config) (t : Interleaving.Task) : Prop :=
  match t with
  | Interleaving.Pending p => p = GrafanaMcpHttpProxy.initializeMcpServer config
  | Interleaving.Started p => quiet p
  end.

Definition count_started (ts : list Interleaving.Task) : nat :=
  length (filter (fun t => Interleaving.is_started t = true) ts).

(** What every reachable configuration of [n] demands satisfies. *)
Definition invariant (config : GrafanaMcpHttpProxy.Config) (n : nat)
    (c : Interleaving.Config) : Prop :=
  length (Interleaving.tasks c) = n
  /\ Forall (demand config) (Interleaving.tasks c)
  /\ (Interleaving.spawned c <= Interleaving.started c)%nat.

End Quiet.


Module DemandScenarios.

Import Interleaving.

Definition demanded : Prog unit :=
  GrafanaMcpHttpProxy.initializeMcpServer Scenario.config.

(** The first of two demands has arrived and awaits its readiness probe. *)
Definition one_in_flight : Config :=
  resume 0 demanded (machine (demands Scenario.config 2))
         (tasks (demands Scenario.config 2)).

(** The second demand arrives while the first is in flight. *)
Definition both_in_flight : Config :=
  resume 1 demanded (machine one_in_flight) (tasks one_in_flight).

End DemandScenarios.


Module WorkedScenarios.

Import Scenario Scenarios GatewayScenarios ToolScenarios.

(** A backend that never answers: every [fetch] is rejected. *)
Definition dead : World := scripted [].

(** A backend whose stream endpoint comes up on the second iteration of
    the readiness loop: the handshakes and the first stream probe fail. *)
Definition slow_start : World :=
  scripted
    [ Thrown (TypeError "fetch failed"); Thrown (TypeError "fetch failed");
      reply 404 "Not Found" "text/plain" "404 page not found";
      reply 200 "OK" "text/event-stream; charset=utf-8" "" ].

Definition events (c : Completion unit * Machine) : nat := length (trace (snd c)).

Definition status_of (c : Completion Response * Machine) : option Z :=
  match fst c with
  | Normal resp => Some (status resp)
  | Thrown _ => None
  end.

(** The text of the first content item of a tool result in a response. *)
Definition first_text (r : Completion Response) : string :=
  match r with
  | Normal resp =>
      match body resp with
      | Normal t =>
          match JSON.parse t with
          | Some v =>
              Value.toString
                (Value.get (Value.get (Value.get (Value.get v "result") "content") "0")
                   "text")
          | None => ""
          end
      | Thrown _ => ""
      end
  | Thrown _ => ""
  end.

End WorkedScenarios.

(** What a stretch of events costs: the requests sent and the time slept. *)
Module Budget.

Definition fetches (evs : list Event) : nat :=
  length (filter (fun ev => Scenario.is_fetch ev = true) evs).

Fixpoint slept (evs : list Event) : Z :=
  match evs with
  | [] => 0
  | EvSleep ms :: rest => ms + slept rest
  | _ :: rest => slept rest
  end.

End Budget.


(** Requests and backends for the routes that relay. *)
Module RelayScenarios.

Import Scenario Scenarios GatewayScenarios.

(** The text of an [initialize] request with id 1, and its parsed form. *)
Definition initialize_request : string :=
  json_object [member "jsonrpc" (quoted "2.0"); member "id" "1";
               member "method" (quoted "initialize")].

Definition initialize_body : JsValue :=
  JObj [("jsonrpc", JStr "2.0"); ("id", JInt 1); ("method", JStr "initialize")].

(** The backend's answer to it. *)
Definition initialized_answer : string :=
  json_object [member "jsonrpc" (quoted "2.0"); member "id" "1";
               member "result" (json_object [member "protocolVersion" (quoted "2025-06-18")])].

(** A backend that answers 200 with a text that is no JSON. *)
Definition chatty : World := guarded [ reply 200 "OK" "text/plain" "ready" ].

(** A backend that accepts no connection; the validator accepts the token
    "good". *)
Definition unreachable : World := guarded [].

End RelayScenarios.


(** Upstream answers for the datasource listing. *)
Module ListingScenarios.

Import Scenario Scenarios GatewayScenarios ToolScenarios.

(** Two datasources, the second without [isDefault] and [url]. *)
Definition two_datasources : list JsValue :=
  [ JObj [("uid", JStr "P1"); ("name", JStr "Prometheus"); ("type", JStr "prometheus");
          ("url", JStr "http://prom:9090"); ("isDefault", JBool true)];
    JObj [("uid", JStr "L1"); ("name", JStr "Loki"); ("type", JStr "loki")] ].

Definition listing_response (items : list JsValue) : Response :=
  {| status := 200; statusText := "OK";
     headers := {[ "content-type" := "application/json" ]};
     body := Normal (default "" (JSON.stringify (JArr items))) |}.

Definition upstream_lists (items : list JsValue) : World :=
  guarded [ Normal (listing_response items) ].

(** An upstream that answers 200 with a JSON object, not an array. *)
Definition upstream_object : World :=
  guarded [ reply 200 "OK" "application/json"
              (json_object [member "message" (quoted "Unauthorized")]) ].

Definition listDatasourcesDetailed : Prog JsValue :=
  CustomToolHandler.listDatasourcesDetailed "http://grafana:3000" "glsa_token".

Definition handleCustomTool : JsValue -> Prog JsValue :=
  CustomToolHandler.handleCustomTool "http://grafana:3000" "glsa_token".

Definition ds_list : Request := CustomToolHandler.ds_list "http://grafana:3000" "glsa_token".

(** A [tools/call] of the listing tool, as text and parsed. *)
Definition list_call_body : JsValue :=
  JObj [("jsonrpc", JStr "2.0"); ("id", JInt 2); ("method", JStr "tools/call");
        ("params", JObj [("name", JStr "list_datasources_detailed")])].

Definition list_call_text : string := default "" (JSON.stringify list_call_body).

(** The direct request the route builds from it. *)
Definition list_request : JsValue :=
  JObj [("method", JStr "list_datasources_detailed"); ("params", JObj []); ("id", JInt 2)].

End ListingScenarios.


(* ===================================================================== *)
(** * index.ts, the text with the authorization middleware *)
(* ===================================================================== *)

(** The second text of index.ts guards every route under the base path
    with one middleware and has no custom tools. *)
Module ProtectedGateway.

(** [s.endsWith(suffix)] *)
Fixpoint endsWith (s suffix : string) : bool :=
  String.eqb s suffix ||
  match s with
  | EmptyString => false
  | String _ s' => endsWith s' suffix
  end.

(** The value of the [WWW-Authenticate] header. *)
Definition challenge : string :=
  "Bearer realm=" +:+ CustomToolHandler.quoted "grafana-mcp-server"
    +:+ ", error=" +:+ CustomToolHandler.quoted "invalid_token".

(** [c.header('WWW-Authenticate', challenge)] followed by
    [c.json({ error: 'invalid_token', error_description }, 401)] *)
Definition invalid_token (error_description : JsValue) : Response :=
  new_Response
    (default "" (JSON.stringify
       (JObj (Value.object [("error", JStr "invalid_token");
                            ("error_description", error_description)]))))
    401 ""
    (<[ "www-authenticate" := challenge ]> {[ "content-type" := "application/json" ]}).

Section Routes.

Variable mcpTransport : string.
Variable mcpServerPort : Z.
(** [grafanaProxy.handleMcpRequest], chosen by the transport as in the
    first text. *)
Variable grafanaProxy : JsValue -> option string -> Prog Response.

(** [app.use(`${basePath}/*`, ...)] around the handler [next] of the
    route that matched; [path] is [c.req.path].  The [catch] covers the
    validator only: the promise of [next()] is returned, not awaited. *)
Definition middleware (path : string) (hdrs : gmap string string)
    (next : Prog Response) : Prog Response :=
  if endsWith path "/health" || Js.includes path "/.well-known/" then next
  else
    let authHeader := Gateway.c_req_header hdrs "Authorization" in
    if Gateway.no_bearer authHeader
    then mret (invalid_token (JStr "Missing or invalid authorization header"))
    else
      rejected ← try_catch
                   (Gateway.validateToken (Gateway.bearer_token authHeader);; mret None)
                   (fun error =>
                      mret (Some (invalid_token
                                    (if Value.is_error error
                                     then Value.get error "message"
                                     else JStr "Token validation failed"))));
      match rejected with
      | Some response => mret response
      | None => next
      end.

(** The handler of [app.post(`${basePath}/`, ...)] *)
Definition post_handler (hdrs : gmap string string) (body_text : string)
  : Prog Response :=
  try_catch
    (body ← Gateway.c_req_json body_text;
     grafanaProxy body (Gateway.c_req_header hdrs "mcp-session-id"))
    (fun _ =>
       mret (Gateway.c_json
               (Gateway.error_body "internal_error" "Failed to process MCP request") 500)).

(** The request the GET route forwards. *)
Definition sse_request : Request :=
  {| req_method := "GET";
     req_url := "http://localhost:" +:+ pretty mcpServerPort +:+ "/mcp";
     req_headers := {[ "Accept" := "text/event-stream" ]};
     req_body := None |}.

(** The handler of [app.get(`${basePath}/`, ...)] *)
Definition get_handler : Prog Response :=
  try_catch
    (if String.eqb mcpTransport "http"
     then
       response ← fetch sse_request;
       mret {| status := status response; statusText := "";
               headers := headers response; body := body response |}
     else mret (Gateway.c_json (JObj (Value.object [("error", JStr "not_supported")])) 400))
    (fun _ =>
       mret (Gateway.c_json
               (Gateway.error_body "internal_error" "Failed to establish SSE connection")
               500)).

(** The handler of [app.delete(`${basePath}/`, ...)], the same text as in
    the first index.ts. *)
Definition delete_handler (hdrs : gmap string string) : Prog Response :=
  Gateway.delete mcpTransport mcpServerPort hdrs.

(** The three routes of the base path as a request meets them. *)
Definition post (path : string) (hdrs : gmap string string) (body_text : string)
  : Prog Response :=
  middleware path hdrs (post_handler hdrs body_text).

Definition get (path : string) (hdrs : gmap string string) : Prog Response :=
  middleware path hdrs get_handler.

Definition delete (path : string) (hdrs : gmap string string) : Prog Response :=
  middleware path hdrs (delete_handler hdrs).

End Routes.

End ProtectedGateway.

(* ===================================================================== *)
(** * grafana-mcp-http-proxy.ts: [shutdown] *)
(* ===================================================================== *)

Module Shutdown.

(** [AbortController] *)
Record AbortController : Type := { aborted : bool }.

(** The fields [sessionId] and [sseConnection], which [shutdown] resets;
    they are assigned by [establishSession] only. *)
Record Session : Type := {
  sessionId : option string;
  sseConnection : option AbortController
}.

(** The fields as the class initializes them. *)
Definition no_session : Session := {| sessionId := None; sseConnection := None |}.

(** What [shutdown] does to the outside: [sseConnection.abort()] and
    [mcpProcess.kill()]. *)
Inductive Signal : Type :=
| Abort (controller : AbortController)
| Kill (process : ChildProcess).

(** [shutdown()]: the signals it sends, in order, and the fields it
    leaves.  It has no [await]: nothing runs in between. *)
Definition shutdown (s : Session) (f : ProxyFields)
  : list Signal * (Session * ProxyFields) :=
  let aborting :=
    match sseConnection s with
    | Some controller => ([Abort controller], {| sessionId := None; sseConnection := None |})
    | None => ([], s)
    end in
  let killing :=
    match mcpProcess f with
    | Some process => ([Kill process], {| mcpProcess := None; isInitialized := false |})
    | None => ([], f)
    end in
  ((fst aborting ++ fst killing)%list, (snd aborting, snd killing)).

End Shutdown.

(** The stored process handle under interleaved demands. *)
Module Stored.

(** Programs that never call [spawn] and never assign [mcpProcess]. *)
Inductive keeps {A : Type} : Prog A -> Prop :=
| keeps_ret (a : A) : keeps (Ret a)
| keeps_throw (e : JsValue) : keeps (Throw e)
| keeps_fetch (rq : Request) (k : Completion Response -> Prog A) :
    (forall r, keeps (k r)) -> keeps (Fetch rq k)
| keeps_sleep (ms : Z) (k : Prog A) : keeps k -> keeps (Sleep ms k)
| keeps_validate (t : string) (k : Completion JsValue -> Prog A) :
    (forall r, keeps (k r)) -> keeps (ValidateToken t k)
| keeps_get (k : ProxyFields -> Prog A) :
    (forall f, keeps (k f)) -> keeps (GetThis k)
| keeps_modify (f : ProxyFields -> ProxyFields) (k : Prog A) :
    (forall x, mcpProcess (f x) = mcpProcess x) -> keeps k -> keeps (ModifyThis f k).

(** The handle of the process spawned last, if any was. *)
Definition last_spawned (m : Machine) : option ChildProcess :=
  match spawn_count (trace m) with
  | O => None
  | S _ => Some {| pid := spawn_count (trace m); killed := false |}
  end.

Definition demand (config : GrafanaMcpHttpProxy.Config) (t : Interleaving.Task) : Prop :=
  match t with
  | Interleaving.Pending p => p = GrafanaMcpHttpProxy.initializeMcpServer config
  | Interleaving.Started p => keeps p
  end.

(** What every reachable configuration of demands satisfies. *)
Definition invariant (config : GrafanaMcpHttpProxy.Config) (c : Interleaving.Config)
  : Prop :=
  Forall (demand config) (Interleaving.tasks c)
  /\ mcpProcess (this (Interleaving.machine c)) = last_spawned (Interleaving.machine c).

End Stored.

(** Requests to the guarded routes. *)
Module ProtectedScenarios.

Import Scenario Scenarios GatewayScenarios.

Definition path : string := "/grafana/mcp/".

Definition delete : gmap string string -> Prog Response :=
  ProtectedGateway.delete "http" 3001 path.

Definition post : gmap string string -> string -> Prog Response :=
  ProtectedGateway.post
    (Gateway.grafanaProxy "http" "http://grafana:3000" "glsa_token" 3001 no_stdio) path.

End ProtectedScenarios.


(* ===================================================================== *)
(** * Properties *)
(* ===================================================================== *)

Local Open Scope list_scope.

(** ** The sequential semantics of [bind] and [try]/[catch] *)

Section RunLaws.

Context {A B : Type}.
Variable w : World.

Lemma run_bind (p : Prog A) (f : A -> Prog B) (m : Machine) :
  run w (p ≫= f) m =
  match run w p m with
  | (Normal a, m') => run w (f a) m'
  | (Thrown e, m') => (Thrown e, m')
  end.
Proof.
  unfold mbind, prog_bind.
  revert m; induction p as [a|e|rq k IH|ms k IH|t k IH|c a e k IH|k IH|g k IH];
    intros m; simpl; auto.
Qed.

Lemma run_try_catch (p : Prog A) (h : JsValue -> Prog A) (m : Machine) :
  run w (try_catch p h) m =
  match run w p m with
  | (Normal a, m') => (Normal a, m')
  | (Thrown e, m') => run w (h e) m'
  end.
Proof.
  revert m; induction p as [a|e|rq k IH|ms k IH|t k IH|c a e k IH|k IH|g k IH];
    intros m; simpl; auto.
Qed.

End RunLaws.

Lemma run_fetch (w : World) (rq : Request) (m : Machine) :
  run w (fetch rq) m =
  (net w (trace m) rq, emit (EvFetch rq) m).
Proof. unfold fetch; simpl. destruct (net w (trace m) rq); reflexivity. Qed.

Lemma run_text (w : World) (r : Response) (m : Machine) :
  run w (text r) m = (body r, m).
Proof. unfold text. destruct (body r); reflexivity. Qed.

Lemma run_prop (w : World) (v : JsValue) (k : string) (m : Machine) :
  Value.nullish v = false -> run w (prop v k) m = (Normal (Value.get v k), m).
Proof. intros H. unfold prop. rewrite H. reflexivity. Qed.

(** A program only ever extends the trace. *)
Lemma run_trace {A : Type} (w : World) (p : Prog A) (m : Machine) :
  exists evs, trace (snd (run w p m)) = trace m ++ evs.
Proof.
  revert m; induction p as [a|e|rq k IH|ms k IH|t k IH|c a e k IH|k IH|g k IH];
    intros m; simpl.
  - exists []. by rewrite app_nil_r.
  - exists []. by rewrite app_nil_r.
  - destruct (IH (net w (trace m) rq) (emit (EvFetch rq) m)) as [evs Hevs].
    exists (EvFetch rq :: evs). rewrite Hevs. simpl. by rewrite <- app_assoc.
  - destruct (IH (emit (EvSleep ms) m)) as [evs Hevs].
    exists (EvSleep ms :: evs). rewrite Hevs. simpl. by rewrite <- app_assoc.
  - destruct (IH (idp w (trace m) t) (emit (EvValidate t) m)) as [evs Hevs].
    exists (EvValidate t :: evs). rewrite Hevs. simpl. by rewrite <- app_assoc.
  - destruct (IH (next_process m) (emit (EvSpawn c a e) m)) as [evs Hevs].
    exists (EvSpawn c a e :: evs). rewrite Hevs. simpl. by rewrite <- app_assoc.
  - apply IH.
  - destruct (IH {| this := g (this m); trace := trace m |}) as [evs Hevs].
    exists evs. exact Hevs.
Qed.

(** ** Readiness probing ([waitForServer]) *)

Section ReadinessProperties.

Import GrafanaMcpHttpProxy Readiness.

Variable config : Config.
Variable w : World.

Lemma run_try_post (m : Machine) :
  run w (try_post config) m =
  (Normal (confirms post_ready (net w (trace m) (post_probe config))),
   emit (EvFetch (post_probe config)) m).
Proof.
  unfold try_post. rewrite run_try_catch, run_bind, run_fetch.
  destruct (net w (trace m) (post_probe config)); reflexivity.
Qed.

Lemma run_try_sse (m : Machine) :
  run w (try_sse config) m =
  (Normal (confirms sse_ready (net w (trace m) (sse_probe config))),
   emit (EvFetch (sse_probe config)) m).
Proof.
  unfold try_sse. rewrite run_try_catch, run_bind, run_fetch.
  destruct (net w (trace m) (sse_probe config)); reflexivity.
Qed.

Lemma run_attempt (m : Machine) :
  run w (attempt config) m =
  if confirms post_ready (net w (trace m) (post_probe config))
  then (Normal true, emit (EvFetch (post_probe config)) m)
  else (Normal (confirms sse_ready
                  (net w (trace m ++ [EvFetch (post_probe config)]) (sse_probe config))),
        emit (EvFetch (sse_probe config)) (emit (EvFetch (post_probe config)) m)).
Proof.
  unfold attempt. rewrite run_bind, run_try_post.
  destruct (confirms post_ready _); [reflexivity|].
  rewrite run_try_sse. reflexivity.
Qed.



End ReadinessProperties.

Section WaitForServer.

Import GrafanaMcpHttpProxy Readiness.

Variable config : Config.
Variable w : World.

Lemma after_S (k : nat) (m : Machine) :
  after config (S k) m =
  after config k {| this := this m; trace := trace m ++ failed_attempt config |}.
Proof. unfold after. cbn [replicate concat this trace]. by rewrite app_assoc. Qed.

Lemma after_0 (m : Machine) : after config 0 m = m.
Proof. unfold after. simpl. rewrite app_nil_r. by destruct m. Qed.

(** The loop: [n] iterations confirm nothing, then either the budget is
    spent and the loop throws, or iteration [n] confirms and the loop
    returns. *)
Lemma run_attempts (remaining : nat) (m : Machine) :
  exists (n : nat) (last : list Event) (r : Completion unit),
    run w (attempts config remaining) m =
      (r, {| this := this m; trace := trace (after config n m) ++ last |})
    /\ (n <= remaining)%nat
    /\ (forall k, (k < n)%nat ->
          fst (run w (attempt config) (after config k m)) = Normal false)
    /\ ((n = remaining /\ last = []
         /\ r = Thrown (Error "MCP server failed to start"))
        \/ ((n < remaining)%nat /\ r = Normal tt
            /\ fst (run w (attempt config) (after config n m)) = Normal true
            /\ (last = [EvFetch (post_probe config)]
                \/ last = [EvFetch (post_probe config); EvFetch (sse_probe config)]))).
Proof.
  revert m; induction remaining as [|remaining IH]; intros m.
  - exists 0%nat, [], (Thrown (Error "MCP server failed to start")).
    rewrite after_0. cbn [attempts run]. rewrite app_nil_r. split_and!; auto.
    + by destruct m.
    + intros k Hk; lia.
  - cbn [attempts]. rewrite run_bind.
    pose proof (run_attempt config w m) as Ha.
    destruct (confirms post_ready (net w (trace m) (post_probe config))) eqn:Hp.
    + (* the handshake confirms *)
      rewrite Ha. exists 0%nat, [EvFetch (post_probe config)], (Normal tt).
      rewrite after_0, Ha. cbn [run fst]. split_and!; auto; try lia.
      right. split_and!; auto. lia.
    + destruct (confirms sse_ready
                  (net w (trace m ++ [EvFetch (post_probe config)]) (sse_probe config)))
        eqn:Hs.
      * (* the stream probe confirms *)
        rewrite Ha.
        exists 0%nat, [EvFetch (post_probe config); EvFetch (sse_probe config)], (Normal tt).
        rewrite after_0, Ha. cbn [run fst]. split_and!; auto; try lia.
        -- unfold emit. cbn [this trace]. by rewrite <- app_assoc.
        -- right. split_and!; auto. lia.
      * (* nothing confirms: sleep and go on *)
        rewrite Ha. rewrite run_bind. simpl run at 1.
        set (m1 := {| this := this m; trace := trace m ++ failed_attempt config |}).
        destruct (IH m1) as (n & last & r & Hrun & Hn & Hfail & Hend).
        exists (S n), last, r.
        assert (Hm1 : emit (EvSleep retryDelayMs)
                        (emit (EvFetch (sse_probe config))
                           (emit (EvFetch (post_probe config)) m)) = m1).
        { unfold emit, m1, failed_attempt. simpl. by rewrite <- !app_assoc. }
        rewrite Hm1, Hrun. rewrite after_S. fold m1.
        repeat split; auto; try lia.
        -- intros k Hk. destruct k as [|k].
           ++ rewrite after_0, Ha. reflexivity.
           ++ rewrite after_S. fold m1. apply Hfail. lia.
        -- destruct Hend as [(-> & -> & ->)|(Hlt & -> & Hok & Hlast)].
           ++ left. auto.
           ++ right. repeat split; auto; try lia.
Qed.

(** C6.  [waitForServer] always completes, after at most 10 iterations,
    each failed one followed by a 500 ms sleep: either an iteration below
    the tenth confirms readiness and it returns, or all 10 confirm nothing
    and it throws "MCP server failed to start" (so, when every attempt
    fails, it throws after exactly 10 of them). *)
Theorem C6_waitForServer_bounded (m : Machine) :
  exists (n : nat) (last : list Event) (r : Completion unit) (m' : Machine),
    run w (waitForServer config) m = (r, m')
    /\ this m' = this m
    /\ trace m' = trace m ++ concat (replicate n (failed_attempt config)) ++ last
    /\ failed_attempt config
         = [EvFetch (post_probe config); EvFetch (sse_probe config); EvSleep 500]
    /\ (n <= 10)%nat
    /\ ((n = 10%nat /\ last = [] /\ r = Thrown (Error "MCP server failed to start"))
        \/ ((n < 10)%nat /\ r = Normal tt
            /\ fst (run w (attempt config) (after config n m)) = Normal true
            /\ (last = [EvFetch (post_probe config)]
                \/ last = [EvFetch (post_probe config); EvFetch (sse_probe config)])))
    /\ ((forall k, (k < 10)%nat ->
           fst (run w (attempt config) (after config k m)) = Normal false) ->
        n = 10%nat /\ r = Thrown (Error "MCP server failed to start")).
Proof.
  destruct (run_attempts maxRetries m) as (n & last & r & Hrun & Hn & Hfail & Hend).
  exists n, last, r, {| this := this m; trace := trace (after config n m) ++ last |}.
  unfold waitForServer. rewrite Hrun. unfold maxRetries in *.
  split; [reflexivity|]. split; [reflexivity|].
  split; [cbn [trace after]; by rewrite <- app_assoc|].
  split; [reflexivity|]. split; [exact Hn|]. split; [exact Hend|].
  intros Hnever.
  destruct Hend as [(Hten & _ & Hr)|(Hlt & _ & Hok & _)]; [by split|].
  rewrite (Hnever n Hlt) in Hok. discriminate.
Qed.

End WaitForServer.

(** ** Forwarding ([handleMcpRequest]) *)

Section Forwarding.

Import GrafanaMcpHttpProxy.

Variable config : Config.
Variable w : World.

Lemma run_handleMcpRequest (requestBody : JsValue) (sessionId : option string)
    (m m1 : Machine) :
  run w (initializeMcpServer config) m = (Normal tt, m1) ->
  run w (handleMcpRequest config requestBody sessionId) m =
  run w (forwarding config requestBody sessionId) m1.
Proof. intros Hinit. unfold handleMcpRequest. by rewrite run_bind, Hinit. Qed.







End Forwarding.

Section ForwardingScenarios.

Import GrafanaMcpHttpProxy Scenario Scenarios.




End ForwardingScenarios.

(** ** Strings *)

Lemma prefix_app (p t : string) : String.prefix p (p +:+ t) = true.
Proof.
  induction p as [|c p IH]; simpl.
  - by destruct t.
  - destruct (ascii_dec c c); [exact IH|congruence].
Qed.

Lemma prefix_split (p s : string) :
  String.prefix p s = true -> exists t, s = p +:+ t.
Proof.
  revert s; induction p as [|c p IH]; intros s H.
  - exists s. reflexivity.
  - destruct s as [|c' s]; simpl in H; [discriminate|].
    destruct (ascii_dec c c') as [->|]; [|discriminate].
    destruct (IH s H) as [t ->]. exists t. reflexivity.
Qed.

Lemma substring_all (s : string) : String.substring 0 (String.length s) s = s.
Proof. induction s as [|c s IH]; simpl; [reflexivity|by rewrite IH]. Qed.

Lemma includes_here (needle rest : string) :
  Js.includes (needle +:+ rest) needle = true.
Proof.
  destruct needle as [|c n]; simpl.
  - by destruct rest.
  - destruct rest; simpl; rewrite ?prefix_app;
      (destruct (ascii_dec c c); [|congruence]);
      rewrite ?prefix_app; reflexivity.
Qed.

Lemma includes_later (before s needle : string) :
  Js.includes s needle = true -> Js.includes (before +:+ s) needle = true.
Proof.
  intros H. induction before as [|c b IH]; [exact H|].
  change (Js.includes (String c (b +:+ s)) needle = true).
  unfold Js.includes; fold Js.includes. rewrite IH. apply orb_true_r.
Qed.

Lemma append_assoc (a b c : string) : (a +:+ b) +:+ c = a +:+ (b +:+ c).
Proof.
  induction a as [|x a IH]; [reflexivity|].
  change (String x ((a +:+ b) +:+ c) = String x (a +:+ (b +:+ c))). by f_equal.
Qed.

Lemma includes_infix (s before needle rest : string) :
  s = before +:+ needle +:+ rest -> Js.includes s needle = true.
Proof. intros ->. apply includes_later, includes_here. Qed.

Lemma includes_middle (before needle rest : string) :
  Js.includes (before +:+ needle +:+ rest) needle = true.
Proof. apply includes_later, includes_here. Qed.

(** ** The routes of index.ts *)

Section Routes.

Variable mcpTransport : string.
Variable grafanaUrl : string.
Variable grafanaServiceAccountToken : string.
Variable mcpServerPort : Z.
Variable stdioProxy : JsValue -> option string -> Prog Response.
Variable w : World.

Let post := Gateway.post mcpTransport grafanaUrl grafanaServiceAccountToken
              mcpServerPort stdioProxy.
Let authenticated := Gateway.authenticated mcpTransport grafanaUrl
                       grafanaServiceAccountToken mcpServerPort stdioProxy.
Let tools_list := Gateway.tools_list mcpTransport grafanaUrl
                    grafanaServiceAccountToken mcpServerPort stdioProxy.
Let grafanaProxy := Gateway.grafanaProxy mcpTransport grafanaUrl
                      grafanaServiceAccountToken mcpServerPort stdioProxy.

(** A header value is a bearer credential exactly when the route's test
    lets it through, and the token is what follows the prefix. *)
Lemma no_bearer_true (authHeader : option string) :
  (forall token, authHeader <> Some ("Bearer " +:+ token)) ->
  Gateway.no_bearer authHeader = true.
Proof.
  intros H. destruct authHeader as [h|]; [|reflexivity].
  unfold Gateway.no_bearer. destruct (Js.is_empty h); [reflexivity|].
  unfold Js.startsWith. destruct (String.prefix "Bearer " h) eqn:Hp; [|reflexivity].
  destruct (prefix_split _ _ Hp) as [t ->]. exfalso. by apply (H t).
Qed.

Lemma no_bearer_false (token : string) :
  Gateway.no_bearer (Some ("Bearer " +:+ token)) = false.
Proof. unfold Gateway.no_bearer, Js.startsWith. by rewrite prefix_app. Qed.

Lemma bearer_token_spec (token : string) :
  Gateway.bearer_token (Some ("Bearer " +:+ token)) = token.
Proof.
  unfold Gateway.bearer_token. simpl. rewrite Nat.sub_0_r. apply substring_all.
Qed.

Lemma run_post_no_bearer (hdrs : gmap string string) (body_text : string) (m : Machine) :
  Gateway.no_bearer (hdrs !! "authorization") = true ->
  run w (post hdrs body_text) m =
  (Normal (Gateway.c_json
             (Gateway.error_body "unauthorized" "Missing or invalid authorization header")
             401), m).
Proof.
  intros H. unfold post, Gateway.post. rewrite run_try_catch.
  change (Gateway.c_req_header hdrs "authorization") with (hdrs !! "authorization").
  rewrite H. reflexivity.
Qed.

Lemma run_post_bearer (hdrs : gmap string string) (body_text token : string) (m : Machine) :
  hdrs !! "authorization" = Some ("Bearer " +:+ token) ->
  run w (post hdrs body_text) m =
  match idp w (trace m) token with
  | Normal _ =>
      match run w (authenticated hdrs body_text) (emit (EvValidate token) m) with
      | (Normal r, m') => (Normal r, m')
      | (Thrown _, m') =>
          (Normal (Gateway.c_json
                     (Gateway.error_body "internal_error" "Failed to process MCP request")
                     500), m')
      end
  | Thrown _ =>
      (Normal (Gateway.c_json
                 (Gateway.error_body "unauthorized" "Invalid or expired access token")
                 401),
       emit (EvValidate token) m)
  end.
Proof.
  intros H. unfold post, Gateway.post. rewrite run_try_catch.
  change (Gateway.c_req_header hdrs "authorization") with (hdrs !! "authorization").
  rewrite H, no_bearer_false, bearer_token_spec.
  rewrite run_bind, run_try_catch, run_bind.
  unfold Gateway.validateToken. cbn [run].
  destruct (idp w (trace m) token) as [claims|e]; cbn [of_completion run]; reflexivity.
Qed.

(** C4.  A POST whose Authorization header is absent or is not of the
    form "Bearer <token>", or whose token the validator rejects, is
    answered with status 401 and a JSON body that has an [error] and an
    [error_description] member; handling it sends nothing to the backend
    or the upstream API and spawns nothing (the only effect is the call of
    the validator), and leaves the proxy untouched. *)
Theorem C4_unauthenticated_post_rejected (hdrs : gmap string string)
    (body_text : string) (m : Machine) :
  (forall token, hdrs !! "authorization" <> Some ("Bearer " +:+ token))
  \/ (exists token e, hdrs !! "authorization" = Some ("Bearer " +:+ token)
                      /\ idp w (trace m) token = Thrown e) ->
  exists (r : Response) (m' : Machine) (text : string)
         (props : list (string * JsValue)) (evs : list Event),
    run w (post hdrs body_text) m = (Normal r, m')
    /\ status r = 401
    /\ body r = Normal text
    /\ JSON.parse text = Some (JObj props)
    /\ Value.has "error" props = true
    /\ Value.has "error_description" props = true
    /\ this m' = this m
    /\ trace m' = trace m ++ evs
    /\ Forall (fun ev => exists token, ev = EvValidate token) evs.
Proof.
  intros [Hnone|(token & e & Hsome & Hbad)].
  - rewrite run_post_no_bearer by (by apply no_bearer_true).
    eexists _, m, _,
      [("error", JStr "unauthorized");
       ("error_description", JStr "Missing or invalid authorization header")], [].
    split; [reflexivity|]. split; [reflexivity|]. split; [reflexivity|].
    split; [vm_compute; reflexivity|].
    split; [reflexivity|]. split; [reflexivity|]. split; [reflexivity|].
    split; [by rewrite app_nil_r|constructor].
  - rewrite (run_post_bearer _ _ _ _ Hsome), Hbad.
    eexists _, _, _,
      [("error", JStr "unauthorized");
       ("error_description", JStr "Invalid or expired access token")],
      [EvValidate token].
    split; [reflexivity|]. split; [reflexivity|]. split; [reflexivity|].
    split; [vm_compute; reflexivity|].
    split; [reflexivity|]. split; [reflexivity|]. split; [reflexivity|].
    split; [reflexivity|]. repeat constructor. by exists token.
Qed.


Lemma run_delete (hdrs : gmap string string) (m : Machine) :
  run w (Gateway.delete mcpTransport mcpServerPort hdrs) m =
  if String.eqb mcpTransport "http"
  then
    (Normal
       match net w (trace m) (Gateway.delete_request mcpServerPort hdrs) with
       | Normal response =>
           {| status := status response; statusText := "";
              headers := headers response; body := body response |}
       | Thrown _ =>
           Gateway.c_json
             (Gateway.error_body "internal_error" "Failed to terminate session") 500
       end,
     emit (EvFetch (Gateway.delete_request mcpServerPort hdrs)) m)
  else
    (Normal (Gateway.c_json (JObj [("error", JStr "not_supported")]) 400), m).
Proof.
  unfold Gateway.delete. rewrite run_try_catch.
  destruct (String.eqb mcpTransport "http"); [|reflexivity].
  rewrite run_bind, run_fetch.
  destruct (net w (trace m) _); reflexivity.
Qed.


End Routes.

Section RouteScenarios.

Import Scenario Scenarios GatewayScenarios.

(** C4 on a request whose token the validator rejects. *)
Lemma C4_witness :
  exists (r : Response) (m' : Machine) (text : string)
         (props : list (string * JsValue)) (evs : list Event),
    run (backend (catalog "search_dashboards")) (post (bearer "expired") tools_list_request)
        initialized = (Normal r, m')
    /\ status r = 401
    /\ body r = Normal text
    /\ JSON.parse text = Some (JObj props)
    /\ Value.has "error" props = true
    /\ Value.has "error_description" props = true
    /\ this m' = this initialized
    /\ trace m' = trace initialized ++ evs
    /\ Forall (fun ev => exists token, ev = EvValidate token) evs.
Proof.
  apply (C4_unauthenticated_post_rejected "http" "http://grafana:3000" "glsa_token" 3001
           no_stdio (backend (catalog "search_dashboards")) (bearer "expired")
           tools_list_request initialized).
  right. exists "expired", (Error "Invalid token").
  split; vm_compute; reflexivity.
Defined.


End RouteScenarios.

(** ** The merged tool catalog ([tools/list]) *)

Section ToolsList.

Variable mcpTransport : string.
Variable grafanaUrl : string.
Variable grafanaServiceAccountToken : string.
Variable mcpServerPort : Z.
Variable stdioProxy : JsValue -> option string -> Prog Response.
Variable w : World.

Let post := Gateway.post mcpTransport grafanaUrl grafanaServiceAccountToken
              mcpServerPort stdioProxy.
Let authenticated := Gateway.authenticated mcpTransport grafanaUrl
                       grafanaServiceAccountToken mcpServerPort stdioProxy.
Let tools_list := Gateway.tools_list mcpTransport grafanaUrl
                    grafanaServiceAccountToken mcpServerPort stdioProxy.
Let grafanaProxy := Gateway.grafanaProxy mcpTransport grafanaUrl
                      grafanaServiceAccountToken mcpServerPort stdioProxy.



(** A value with a string-valued [method] is an object. *)
Lemma get_str_not_nullish (v : JsValue) (k s : string) :
  Value.get v k = JStr s -> Value.nullish v = false.
Proof. destruct v; try reflexivity; discriminate. Qed.

Lemma run_authenticated_tools_list (hdrs : gmap string string) (body_text : string)
    (rpc : JsValue) (m : Machine) :
  JSON.parse body_text = Some rpc ->
  Value.get rpc "method" = JStr "tools/list" ->
  run w (authenticated hdrs body_text) m = run w (tools_list hdrs rpc) m.
Proof.
  intros Hparse Hmethod. unfold authenticated, Gateway.authenticated.
  rewrite run_bind. unfold Gateway.c_req_json. rewrite Hparse. cbn [mret prog_ret run].
  rewrite run_bind, run_prop by (by eapply get_str_not_nullish).
  rewrite Hmethod. reflexivity.
Qed.



End ToolsList.

Section CatalogProperties.

Import Scenario Scenarios GatewayScenarios CatalogScenarios.



End CatalogProperties.

(** ** The custom tools *)

Section CustomTools.

Import CustomToolHandler.

Variable grafanaUrl : string.
Variable grafanaApiKey : string.
Variable w : World.

Let handleCustomTool := CustomToolHandler.handleCustomTool grafanaUrl grafanaApiKey.
Let queryDatasource := CustomToolHandler.queryDatasource grafanaUrl grafanaApiKey.
Let listDatasourcesDetailed :=
  CustomToolHandler.listDatasourcesDetailed grafanaUrl grafanaApiKey.
Let dispatch := CustomToolHandler.dispatch grafanaUrl grafanaApiKey.

(** [handleCustomTool] turns every completion of the dispatched tool into
    an envelope: it never throws. *)
Lemma run_handleCustomTool (request : JsValue) (m : Machine) :
  Value.nullish request = false ->
  run w (handleCustomTool request) m =
  match run w (dispatch (Value.get request "method") (Value.get request "params")) m with
  | (Normal result, m') => (Normal (result_envelope (Value.get request "id") result), m')
  | (Thrown error, m') => (Normal (error_envelope (Value.get request "id") error), m')
  end.
Proof.
  intros H. unfold handleCustomTool, CustomToolHandler.handleCustomTool.
  rewrite run_bind. unfold destructure. rewrite H. cbn [mret prog_ret run].
  rewrite run_try_catch, run_bind. fold dispatch.
  destruct (run w (dispatch _ _) m) as [[result|error] m']; reflexivity.
Qed.

Lemma run_json (r : Response) (m : Machine) :
  run w (json r) m =
  (match body r with
   | Normal t =>
       match JSON.parse t with
       | Some v => Normal v
       | None => Thrown (SyntaxError "Unexpected token in JSON")
       end
   | Thrown e => Thrown e
   end, m).
Proof.
  unfold json. rewrite run_bind, run_text.
  destruct (body r) as [t|e]; [|reflexivity].
  destruct (JSON.parse t); reflexivity.
Qed.

(** What [queryDatasource] completes with, by the upstream's answer. *)
Lemma run_queryDatasource (params : JsValue) (m : Machine) :
  Value.nullish params = false ->
  let datasourceUid := Value.get params "datasourceUid" in
  let query := Value.get params "query" in
  let timeRange := Value.get params "timeRange" in
  let maxDataPoints := Value.get params "maxDataPoints" in
  let rq := ds_query grafanaUrl grafanaApiKey datasourceUid query timeRange maxDataPoints in
  run w (queryDatasource params) m =
  (match net w (trace m) rq with
   | Thrown e => Thrown e
   | Normal response =>
       if ok response then
         match body response with
         | Thrown e => Thrown e
         | Normal t =>
             match JSON.parse t with
             | None => Thrown (SyntaxError "Unexpected token in JSON")
             | Some result =>
                 if Value.nullish result
                 then Thrown (TypeError ("Cannot read properties of "
                                           +:+ Value.toString result
                                           +:+ " (reading 'results')"))
                 else Normal (JObj
                   [("content", JArr
                      [text_content
                         (query_summary datasourceUid query timeRange
                            (frameCount (Value.get result "results")));
                       text_content (raw_data result)])])
             end
         end
       else
         match body response with
         | Normal errorText =>
             Thrown (Error ("Grafana query failed: " +:+ pretty (status response) +:+ " "
                              +:+ statusText response +:+ " - " +:+ errorText))
         | Thrown e => Thrown e
         end
   end, emit (EvFetch rq) m).
Proof.
  intros H datasourceUid query timeRange maxDataPoints rq.
  unfold queryDatasource, CustomToolHandler.queryDatasource.
  rewrite run_bind. unfold destructure. rewrite H. cbn [mret prog_ret run].
  rewrite run_bind, run_fetch. fold datasourceUid query timeRange maxDataPoints rq.
  destruct (net w (trace m) rq) as [response|e]; [|reflexivity].
  destruct (ok response); cbn [negb].
  - rewrite run_bind, run_json.
    destruct (body response) as [t|e]; [|reflexivity].
    destruct (JSON.parse t) as [result|]; [|reflexivity].
    rewrite run_bind. unfold prop.
    destruct (Value.nullish result); reflexivity.
  - rewrite run_bind, run_text.
    destruct (body response); reflexivity.
Qed.


End CustomTools.

Section CustomToolFailures.

Import CustomToolHandler.

Variable mcpTransport : string.
Variable grafanaUrl : string.
Variable grafanaServiceAccountToken : string.
Variable mcpServerPort : Z.
Variable stdioProxy : JsValue -> option string -> Prog Response.
Variable w : World.

Let authenticated := Gateway.authenticated mcpTransport grafanaUrl
                       grafanaServiceAccountToken mcpServerPort stdioProxy.
Let handleCustomTool :=
  CustomToolHandler.handleCustomTool grafanaUrl grafanaServiceAccountToken.
Let ds_query := CustomToolHandler.ds_query grafanaUrl grafanaServiceAccountToken.
Let ds_list := CustomToolHandler.ds_list grafanaUrl grafanaServiceAccountToken.

Lemma or_object_not_nullish (v : JsValue) : Value.nullish (Value.or v (JObj [])) = false.
Proof.
  unfold Value.or. destruct (Value.truthy v) eqn:E; [|reflexivity].
  destruct v; try reflexivity; discriminate.
Qed.

(** A [tools/call] of a custom tool is answered with whatever envelope
    [handleCustomTool] returns, at status 200. *)
Lemma run_authenticated_custom (hdrs : gmap string string) (body_text : string)
    (rpc : JsValue) (m : Machine) :
  JSON.parse body_text = Some rpc ->
  Value.get rpc "method" = JStr "tools/call" ->
  let name := Value.get (Value.get rpc "params") "name" in
  isCustomTool name = true ->
  let customRequest :=
    JObj [("method", name);
          ("params", Value.or (Value.get (Value.get rpc "params") "arguments") (JObj []));
          ("id", Value.get rpc "id")] in
  run w (authenticated hdrs body_text) m =
  match run w (handleCustomTool customRequest) m with
  | (Normal response, m') => (Normal (Gateway.c_json response 200), m')
  | (Thrown e, m') => (Thrown e, m')
  end.
Proof.
  intros Hparse Hmethod name Hcustom customRequest.
  unfold authenticated, Gateway.authenticated.
  rewrite run_bind. unfold Gateway.c_req_json. rewrite Hparse. cbn [mret prog_ret run].
  rewrite run_bind, run_prop by (by eapply get_str_not_nullish).
  rewrite Hmethod. fold name. rewrite Hcustom.
  assert (Htruthy : Value.truthy name = true).
  { unfold isCustomTool, Value.is_str in Hcustom.
    destruct name as [| |b|n e|s|items|props|nm msg]; try discriminate.
    destruct s; [discriminate|reflexivity]. }
  rewrite Htruthy. cbn [Value.is_str String.eqb Ascii.eqb Bool.eqb andb].
  rewrite run_bind. reflexivity.
Qed.


End CustomToolFailures.

(** ** Objects: property definition and spread *)

Lemma lookup_set_eq (k : string) (v : JsValue) (o : list (string * JsValue)) :
  Value.lookup k (Value.set k v o) = Some v.
Proof.
  induction o as [|[k' v'] o IH]; simpl.
  - by rewrite String.eqb_refl.
  - destruct (String.eqb k k') eqn:E; simpl.
    + by rewrite String.eqb_refl.
    + destruct (Value.precedes k k'); simpl.
      * by rewrite String.eqb_refl.
      * by rewrite E.
Qed.

Lemma lookup_set_ne (k k' : string) (v : JsValue) (o : list (string * JsValue)) :
  k <> k' -> Value.lookup k (Value.set k' v o) = Value.lookup k o.
Proof.
  intros Hne. assert (Hkk' : String.eqb k k' = false) by (by apply String.eqb_neq).
  induction o as [|[k0 v0] o IH]; simpl.
  - by rewrite Hkk'.
  - destruct (String.eqb k' k0) eqn:E; simpl.
    + apply String.eqb_eq in E. subst k0. by rewrite Hkk'.
    + destruct (Value.precedes k' k0); simpl.
      * by rewrite Hkk'.
      * destruct (String.eqb k k0); [reflexivity|exact IH].
Qed.

Lemma lookup_assign_absent (k : string) (props o : list (string * JsValue)) :
  Value.has k props = false ->
  Value.lookup k (fold_left (fun o kv => Value.set (fst kv) (snd kv) o) props o)
  = Value.lookup k o.
Proof.
  revert o; induction props as [|[k0 v0] props IH]; intros o H; [reflexivity|].
  unfold Value.has in H. simpl in H. destruct (String.eqb k k0) eqn:E; [discriminate|].
  simpl. rewrite IH by exact H.
  apply lookup_set_ne. by apply String.eqb_neq.
Qed.

Lemma lookup_spread_absent (k : string) (o : list (string * JsValue)) (v : JsValue) :
  Value.has k (Value.own_props v) = false ->
  Value.lookup k (Value.spread o v) = Value.lookup k o.
Proof. apply lookup_assign_absent. Qed.

(** A falsy value has nothing to spread. *)
Lemma falsy_own_props (v : JsValue) : Value.truthy v = false -> Value.own_props v = [].
Proof.
  destruct v as [| |b|n e|s|items|props|name msg]; try reflexivity; try discriminate.
  destruct s; [reflexivity|discriminate].
Qed.

Lemma has_guarded_spread (k k' : string) (guard inner : JsValue) :
  k <> k' ->
  Value.has k (Value.own_props (Value.and guard (JObj [(k', inner)]))) = false.
Proof.
  intros Hne. unfold Value.and. destruct (Value.truthy guard) eqn:E.
  - unfold Value.has. simpl.
    assert (String.eqb k k' = false) as -> by (by apply String.eqb_neq). reflexivity.
  - by rewrite falsy_own_props.
Qed.


Section QueryDatasource.

Import CustomToolHandler.

Variable grafanaUrl : string.
Variable grafanaApiKey : string.
Variable w : World.

Let queryDatasource := CustomToolHandler.queryDatasource grafanaUrl grafanaApiKey.
Let ds_query := CustomToolHandler.ds_query grafanaUrl grafanaApiKey.



End QueryDatasource.

Section ToolScenarioProperties.

Import Scenario Scenarios GatewayScenarios ToolScenarios.




End ToolScenarioProperties.

(** ** Process supervision ([initializeMcpServer]) *)

Section Supervision.

Import GrafanaMcpHttpProxy Interleaving Supervisor.

Variable config : GrafanaMcpHttpProxy.Config.

Lemma spawn_count_app (evs evs' : list Event) :
  spawn_count (evs ++ evs') = (spawn_count evs + spawn_count evs')%nat.
Proof. unfold spawn_count. by rewrite filter_app, length_app. Qed.

(** A demand that finds the proxy initialized and its process alive
    returns at once. *)
Lemma settle_initialize_running (m : Machine) :
  running (this m) = true ->
  settle (initializeMcpServer config) m = (Ret tt, m).
Proof. intros H. unfold initializeMcpServer. cbn. rewrite H. reflexivity. Qed.

(** Any other demand spawns a process before its first [await]. *)
Lemma settle_initialize_spawns (m : Machine) :
  running (this m) = false ->
  snd (settle (initializeMcpServer config) m) = spawning config m.
Proof. intros H. unfold initializeMcpServer. cbn. rewrite H. reflexivity. Qed.

Lemma spawned_spawning (m : Machine) :
  spawn_count (trace (spawning config m)) = S (spawn_count (trace m)).
Proof.
  unfold spawning. cbn [trace]. rewrite spawn_count_app.
  change (spawn_count [backend_spawned config]) with 1%nat. lia.
Qed.

Lemma running_spawning (m : Machine) :
  isInitialized (this m) = false -> running (this (spawning config m)) = false.
Proof. intros H. unfold running, spawning. cbn. by rewrite H. Qed.

(** Sequentially: a demand that completes leaves the proxy running, and
    spawns at most one process. *)
Lemma run_initialize (w : World) (m m1 : Machine) :
  run w (initializeMcpServer config) m = (Normal tt, m1) ->
  running (this m1) = true
  /\ spawn_count (trace m1)
     = (spawn_count (trace m) + (if running (this m) then 0 else 1))%nat.
Proof.
  unfold initializeMcpServer. rewrite run_bind. cbn [get_this run].
  destruct (running (this m)) eqn:Hrun.
  - cbn. intros [= <-]. split; [exact Hrun|lia].
  - rewrite run_bind. cbn [spawn run]. rewrite run_bind. cbn [modify_this run].
    rewrite run_bind. unfold waitForServer.
    destruct (run_attempts config w maxRetries
                (spawning config m)) as (n & last & r & Hr & _ & _ & Hend).
    unfold spawning in Hr. unfold backend_spawned in Hr. unfold emit.
    cbn [this trace] in Hr |- *. rewrite Hr.
    destruct Hend as [(_ & _ & ->)|(_ & -> & _ & Hlast)]; [discriminate|].
    cbn. intros [= <-]. cbn. split; [reflexivity|].
    match goal with
    | |- length (filter _ ?l) = _ => change (spawn_count l = (spawn_count (trace m) + 1)%nat)
    end.
    rewrite !spawn_count_app.
    assert (Hnone : spawn_count (concat (replicate n (Readiness.failed_attempt config)))
                    = 0%nat).
    { clear. induction n as [|n IH]; [reflexivity|]. cbn [replicate concat].
      rewrite spawn_count_app, IH. reflexivity. }
    rewrite Hnone.
    assert (Hlast0 : spawn_count last = 0%nat) by (by destruct Hlast as [-> | ->]).
    rewrite Hlast0.
    match goal with
    | |- (_ + spawn_count [?ev] + _ + _)%nat = _ => change (spawn_count [ev]) with 1%nat
    end.
    lia.
Qed.

End Supervision.

(** ** Concurrent demands for readiness *)

Section ConcurrentDemands.

Import GrafanaMcpHttpProxy Interleaving Supervisor Quiet.

Variable config : GrafanaMcpHttpProxy.Config.

Lemma quiet_bind {A B : Type} (p : Prog A) (f : A -> Prog B) :
  quiet p -> (forall a, quiet (f a)) -> quiet (p ≫= f).
Proof.
  intros Hp Hf. unfold mbind, prog_bind.
  induction Hp; cbn [bind]; try constructor; auto.
Qed.

Lemma quiet_try_catch {A : Type} (p : Prog A) (h : JsValue -> Prog A) :
  quiet p -> (forall e, quiet (h e)) -> quiet (try_catch p h).
Proof.
  intros Hp Hh. induction Hp; cbn [try_catch]; try constructor; auto.
Qed.

Lemma quiet_fetch_prog (rq : Request) : quiet (fetch rq).
Proof. constructor. intros [r|e]; constructor. Qed.

Lemma quiet_attempt : quiet (attempt config).
Proof.
  unfold attempt. apply quiet_bind.
  - apply quiet_try_catch; [|intros; constructor].
    apply quiet_bind; [apply quiet_fetch_prog|intros; constructor].
  - intros [|]; [constructor|].
    apply quiet_try_catch; [|intros; constructor].
    apply quiet_bind; [apply quiet_fetch_prog|intros; constructor].
Qed.

Lemma quiet_attempts (remaining : nat) : quiet (attempts config remaining).
Proof.
  induction remaining as [|remaining IH]; cbn [attempts]; [constructor|].
  apply quiet_bind; [apply quiet_attempt|].
  intros [|]; [constructor|].
  apply quiet_bind; [repeat constructor|intros; exact IH].
Qed.

(** What is left of [initializeMcpServer] after its spawn. *)
Lemma quiet_after_spawn :
  quiet (waitForServer config ≫= fun _ => modify_this (set_isInitialized true)).
Proof.
  apply quiet_bind; [apply quiet_attempts|]. intros; repeat constructor.
Qed.

(** Running a quiet program up to its next [await] spawns nothing and
    leaves a quiet program. *)
Lemma settle_quiet {A : Type} (p : Prog A) (m : Machine) :
  quiet p ->
  quiet (fst (settle p m))
  /\ spawn_count (trace (snd (settle p m))) = spawn_count (trace m).
Proof.
  intros Hp. revert m.
  induction Hp as [a|e|rq k Hk IH|ms k Hk IH|t k Hk IH|k Hk IH|f k Hk IH]; intros m;
    cbn [settle fst snd]; try (split; [by constructor|reflexivity]).
  - apply IH.
  - apply (IH {| this := f (this m); trace := trace m |}).
Qed.

Lemma settle_initialize_step (m : Machine) :
  running (this m) = false ->
  settle (initializeMcpServer config) m
  = settle (waitForServer config ≫= fun _ => modify_this (set_isInitialized true))
           (spawning config m).
Proof. intros H. unfold initializeMcpServer. cbn. rewrite H. reflexivity. Qed.

(** The arrival of a demand: at most one spawn, exactly one unless the
    proxy is initialized and its process alive. *)
Lemma settle_demand (m : Machine) :
  quiet (fst (settle (initializeMcpServer config) m))
  /\ spawn_count (trace (snd (settle (initializeMcpServer config) m)))
     = (spawn_count (trace m) + (if running (this m) then 0 else 1))%nat.
Proof.
  destruct (running (this m)) eqn:Hrun.
  - rewrite settle_initialize_running by exact Hrun. cbn. split; [constructor|lia].
  - rewrite settle_initialize_step by exact Hrun.
    destruct (settle_quiet _ (spawning config m) quiet_after_spawn) as [Hq Hc].
    split; [exact Hq|]. rewrite Hc, spawned_spawning. lia.
Qed.

End ConcurrentDemands.

Section Schedules.

Import GrafanaMcpHttpProxy Interleaving Supervisor Quiet.

Variable config : GrafanaMcpHttpProxy.Config.

Let demanded : Prog unit := initializeMcpServer config.

Lemma count_started_app (a b : list Task) :
  count_started (a ++ b) = (count_started a + count_started b)%nat.
Proof. unfold count_started. by rewrite filter_app, length_app. Qed.

Lemma count_started_cons (t : Task) (ts : list Task) :
  count_started (t :: ts)
  = ((if is_started t then 1 else 0) + count_started ts)%nat.
Proof.
  unfold count_started. rewrite filter_cons.
  destruct (is_started t); case_decide; try congruence; reflexivity.
Qed.

Lemma count_started_insert (ts : list Task) (i : nat) (t t' : Task) :
  ts !! i = Some t ->
  (count_started (<[ i := t' ]> ts) + (if is_started t then 1 else 0)
   = count_started ts + (if is_started t' then 1 else 0))%nat.
Proof.
  intros H. pose proof (lookup_lt_Some _ _ _ H) as Hlt.
  rewrite insert_take_drop by exact Hlt.
  rewrite <- (take_drop_middle ts i t H) at 3.
  rewrite !count_started_app, !count_started_cons. lia.
Qed.

Lemma count_started_le (ts : list Task) : (count_started ts <= length ts)%nat.
Proof. unfold count_started. apply length_filter. Qed.

Let invariant := Quiet.invariant config.

Lemma invariant_demands (n : nat) : invariant n (demands config n).
Proof.
  unfold invariant, Quiet.invariant, demands, spawned, started. cbn [tasks machine].
  split; [apply length_replicate|]. split.
  - apply Forall_replicate. reflexivity.
  - cbn. lia.
Qed.

(** Resuming a task with a quiet program. *)
Lemma invariant_resume (n : nat) (c : Interleaving.Config) (i : nat) (p p' : Prog unit)
    (ev : Event) :
  invariant n c ->
  tasks c !! i = Some (Started p) ->
  quiet p' ->
  is_spawn ev = false ->
  invariant n (resume i p' (emit ev (machine c)) (tasks c)).
Proof.
  unfold invariant, Quiet.invariant. intros (Hlen & Hall & Hle) Hi Hq Hev.
  destruct (settle_quiet p' (emit ev (machine c)) Hq) as [Hq' Hc].
  unfold invariant, Quiet.invariant, resume, spawned, started in *. cbn [tasks machine].
  split; [by rewrite length_insert|]. split.
  - apply Forall_insert; [exact Hall|exact Hq'].
  - rewrite Hc. unfold emit. cbn [trace]. rewrite spawn_count_app.
    assert (spawn_count [ev] = 0%nat) as ->.
    { unfold spawn_count. rewrite filter_cons. case_decide; [congruence|reflexivity]. }
    pose proof (count_started_insert (tasks c) i (Started p)
                  (Started (settle p' (emit ev (machine c))).1) Hi) as Hcount.
    cbn [is_started] in Hcount. unfold count_started in Hcount. unfold emit in Hcount.
    lia.
Qed.

Lemma invariant_step (n : nat) (c c' : Interleaving.Config) :
  invariant n c -> step c c' -> invariant n c'.
Proof.
  intros Hinv Hstep. destruct Hstep as [c i p Hi|c i rq k r Hi|c i ms k Hi|c i t k r Hi|c Hp].
  - (* a demand arrives *)
    unfold invariant, Quiet.invariant in Hinv. destruct Hinv as (Hlen & Hall & Hle).
    assert (Hp : p = initializeMcpServer config).
    { eapply Forall_lookup_1 in Hall; [|exact Hi]. exact Hall. }
    subst p. destruct (settle_demand config (machine c)) as [Hq Hc].
    unfold invariant, Quiet.invariant, resume, spawned, started in *. cbn [tasks machine].
    split; [by rewrite length_insert|]. split.
    + apply Forall_insert; [exact Hall|exact Hq].
    + rewrite Hc.
      pose proof (count_started_insert (tasks c) i (Pending (initializeMcpServer config))
                    (Started (settle (initializeMcpServer config) (machine c)).1) Hi)
        as Hcount.
      cbn [is_started] in Hcount. unfold count_started in Hcount.
      destruct (running (this (machine c))); lia.
  - assert (Hq : quiet (Fetch rq k)).
    { unfold invariant, Quiet.invariant in Hinv.
      destruct Hinv as (_ & Hall & _). eapply Forall_lookup_1 in Hall; [|exact Hi].
      exact Hall. }
    inversion Hq as [| |rq' k' Hk| | | |]; subst.
    by eapply invariant_resume.
  - assert (Hq : quiet (Sleep ms k)).
    { unfold invariant, Quiet.invariant in Hinv.
      destruct Hinv as (_ & Hall & _). eapply Forall_lookup_1 in Hall; [|exact Hi].
      exact Hall. }
    inversion Hq as [| | |ms' k' Hk| | |]; subst.
    by eapply invariant_resume.
  - assert (Hq : quiet (ValidateToken t k)).
    { unfold invariant, Quiet.invariant in Hinv.
      destruct Hinv as (_ & Hall & _). eapply Forall_lookup_1 in Hall; [|exact Hi].
      exact Hall. }
    inversion Hq as [| | | |t' k' Hk| |]; subst.
    by eapply invariant_resume.
  - exact Hinv.
Qed.

Lemma invariant_steps (n : nat) (c : Interleaving.Config) :
  steps (demands config n) c -> invariant n c.
Proof.
  intros H. remember (demands config n) as c0 eqn:E.
  induction H as [c|c1 c2 c3 H12 IH H23].
  - subst c. apply invariant_demands.
  - eapply invariant_step; [apply IH; exact E|exact H23].
Qed.

(** The schedule in which the first [k] of [n] demands arrive before any
    of them is resumed: [k] processes. *)
Lemma arrivals (n k : nat) :
  (k <= n)%nat ->
  exists c,
    steps (demands config n) c
    /\ spawned c = k
    /\ isInitialized (this (machine c)) = false
    /\ length (tasks c) = n
    /\ (forall i, (k <= i < n)%nat -> tasks c !! i = Some (Pending demanded))
    /\ (forall i, (i < k)%nat -> exists p, tasks c !! i = Some (Started p)).
Proof.
  induction k as [|k IH]; intros Hk.
  - exists (demands config n). split; [constructor|]. split; [reflexivity|].
    split; [reflexivity|]. split; [apply length_replicate|]. split.
    + intros i Hi. cbn [demands tasks]. apply lookup_replicate_2. lia.
    + intros i Hi. lia.
  - destruct IH as (c & Hsteps & Hspawned & Hinit & Hlen & Hpending & Hstarted); [lia|].
    assert (Hk' : tasks c !! k = Some (Pending demanded)) by (apply Hpending; lia).
    assert (Hrun : running (this (machine c)) = false).
    { unfold running. by rewrite Hinit. }
    exists (resume k demanded (machine c) (tasks c)).
    split; [eapply steps_step; [exact Hsteps|by apply step_arrive]|].
    unfold resume, spawned. cbn [machine tasks]. unfold demanded.
    rewrite (settle_initialize_spawns config _ Hrun).
    split; [by rewrite spawned_spawning; unfold spawned in Hspawned; rewrite Hspawned|].
    split; [exact Hinit|]. split; [by rewrite length_insert|]. split.
    + intros i Hi. rewrite list_lookup_insert_ne by lia. apply Hpending. lia.
    + intros i Hi. destruct (decide (i = k)) as [->|Hne].
      * eexists. apply list_lookup_insert_eq. lia.
      * rewrite list_lookup_insert_ne by lia. apply Hstarted. lia.
Qed.

End Schedules.

Section SingleFlight.

Import GrafanaMcpHttpProxy Interleaving Supervisor Quiet.

Lemma run_initialize_running (config : GrafanaMcpHttpProxy.Config) (w : World)
    (m : Machine) :
  running (this m) = true ->
  run w (initializeMcpServer config) m = (Normal tt, m).
Proof.
  intros H. unfold initializeMcpServer. rewrite run_bind. cbn [get_this run].
  rewrite H. reflexivity.
Qed.

(** C5 (amended).  The guard of [initializeMcpServer] is the flag
    [isInitialized], set only when an attempt has completed; there is no
    shared in-flight attempt.  (1) Whatever the interleaving of [n]
    first-time demands, at most one process is spawned per demand that has
    arrived.  (2) When all [n] demands arrive before any attempt has
    completed, [n] processes are spawned.  (3) An arriving demand spawns a
    process exactly when the proxy is not both initialized and alive, so
    also while another attempt is in flight.  (4) A demand served after an
    attempt has completed finds the proxy running and spawns nothing. *)
Theorem C5_every_early_demand_spawns (config : GrafanaMcpHttpProxy.Config) :
  (forall n c, steps (demands config n) c ->
               (spawned c <= started c)%nat /\ (started c <= n)%nat)
  /\ (forall n, exists c, steps (demands config n) c /\ spawned c = n /\ started c = n)
  /\ (forall c i,
        tasks c !! i = Some (Pending (initializeMcpServer config)) ->
        let c' := resume i (initializeMcpServer config) (machine c) (tasks c) in
        step c c'
        /\ spawned c'
           = (spawned c + (if running (this (machine c)) then 0 else 1))%nat)
  /\ (forall w m m1,
        run w (initializeMcpServer config) m = (Normal tt, m1) ->
        running (this m1) = true
        /\ run w (initializeMcpServer config) m1 = (Normal tt, m1)).
Proof.
  assert (Hbound : forall n c, steps (demands config n) c ->
                     (spawned c <= started c)%nat /\ (started c <= n)%nat).
  { intros n c Hsteps.
    destruct (invariant_steps config n c Hsteps) as (Hlen & _ & Hle).
    split; [exact Hle|]. rewrite <- Hlen. apply count_started_le. }
  split; [exact Hbound|]. split; [|split].
  - intros n. destruct (arrivals config n n) as (c & Hsteps & Hspawned & _); [lia|].
    exists c. split; [exact Hsteps|]. split; [exact Hspawned|].
    destruct (Hbound n c Hsteps). lia.
  - intros c i Hi c'. split; [by apply step_arrive|].
    unfold c', resume, spawned. cbn [machine].
    apply settle_demand.
  - intros w m m1 Hrun. destruct (run_initialize config w m m1 Hrun) as [Hrunning _].
    split; [exact Hrunning|]. by apply run_initialize_running.
Qed.

(** C5 as stated fails: of two first-time demands, the second arrives
    while the first awaits its readiness probe, and two processes are
    spawned. *)
Lemma C5_counterexample :
  steps (demands Scenario.config 2) DemandScenarios.both_in_flight
  /\ started DemandScenarios.one_in_flight = 1%nat
  /\ isInitialized (this (machine DemandScenarios.one_in_flight)) = false
  /\ spawned DemandScenarios.one_in_flight = 1%nat
  /\ spawned DemandScenarios.both_in_flight = 2%nat.
Proof.
  split.
  - eapply steps_step; [eapply steps_step; [apply steps_refl|]|].
    + exact (step_arrive (demands Scenario.config 2) 0 DemandScenarios.demanded eq_refl).
    + exact (step_arrive DemandScenarios.one_in_flight 1 DemandScenarios.demanded eq_refl).
  - split; [vm_compute; reflexivity|].
    split; [vm_compute; reflexivity|].
    split; vm_compute; reflexivity.
Qed.

End SingleFlight.

(** ** Worked scenarios *)

Section Worked.

Import GrafanaMcpHttpProxy Scenario Scenarios GatewayScenarios ToolScenarios
       WorkedScenarios.

Example trim_strips_both_ends :
  Js.trim (" " +:+ Js.nl +:+ "internal error" +:+ Js.nl) = "internal error".
Proof. vm_compute; reflexivity. Qed.

Example parse_orders_index_keys_first :
  JSON.parse (json_object [member "b" "1"; member "1" "2.50"; member "b" "true"])
  = Some (JObj [("1", JNum 25 (-1)); ("b", JBool true)]).
Proof. vm_compute; reflexivity. Qed.

Example stringify_then_parse :
  JSON.stringify call_body ≫= JSON.parse = Some call_body.
Proof. vm_compute; reflexivity. Qed.

(** A dead backend: 10 iterations of handshake, stream probe and sleep,
    then the error. *)
Example waitForServer_gives_up :
  fst (run dead (waitForServer config) Interleaving.fresh)
  = Thrown (Error "MCP server failed to start")
  /\ events (run dead (waitForServer config) Interleaving.fresh) = 30%nat.
Proof. split; vm_compute; reflexivity. Qed.

(** A slow backend: confirmed by the stream probe of the second
    iteration, after one sleep. *)
Example waitForServer_second_iteration :
  run slow_start (waitForServer config) Interleaving.fresh
  = (Normal tt,
     {| this := this Interleaving.fresh;
        trace := [EvFetch (post_probe config); EvFetch (sse_probe config); EvSleep 500;
                  EvFetch (post_probe config); EvFetch (sse_probe config)] |}).
Proof. vm_compute; reflexivity. Qed.

(** The spec's [query_datasource] scenario end to end: status 200 and a
    summary of two frames. *)
Example query_datasource_summary :
  status_of (run upstream_ok (post (bearer "good") call_text) initialized) = Some 200
  /\ Js.includes (first_text (fst (run upstream_ok (post (bearer "good") call_text)
                                      initialized)))
       "Returned 2 data frames." = true.
Proof. split; vm_compute; reflexivity. Qed.

End Worked.

(** ** What [handleMcpRequest] relays, and how it fails *)

Section ForwardingOutcomes.

Import GrafanaMcpHttpProxy Readiness Supervisor.

Variable config : Config.
Variable w : World.

(** The forwarding step when the [fetch] rejects or the body cannot be
    read: the [catch] block rethrows. *)
Lemma run_forwarding_failure (requestBody : JsValue) (sessionId : option string)
    (m1 : Machine) (e : JsValue) :
  net w (trace m1) (forward config requestBody sessionId) = Thrown e
  \/ (exists response,
        net w (trace m1) (forward config requestBody sessionId) = Normal response
        /\ body response = Thrown e) ->
  run w (forwarding config requestBody sessionId) m1 =
  (Thrown e, emit (EvFetch (forward config requestBody sessionId)) m1).
Proof.
  intros [Hnet|(response & Hnet & Hbody)];
    unfold forwarding; rewrite run_try_catch, run_bind, run_fetch, Hnet.
  - reflexivity.
  - rewrite run_bind, run_text, Hbody. reflexivity.
Qed.



(** X2.  When the forwarded [fetch] rejects, or the body of its response
    cannot be read, [handleMcpRequest] rejects with that same error after
    the one request: it neither retries nor synthesizes a response. *)
Theorem X2_transport_failure_rethrown (requestBody : JsValue)
    (sessionId : option string) (m m1 : Machine) (e : JsValue) :
  run w (initializeMcpServer config) m = (Normal tt, m1) ->
  net w (trace m1) (forward config requestBody sessionId) = Thrown e
  \/ (exists response,
        net w (trace m1) (forward config requestBody sessionId) = Normal response
        /\ body response = Thrown e) ->
  run w (handleMcpRequest config requestBody sessionId) m =
  (Thrown e,
   {| this := this m1;
      trace := trace m1 ++ [EvFetch (forward config requestBody sessionId)] |}).
Proof.
  intros Hinit Hfail.
  rewrite (run_handleMcpRequest _ _ _ _ _ _ Hinit).
  by apply run_forwarding_failure.
Qed.

(** The readiness loop when no iteration confirms. *)
Lemma run_attempts_never (remaining : nat) (m : Machine) :
  (forall k, (k < remaining)%nat ->
     fst (run w (attempt config) (after config k m)) = Normal false) ->
  run w (attempts config remaining) m =
  (Thrown (Error "MCP server failed to start"), after config remaining m).
Proof.
  intros Hnever.
  destruct (run_attempts config w remaining m) as (n & last & r & Hrun & Hn & _ & Hend).
  rewrite Hrun.
  destruct Hend as [(-> & -> & ->)|(Hlt & _ & Hok & _)].
  - rewrite app_nil_r. reflexivity.
  - rewrite (Hnever n Hlt) in Hok. discriminate.
Qed.

(** What [initializeMcpServer] does on a proxy that is not running. *)
Lemma run_initialize_spawning (m : Machine) :
  running (this m) = false ->
  run w (initializeMcpServer config) m =
  match run w (waitForServer config) (spawning config m) with
  | (Normal _, m') => (Normal tt, {| this := set_isInitialized true (this m');
                                     trace := trace m' |})
  | (Thrown e, m') => (Thrown e, m')
  end.
Proof.
  intros Hrun. unfold initializeMcpServer. rewrite run_bind. cbn [get_this run].
  rewrite Hrun. rewrite run_bind. cbn [spawn run]. rewrite run_bind.
  cbn [modify_this run]. rewrite run_bind.
  change {| this := set_mcpProcess (Some (next_process m))
                      (this (emit (EvSpawn "mcp-grafana"
                         ["-t"; "streamable-http"; "--address"; "0.0.0.0:" +:+ pretty (port config)]
                         [("GRAFANA_URL", grafanaUrl config);
                          ("GRAFANA_SERVICE_ACCOUNT_TOKEN", grafanaServiceAccountToken config)]) m));
            trace := trace (emit (EvSpawn "mcp-grafana"
                         ["-t"; "streamable-http"; "--address"; "0.0.0.0:" +:+ pretty (port config)]
                         [("GRAFANA_URL", grafanaUrl config);
                          ("GRAFANA_SERVICE_ACCOUNT_TOKEN", grafanaServiceAccountToken config)]) m) |}
    with (spawning config m).
  destruct (run w (waitForServer config) (spawning config m)) as [[[]|e] m']; reflexivity.
Qed.

(** X3.  On a proxy that has not been initialized, when none of the 10
    readiness iterations confirms the backend, [handleMcpRequest] rejects
    with "MCP server failed to start": it has spawned one process and run
    the 10 iterations, and the request itself is never sent.  The process
    handle stays stored and the proxy is not running. *)
Theorem X3_request_fails_when_backend_never_ready (requestBody : JsValue)
    (sessionId : option string) (m : Machine) :
  isInitialized (this m) = false ->
  (forall k, (k < 10)%nat ->
     fst (run w (attempt config) (after config k (spawning config m))) = Normal false) ->
  exists m',
    run w (handleMcpRequest config requestBody sessionId) m
      = (Thrown (Error "MCP server failed to start"), m')
    /\ trace m' = trace m ++ backend_spawned config
                              :: concat (replicate 10 (failed_attempt config))
    /\ mcpProcess (this m') = Some (next_process m)
    /\ running (this m') = false.
Proof.
  intros Hinit Hnever.
  assert (Hrun : running (this m) = false) by (unfold running; by rewrite Hinit).
  exists (after config 10 (spawning config m)).
  split; [|split; [|split]].
  - unfold handleMcpRequest. rewrite run_bind, run_initialize_spawning by exact Hrun.
    unfold waitForServer, maxRetries. by rewrite run_attempts_never.
  - unfold after, spawning. cbn [trace]. by rewrite <- app_assoc.
  - reflexivity.
  - unfold after. cbn [this]. by apply running_spawning.
Qed.

Lemma spawn_count_failed_attempts (n : nat) :
  spawn_count (concat (replicate n (failed_attempt config))) = 0%nat.
Proof.
  induction n as [|n IH]; [reflexivity|]. cbn [replicate concat].
  rewrite spawn_count_app, IH. reflexivity.
Qed.

(** X4.  A call of [initializeMcpServer] spawns exactly one process when
    the proxy is not both initialized and alive, and none when it is,
    whether the call then succeeds or fails; it fails only with "MCP
    server failed to start"; when it succeeds the proxy is running; the
    handle of the spawned process is stored at once, replacing any handle
    stored before.  After the child's exit event the proxy is not running,
    so the next call spawns again. *)
Theorem X4_spawns_unless_running (m : Machine) :
  let c := run w (initializeMcpServer config) m in
  spawn_count (trace (snd c))
    = (spawn_count (trace m) + (if running (this m) then 0 else 1))%nat
  /\ (fst c = Normal tt \/ fst c = Thrown (Error "MCP server failed to start"))
  /\ (fst c = Normal tt -> running (this (snd c)) = true)
  /\ (running (this m) = false -> mcpProcess (this (snd c)) = Some (next_process m))
  /\ (forall f, running (on_exit f) = false).
Proof.
  intros c. unfold c. clear c.
  destruct (running (this m)) eqn:Hrun.
  - rewrite run_initialize_running by exact Hrun. cbn [fst snd].
    split; [lia|]. split; [by left|]. split; [by intros _|].
    split; [discriminate|]. intros f. unfold running, on_exit. reflexivity.
  - rewrite run_initialize_spawning by exact Hrun. unfold waitForServer.
    destruct (run_attempts config w maxRetries (spawning config m))
      as (n & last & r & Hr & _ & _ & Hend).
    rewrite Hr.
    assert (Hcount : spawn_count (trace (after config n (spawning config m)) ++ last)
                     = (spawn_count (trace m) + 1)%nat).
    { unfold after. cbn [trace]. rewrite !spawn_count_app, spawn_count_failed_attempts.
      rewrite spawned_spawning.
      assert (spawn_count last = 0%nat) as ->.
      { destruct Hend as [(_ & -> & _)|(_ & _ & _ & [-> | ->])]; reflexivity. }
      lia. }
    destruct Hend as [(_ & _ & ->)|(_ & -> & _ & _)]; cbn [fst snd this trace].
    + split; [exact Hcount|]. split; [by right|]. split; [discriminate|].
      split; [by intros _|]. intros f. reflexivity.
    + split; [exact Hcount|]. split; [by left|]. split; [by intros _|].
      split; [by intros _|]. intros f. reflexivity.
Qed.

Lemma fetches_app (a b : list Event) :
  Budget.fetches (a ++ b) = (Budget.fetches a + Budget.fetches b)%nat.
Proof. unfold Budget.fetches. by rewrite filter_app, length_app. Qed.

Lemma slept_app (a b : list Event) :
  Budget.slept (a ++ b) = Budget.slept a + Budget.slept b.
Proof.
  induction a as [|ev a IH]; [reflexivity|].
  destruct ev; cbn [app Budget.slept]; rewrite IH; lia.
Qed.

Lemma budget_failed_attempts (n : nat) :
  Budget.fetches (concat (replicate n (failed_attempt config))) = (2 * n)%nat
  /\ Budget.slept (concat (replicate n (failed_attempt config))) = 500 * Z.of_nat n.
Proof.
  induction n as [|n [IHf IHs]]; [split; reflexivity|].
  cbn [replicate concat]. rewrite fetches_app, slept_app, IHf, IHs.
  change (Budget.fetches (failed_attempt config)) with 2%nat.
  change (Budget.slept (failed_attempt config)) with 500.
  split; lia.
Qed.

(** X5.  The budget of [waitForServer]: whatever the backend answers, it
    sends at most 20 probe requests and sleeps at most 5000 ms in all (500
    ms after each iteration that confirmed nothing); it spawns nothing and
    leaves the proxy's fields as they are. *)
Theorem X5_waitForServer_budget (m : Machine) :
  exists evs,
    trace (snd (run w (waitForServer config) m)) = trace m ++ evs
    /\ this (snd (run w (waitForServer config) m)) = this m
    /\ (Budget.fetches evs <= 20)%nat
    /\ 0 <= Budget.slept evs <= 5000
    /\ (Budget.slept evs = 5000 <->
        fst (run w (waitForServer config) m) = Thrown (Error "MCP server failed to start"))
    /\ spawn_count evs = 0%nat.
Proof.
  unfold waitForServer.
  destruct (run_attempts config w maxRetries m) as (n & last & r & Hr & Hn & _ & Hend).
  rewrite Hr. cbn [fst snd this trace]. unfold maxRetries in *.
  exists (concat (replicate n (failed_attempt config)) ++ last).
  destruct (budget_failed_attempts n) as [Hf Hs].
  split; [unfold after; cbn [trace]; by rewrite <- app_assoc|].
  split; [reflexivity|].
  rewrite fetches_app, slept_app, spawn_count_app, spawn_count_failed_attempts, Hf, Hs.
  destruct Hend as [(-> & -> & ->)|(Hlt & -> & _ & [-> | ->])].
  - cbn. split; [lia|]. split; [lia|]. split; [|reflexivity]. split; auto.
  - change (Budget.fetches [EvFetch (post_probe config)]) with 1%nat.
    change (Budget.slept [EvFetch (post_probe config)]) with 0.
    split; [lia|]. split; [lia|]. split; [|reflexivity].
    split; [lia|discriminate].
  - change (Budget.fetches [EvFetch (post_probe config); EvFetch (sse_probe config)])
      with 2%nat.
    change (Budget.slept [EvFetch (post_probe config); EvFetch (sse_probe config)]) with 0.
    split; [lia|]. split; [lia|]. split; [|reflexivity].
    split; [lia|discriminate].
Qed.

End ForwardingOutcomes.

Section ForwardingOutcomeScenarios.

Import GrafanaMcpHttpProxy Readiness Supervisor Scenario Scenarios WorkedScenarios.


(** X2 on a backend that accepts no connection. *)
Lemma X2_witness :
  let requestBody := request (JInt 7) "resources/list" in
  run dead (handleMcpRequest config requestBody None) initialized =
  (Thrown (TypeError "fetch failed"),
   {| this := this initialized;
      trace := trace initialized ++ [EvFetch (forward config requestBody None)] |}).
Proof.
  intros requestBody.
  exact (X2_transport_failure_rethrown config dead requestBody None initialized
           initialized (TypeError "fetch failed") eq_refl (or_introl eq_refl)).
Defined.

(** X3 on a fresh proxy whose backend never comes up. *)
Lemma X3_witness :
  exists m',
    run dead (handleMcpRequest config (request (JInt 7) "resources/list") None)
        Interleaving.fresh
      = (Thrown (Error "MCP server failed to start"), m')
    /\ trace m' = trace Interleaving.fresh
                    ++ backend_spawned config
                         :: concat (replicate 10 (failed_attempt config))
    /\ mcpProcess (this m') = Some (next_process Interleaving.fresh)
    /\ running (this m') = false.
Proof.
  apply (X3_request_fails_when_backend_never_ready config dead
           (request (JInt 7) "resources/list") None Interleaving.fresh eq_refl).
  intros k Hk.
  do 10 (destruct k as [|k]; [vm_compute; reflexivity|]).
  lia.
Defined.

End ForwardingOutcomeScenarios.

(** ** The POST route: failures, relayed methods and the catalog fallbacks *)

Section PostOutcomes.

Variable mcpTransport : string.
Variable grafanaUrl : string.
Variable grafanaServiceAccountToken : string.
Variable mcpServerPort : Z.
Variable stdioProxy : JsValue -> option string -> Prog Response.
Variable w : World.

Let post := Gateway.post mcpTransport grafanaUrl grafanaServiceAccountToken
              mcpServerPort stdioProxy.
Let authenticated := Gateway.authenticated mcpTransport grafanaUrl
                       grafanaServiceAccountToken mcpServerPort stdioProxy.
Let tools_list := Gateway.tools_list mcpTransport grafanaUrl
                    grafanaServiceAccountToken mcpServerPort stdioProxy.
Let grafanaProxy := Gateway.grafanaProxy mcpTransport grafanaUrl
                      grafanaServiceAccountToken mcpServerPort stdioProxy.

(** The body that does not parse, or parses to [null]: [c.req.json()]
    rejects, or [body.method] throws. *)
Lemma run_authenticated_malformed (hdrs : gmap string string) (body_text : string)
    (m : Machine) :
  JSON.parse body_text = None \/ JSON.parse body_text = Some JNull ->
  exists e, run w (authenticated hdrs body_text) m = (Thrown e, m).
Proof.
  intros [H|H]; unfold authenticated, Gateway.authenticated;
    rewrite run_bind; unfold Gateway.c_req_json; rewrite H; cbn [mret prog_ret run].
  - eauto.
  - rewrite run_bind. cbn. eauto.
Qed.

(** X6.  A POST with an accepted bearer token whose body is not JSON, or
    is the JSON text [null], is answered with status 500 and the error
    [internal_error] "Failed to process MCP request"; the token has been
    validated first, and nothing is sent to the backend or spawned. *)
Theorem X6_malformed_body_is_internal_error (hdrs : gmap string string)
    (body_text token : string) (claims : JsValue) (m : Machine) :
  hdrs !! "authorization" = Some ("Bearer " +:+ token) ->
  idp w (trace m) token = Normal claims ->
  JSON.parse body_text = None \/ JSON.parse body_text = Some JNull ->
  run w (post hdrs body_text) m =
  (Normal (Gateway.c_json
             (Gateway.error_body "internal_error" "Failed to process MCP request") 500),
   {| this := this m; trace := trace m ++ [EvValidate token] |}).
Proof.
  intros Hauth Hvalid Hbody.
  unfold post. rewrite (run_post_bearer _ _ _ _ _ _ _ _ _ _ Hauth), Hvalid.
  fold authenticated.
  destruct (run_authenticated_malformed hdrs body_text (emit (EvValidate token) m) Hbody)
    as [e He].
  rewrite He. reflexivity.
Qed.

(** X7.  The POST and DELETE routes always complete with a response:
    whatever the request, the validator, the backend and the proxy do, no
    exception leaves a handler. *)
Theorem X7_routes_always_answer (hdrs : gmap string string) (body_text : string)
    (m : Machine) :
  (exists r m', run w (post hdrs body_text) m = (Normal r, m'))
  /\ (exists r m', run w (Gateway.delete mcpTransport mcpServerPort hdrs) m = (Normal r, m')).
Proof.
  split.
  - unfold post, Gateway.post. rewrite run_try_catch.
    match goal with
    | |- context [run w ?p m] => destruct (run w p m) as [[r|e] m']
    end; cbn [mret prog_ret run]; eauto.
  - rewrite run_delete. destruct (String.eqb mcpTransport "http"); eauto.
Qed.

(** A request that is neither [tools/list] nor a call of a custom tool
    goes to the proxy. *)
Lemma run_authenticated_other (hdrs : gmap string string) (body_text : string)
    (rpc : JsValue) (m : Machine) :
  JSON.parse body_text = Some rpc ->
  Value.nullish rpc = false ->
  Value.is_str (Value.get rpc "method") "tools/list" = false ->
  Value.is_str (Value.get rpc "method") "tools/call"
  && CustomToolHandler.isCustomTool (Value.get (Value.get rpc "params") "name") = false ->
  run w (authenticated hdrs body_text) m
  = run w (grafanaProxy rpc (hdrs !! "mcp-session-id")) m.
Proof.
  intros Hparse Hrpc Hlist Hcall. unfold authenticated, Gateway.authenticated.
  rewrite run_bind. unfold Gateway.c_req_json. rewrite Hparse. cbn [mret prog_ret run].
  rewrite run_bind, run_prop by exact Hrpc.
  rewrite Hlist.
  assert (Value.is_str (Value.get rpc "method") "tools/call"
          && Value.truthy (Value.get (Value.get rpc "params") "name")
          && CustomToolHandler.isCustomTool (Value.get (Value.get rpc "params") "name")
          = false) as ->.
  { destruct (Value.is_str (Value.get rpc "method") "tools/call"); [|reflexivity].
    cbn [andb] in Hcall |- *. rewrite Hcall. apply andb_false_r. }
  reflexivity.
Qed.

(** X8.  A POST with an accepted token whose method is neither
    [tools/list] nor a [tools/call] of one of the two custom tools (so
    also [initialize], and a [tools/call] of any other tool) is handed to
    the proxy as parsed, with the caller's session header; the proxy's
    response is the route's response, and a failure of the proxy becomes
    status 500 with the error [internal_error]. *)
Theorem X8_other_methods_go_to_the_proxy (hdrs : gmap string string)
    (body_text token : string) (claims rpc : JsValue) (m : Machine) :
  hdrs !! "authorization" = Some ("Bearer " +:+ token) ->
  idp w (trace m) token = Normal claims ->
  JSON.parse body_text = Some rpc ->
  Value.nullish rpc = false ->
  Value.is_str (Value.get rpc "method") "tools/list" = false ->
  Value.is_str (Value.get rpc "method") "tools/call"
  && CustomToolHandler.isCustomTool (Value.get (Value.get rpc "params") "name") = false ->
  run w (post hdrs body_text) m =
  match run w (grafanaProxy rpc (hdrs !! "mcp-session-id")) (emit (EvValidate token) m) with
  | (Normal r, m') => (Normal r, m')
  | (Thrown _, m') =>
      (Normal (Gateway.c_json
                 (Gateway.error_body "internal_error" "Failed to process MCP request") 500),
       m')
  end.
Proof.
  intros Hauth Hvalid Hparse Hrpc Hlist Hcall.
  unfold post. rewrite (run_post_bearer _ _ _ _ _ _ _ _ _ _ Hauth), Hvalid.
  fold authenticated.
  by rewrite (run_authenticated_other _ _ _ _ Hparse Hrpc Hlist Hcall).
Qed.

(** The catalog branch when the proxy's answer is no JSON. *)
Lemma run_tools_list_unparseable (hdrs : gmap string string) (rpc : JsValue)
    (m m' : Machine) (grafanaResponse : Response) (responseText : string) :
  run w (grafanaProxy rpc (hdrs !! "mcp-session-id")) m = (Normal grafanaResponse, m') ->
  body grafanaResponse = Normal responseText ->
  JSON.parse responseText = None ->
  run w (tools_list hdrs rpc) m =
  (Normal (Gateway.c_json
             (JObj [("jsonrpc", JStr "2.0");
                    ("id", Value.get rpc "id");
                    ("result", JObj [("tools", JArr Gateway.customTools)])])
             200), m').
Proof.
  intros Hproxy Hbody Hparse.
  unfold tools_list, Gateway.tools_list. rewrite run_try_catch, run_bind.
  change (Gateway.c_req_header hdrs "mcp-session-id") with (hdrs !! "mcp-session-id").
  fold grafanaProxy. rewrite Hproxy.
  rewrite run_bind, run_text, Hbody, Hparse. reflexivity.
Qed.

(** The catalog branch when the proxy fails or its answer cannot be
    read. *)
Lemma run_tools_list_failure (hdrs : gmap string string) (rpc : JsValue)
    (m m' : Machine) (e : JsValue) :
  run w (grafanaProxy rpc (hdrs !! "mcp-session-id")) m = (Thrown e, m')
  \/ (exists grafanaResponse,
        run w (grafanaProxy rpc (hdrs !! "mcp-session-id")) m = (Normal grafanaResponse, m')
        /\ body grafanaResponse = Thrown e) ->
  run w (tools_list hdrs rpc) m =
  (Normal (Gateway.c_json
             (Gateway.error_body "internal_error"
                ("Failed to combine tools: " +:+ Value.toString e)) 500), m').
Proof.
  intros Hfail.
  unfold tools_list, Gateway.tools_list. rewrite run_try_catch, run_bind.
  change (Gateway.c_req_header hdrs "mcp-session-id") with (hdrs !! "mcp-session-id").
  fold grafanaProxy.
  destruct Hfail as [Hproxy|(grafanaResponse & Hproxy & Hbody)]; rewrite Hproxy.
  - reflexivity.
  - rewrite run_bind, run_text, Hbody. reflexivity.
Qed.

(** X9.  For a [tools/list] request with an accepted token, when the
    proxy's answer is not JSON, the gateway answers status 200 with the
    envelope [{jsonrpc, id, result: {tools}}] whose [tools] are exactly
    the two local descriptors. *)
Theorem X9_catalog_falls_back_to_local_tools (hdrs : gmap string string)
    (body_text token : string) (claims rpc : JsValue) (m m' : Machine)
    (grafanaResponse : Response) (responseText : string) :
  hdrs !! "authorization" = Some ("Bearer " +:+ token) ->
  idp w (trace m) token = Normal claims ->
  JSON.parse body_text = Some rpc ->
  Value.get rpc "method" = JStr "tools/list" ->
  run w (grafanaProxy rpc (hdrs !! "mcp-session-id")) (emit (EvValidate token) m)
    = (Normal grafanaResponse, m') ->
  body grafanaResponse = Normal responseText ->
  JSON.parse responseText = None ->
  run w (post hdrs body_text) m =
    (Normal (Gateway.c_json
               (JObj [("jsonrpc", JStr "2.0");
                      ("id", Value.get rpc "id");
                      ("result", JObj [("tools", JArr Gateway.customTools)])])
               200), m')
  /\ Catalog.names Gateway.customTools
     = [JStr "list_datasources_detailed"; JStr "query_datasource"].
Proof.
  intros Hauth Hvalid Hparse Hmethod Hproxy Hbody Hdata.
  split; [|reflexivity].
  unfold post. rewrite (run_post_bearer _ _ _ _ _ _ _ _ _ _ Hauth), Hvalid.
  rewrite (run_authenticated_tools_list _ _ _ _ _ _ _ _ _ _ Hparse Hmethod).
  fold tools_list.
  by rewrite (run_tools_list_unparseable _ _ _ _ _ _ Hproxy Hbody Hdata).
Qed.

(** X10.  For a [tools/list] request with an accepted token, when the
    proxy fails (the backend did not start, the request could not be
    sent) or its answer cannot be read, the gateway answers status 500
    with the error [internal_error] and the description "Failed to
    combine tools: " followed by the error's text. *)
Theorem X10_catalog_failure_is_internal_error (hdrs : gmap string string)
    (body_text token : string) (claims rpc : JsValue) (m m' : Machine) (e : JsValue) :
  hdrs !! "authorization" = Some ("Bearer " +:+ token) ->
  idp w (trace m) token = Normal claims ->
  JSON.parse body_text = Some rpc ->
  Value.get rpc "method" = JStr "tools/list" ->
  run w (grafanaProxy rpc (hdrs !! "mcp-session-id")) (emit (EvValidate token) m)
    = (Thrown e, m')
  \/ (exists grafanaResponse,
        run w (grafanaProxy rpc (hdrs !! "mcp-session-id")) (emit (EvValidate token) m)
          = (Normal grafanaResponse, m')
        /\ body grafanaResponse = Thrown e) ->
  run w (post hdrs body_text) m =
    (Normal (Gateway.c_json
               (Gateway.error_body "internal_error"
                  ("Failed to combine tools: " +:+ Value.toString e)) 500), m').
Proof.
  intros Hauth Hvalid Hparse Hmethod Hfail.
  unfold post. rewrite (run_post_bearer _ _ _ _ _ _ _ _ _ _ Hauth), Hvalid.
  rewrite (run_authenticated_tools_list _ _ _ _ _ _ _ _ _ _ Hparse Hmethod).
  fold tools_list.
  by rewrite (run_tools_list_failure _ _ _ _ _ Hfail).
Qed.

End PostOutcomes.

Section PostOutcomeScenarios.

Import Scenario Scenarios GatewayScenarios CatalogScenarios RelayScenarios.

(** X6 on a body that is no JSON. *)
Lemma X6_witness :
  run (backend (catalog "search_dashboards")) (post (bearer "good") "{not json") initialized
  = (Normal (Gateway.c_json
               (Gateway.error_body "internal_error" "Failed to process MCP request") 500),
     {| this := this initialized; trace := trace initialized ++ [EvValidate "good"] |}).
Proof.
  apply (X6_malformed_body_is_internal_error "http" "http://grafana:3000" "glsa_token" 3001
           no_stdio (backend (catalog "search_dashboards")) (bearer "good") "{not json"
           "good" (JObj []) initialized).
  - vm_compute; reflexivity.
  - reflexivity.
  - left. vm_compute; reflexivity.
Defined.

(** X8 on an [initialize] request: the backend's answer is the route's. *)
Lemma X8_witness :
  run (backend initialized_answer) (post (bearer "good") initialize_request) initialized
  = (Normal {| status := 200; statusText := "OK";
               headers := {[ "content-type" := "application/json" ]};
               body := Normal initialized_answer |},
     {| this := this initialized;
        trace := trace initialized
                   ++ [EvValidate "good";
                       EvFetch (GrafanaMcpHttpProxy.forward
                                  (Gateway.proxyConfig "http://grafana:3000" "glsa_token" 3001)
                                  initialize_body None)] |}).
Proof.
  assert (H1 : bearer "good" !! "authorization" = Some ("Bearer " +:+ "good"))
    by (vm_compute; reflexivity).
  assert (H3 : JSON.parse initialize_request = Some initialize_body)
    by (vm_compute; reflexivity).
  refine (eq_trans
            (X8_other_methods_go_to_the_proxy "http" "http://grafana:3000" "glsa_token"
               3001 no_stdio (backend initialized_answer) (bearer "good")
               initialize_request "good" (JObj []) initialize_body initialized
               H1 eq_refl H3 eq_refl eq_refl eq_refl) _).
  vm_compute; reflexivity.
Defined.

(** X9 on a backend that answers "ready" in plain text. *)
Lemma X9_witness :
  exists m',
    run chatty (post (bearer "good") tools_list_request) initialized
    = (Normal (Gateway.c_json
                 (JObj [("jsonrpc", JStr "2.0");
                        ("id", JInt 1);
                        ("result", JObj [("tools", JArr Gateway.customTools)])])
                 200), m').
Proof.
  assert (H1 : bearer "good" !! "authorization" = Some ("Bearer " +:+ "good"))
    by (vm_compute; reflexivity).
  assert (H3 : JSON.parse tools_list_request = Some request_body)
    by (vm_compute; reflexivity).
  assert (H5 : run chatty
                 (Gateway.grafanaProxy "http" "http://grafana:3000" "glsa_token" 3001
                    no_stdio request_body (bearer "good" !! "mcp-session-id"))
                 (emit (EvValidate "good") initialized)
               = (Normal {| status := 200; statusText := "OK";
                            headers := {[ "content-type" := "text/plain" ]};
                            body := Normal "ready" |}, forwarded))
    by (vm_compute; reflexivity).
  assert (H7 : JSON.parse "ready" = None) by (vm_compute; reflexivity).
  exists forwarded.
  exact (proj1 (X9_catalog_falls_back_to_local_tools "http" "http://grafana:3000"
                  "glsa_token" 3001 no_stdio chatty (bearer "good") tools_list_request
                  "good" (JObj []) request_body initialized forwarded _ "ready"
                  H1 eq_refl H3 eq_refl H5 eq_refl H7)).
Defined.

(** X10 on a backend that accepts no connection. *)
Lemma X10_witness :
  run unreachable (post (bearer "good") tools_list_request) initialized
  = (Normal (Gateway.c_json
               (Gateway.error_body "internal_error"
                  "Failed to combine tools: TypeError: fetch failed") 500),
     forwarded).
Proof.
  assert (H1 : bearer "good" !! "authorization" = Some ("Bearer " +:+ "good"))
    by (vm_compute; reflexivity).
  assert (H3 : JSON.parse tools_list_request = Some request_body)
    by (vm_compute; reflexivity).
  assert (H5 : run unreachable
                 (Gateway.grafanaProxy "http" "http://grafana:3000" "glsa_token" 3001
                    no_stdio request_body (bearer "good" !! "mcp-session-id"))
                 (emit (EvValidate "good") initialized)
               = (Thrown (TypeError "fetch failed"), forwarded))
    by (vm_compute; reflexivity).
  exact (X10_catalog_failure_is_internal_error "http" "http://grafana:3000"
           "glsa_token" 3001 no_stdio unreachable (bearer "good") tools_list_request
           "good" (JObj []) request_body initialized forwarded (TypeError "fetch failed")
           H1 eq_refl H3 eq_refl (or_introl H5)).
Defined.

End PostOutcomeScenarios.

(** ** More on strings *)

Lemma append_empty_r (s : string) : s +:+ "" = s.
Proof.
  induction s as [|c s IH]; [reflexivity|].
  change (String c (s +:+ "") = String c s). by rewrite IH.
Qed.

Lemma includes_split (s needle : string) :
  Js.includes s needle = true -> exists a b, s = a +:+ needle +:+ b.
Proof.
  induction s as [|c s IH]; intros H; cbn [Js.includes] in H.
  - rewrite orb_false_r in H. destruct (prefix_split _ _ H) as [t Ht].
    exists "", t. exact Ht.
  - apply orb_true_iff in H as [H|H].
    + destruct (prefix_split _ _ H) as [t Ht]. exists "", t. exact Ht.
    + destruct (IH H) as (a & b & ->). exists (String c a), b. reflexivity.
Qed.

Lemma includes_refl (s : string) : Js.includes s s = true.
Proof.
  apply includes_infix with (before := "") (rest := "").
  change (s = s +:+ ""). by rewrite append_empty_r.
Qed.

Lemma includes_trans (s t needle : string) :
  Js.includes s t = true -> Js.includes t needle = true -> Js.includes s needle = true.
Proof.
  intros Hst Htn.
  destruct (includes_split _ _ Hst) as (a & b & ->).
  destruct (includes_split _ _ Htn) as (a' & b' & ->).
  apply includes_infix with (before := a +:+ a') (rest := b' +:+ b).
  by rewrite !append_assoc.
Qed.

Lemma includes_join (sep x : string) (parts : list string) :
  x ∈ parts -> Js.includes (Js.join sep parts) x = true.
Proof.
  unfold Js.join. induction parts as [|y ys IH]; intros Hin.
  - by apply elem_of_nil in Hin.
  - destruct ys as [|z zs].
    + apply list_elem_of_singleton in Hin. subst y. apply includes_refl.
    + change (String.concat sep (y :: z :: zs))
        with (y +:+ sep +:+ String.concat sep (z :: zs)).
      apply elem_of_cons in Hin as [->|Hin].
      * apply includes_here.
      * do 2 apply includes_later. by apply IH.
Qed.

Lemma is_str_true (v : JsValue) (s : string) : Value.is_str v s = true <-> v = JStr s.
Proof.
  destruct v as [| |b|n e|s'|items|props|name msg]; cbn [Value.is_str];
    try (split; [discriminate|discriminate]).
  rewrite String.eqb_eq. split; [by intros ->|by intros [= ->]].
Qed.

Lemma truthy_or_false (v : JsValue) :
  Value.truthy (Value.or v (JBool false)) = Value.truthy v.
Proof. unfold Value.or. destruct (Value.truthy v) eqn:E; [exact E|reflexivity]. Qed.

(** ** The custom tools: what they send and what they list *)

Section CustomToolOutcomes.

Import CustomToolHandler.

Variable grafanaUrl : string.
Variable grafanaApiKey : string.
Variable w : World.

Let handleCustomTool := CustomToolHandler.handleCustomTool grafanaUrl grafanaApiKey.
Let queryDatasource := CustomToolHandler.queryDatasource grafanaUrl grafanaApiKey.
Let listDatasourcesDetailed :=
  CustomToolHandler.listDatasourcesDetailed grafanaUrl grafanaApiKey.
Let dispatch := CustomToolHandler.dispatch grafanaUrl grafanaApiKey.
Let ds_list := CustomToolHandler.ds_list grafanaUrl grafanaApiKey.
Let ds_query := CustomToolHandler.ds_query grafanaUrl grafanaApiKey.

(** The callback of [datasources.map] has no effect; it fails on the
    first element that is [null]. *)
Lemma run_map_detailed_pure (items : list JsValue) (m : Machine) :
  exists r, run w (map_prog detailed items) m = (r, m).
Proof.
  induction items as [|ds items [r IH]]; cbn [map_prog]; [by eexists|].
  rewrite run_bind. unfold detailed at 1. rewrite run_bind. unfold prop.
  destruct (Value.nullish ds); cbn [run mret prog_ret]; [by eexists|].
  rewrite run_bind, IH. destruct r; by eexists.
Qed.

Lemma run_map_detailed (items : list JsValue) (m : Machine) :
  Forall (fun ds => Value.nullish ds = false) items ->
  run w (map_prog detailed items) m =
  (Normal (map (fun ds =>
             JObj [("uid", Value.get ds "uid");
                   ("name", Value.get ds "name");
                   ("type", Value.get ds "type");
                   ("url", Value.get ds "url");
                   ("isDefault", Value.or (Value.get ds "isDefault") (JBool false))])
             items), m).
Proof.
  induction 1 as [|ds items Hds _ IH]; cbn [map_prog map]; [reflexivity|].
  rewrite run_bind. unfold detailed at 1. rewrite run_bind, run_prop by exact Hds.
  cbn [run mret prog_ret]. rewrite run_bind, IH. reflexivity.
Qed.

Lemma run_map_detailed_null (items : list JsValue) (m : Machine) :
  Exists (fun ds => Value.nullish ds = true) items ->
  exists msg, run w (map_prog detailed items) m = (Thrown (TypeError msg), m).
Proof.
  induction 1 as [ds items Hds|ds items _ [msg IH]]; cbn [map_prog].
  - rewrite run_bind. unfold detailed. rewrite run_bind. unfold prop. rewrite Hds.
    by eexists.
  - rewrite run_bind. unfold detailed at 1. rewrite run_bind. unfold prop.
    destruct (Value.nullish ds); cbn [run mret prog_ret]; [by eexists|].
    rewrite run_bind, IH. by eexists.
Qed.

(** [listDatasourcesDetailed] sends its one request whatever happens. *)
Lemma run_listDatasourcesDetailed_effect (m : Machine) :
  exists r, run w listDatasourcesDetailed m = (r, emit (EvFetch ds_list) m).
Proof.
  unfold listDatasourcesDetailed, CustomToolHandler.listDatasourcesDetailed.
  rewrite run_bind, run_fetch. fold ds_list.
  destruct (net w (trace m) ds_list) as [response|e]; [|by eexists].
  destruct (ok response); cbn [negb].
  - rewrite run_bind, run_json.
    destruct (body response) as [t|e]; [|by eexists].
    destruct (JSON.parse t) as [datasources|]; [|by eexists].
    rewrite run_bind.
    destruct datasources as [| |b|n e|s|items|props|name msg];
      try (cbn [array_map run]; by eexists).
    cbn [array_map].
    destruct (run_map_detailed_pure items (emit (EvFetch ds_list) m)) as [r Hr].
    rewrite Hr. destruct r; by eexists.
  - rewrite run_bind, run_text. destruct (body response); by eexists.
Qed.

(** The one request a custom tool sends. *)
Lemma run_custom_tool_effect (name params : JsValue) (m : Machine) :
  isCustomTool name = true ->
  Value.nullish params = false ->
  exists r rq,
    run w (dispatch name params) m = (r, emit (EvFetch rq) m)
    /\ (rq = ds_query (Value.get params "datasourceUid") (Value.get params "query")
                      (Value.get params "timeRange") (Value.get params "maxDataPoints")
        \/ rq = ds_list).
Proof.
  intros Hcustom Hparams. unfold isCustomTool in Hcustom.
  apply orb_true_iff in Hcustom as [H|H]; apply is_str_true in H; subst name.
  - change (dispatch (JStr "query_datasource") params) with (queryDatasource params).
    unfold queryDatasource. rewrite run_queryDatasource by exact Hparams.
    eexists _, _. split; [reflexivity|]. by left.
  - change (dispatch (JStr "list_datasources_detailed") params)
      with listDatasourcesDetailed.
    destruct (run_listDatasourcesDetailed_effect m) as [r Hr].
    exists r, ds_list. split; [exact Hr|]. by right.
Qed.

(** X11.  When the upstream answers the listing request 2xx with a JSON
    array without [null] entries, [listDatasourcesDetailed] returns three
    text items; the first starts with "**Datasources Found**: " and the
    length of the array, and has for every datasource of the array a block
    with its name, type, uid, default flag (No without [isDefault]) and
    URL (N/A without [url]). *)
Theorem X11_listing_names_every_datasource (m : Machine) (response : Response)
    (t : string) (items : list JsValue) :
  net w (trace m) ds_list = Normal response ->
  200 <= status response <= 299 ->
  body response = Normal t ->
  JSON.parse t = Some (JArr items) ->
  Forall (fun ds => Value.nullish ds = false) items ->
  exists listing examples guide,
    run w listDatasourcesDetailed m =
      (Normal (JObj [("content", JArr
                 [JObj [("type", JStr "text"); ("text", JStr listing)];
                  JObj [("type", JStr "text"); ("text", JStr examples)];
                  JObj [("type", JStr "text"); ("text", JStr guide)]])]),
       emit (EvFetch ds_list) m)
    /\ Js.startsWith listing ("**Datasources Found**: " +:+ pretty (length items)) = true
    /\ (forall ds, ds ∈ items ->
          Js.includes listing
            ("**" +:+ Value.toString (Value.get ds "name") +:+ "** ("
               +:+ Value.toString (Value.get ds "type") +:+ ")" +:+ Js.nl
               +:+ "- UID: `" +:+ Value.toString (Value.get ds "uid") +:+ "`" +:+ Js.nl
               +:+ "- Default: "
               +:+ (if Value.truthy (Value.get ds "isDefault") then "Yes" else "No")
               +:+ Js.nl
               +:+ "- URL: "
               +:+ Value.toString (Value.or (Value.get ds "url") (JStr "N/A"))) = true).
Proof.
  intros Hnet Hst Hbody Hparse Hitems.
  assert (Hok : ok response = true) by (unfold ok; apply andb_true_iff; lia).
  unfold listDatasourcesDetailed, CustomToolHandler.listDatasourcesDetailed.
  rewrite run_bind, run_fetch. fold ds_list. rewrite Hnet, Hok. cbn [negb].
  rewrite run_bind, run_json, Hbody, Hparse. rewrite run_bind. cbn [array_map].
  rewrite run_map_detailed by exact Hitems.
  cbn [run mret prog_ret]. rewrite length_map.
  eexists _, _, _. split; [reflexivity|]. split.
  - unfold Js.startsWith. rewrite <- append_assoc. apply prefix_app.
  - intros ds Hin. do 4 apply includes_later. apply includes_join.
    apply list_elem_of_fmap. eexists. split; [|apply list_elem_of_fmap_2; exact Hin].
    unfold datasource_text. cbn [Value.get Value.lookup String.eqb Ascii.eqb Bool.eqb default].
    unfold id. by rewrite truthy_or_false.
Qed.

(** X12.  When the upstream answers the listing request 2xx with a body
    that is not a JSON array of non-null entries (no JSON at all, another
    JSON value, or an array with a [null] entry), the listing tool fails
    and [handleCustomTool] returns the error envelope with code -1 and the
    request's id; the request has been sent once. *)
Theorem X12_listing_fails_on_malformed_upstream (request : JsValue) (m : Machine)
    (response : Response) (t : string) :
  Value.get request "method" = JStr "list_datasources_detailed" ->
  net w (trace m) ds_list = Normal response ->
  200 <= status response <= 299 ->
  body response = Normal t ->
  match JSON.parse t with
  | Some (JArr items) => Exists (fun ds => Value.nullish ds = true) items
  | _ => True
  end ->
  exists name msg,
    run w (handleCustomTool request) m =
      (Normal (JObj [("jsonrpc", JStr "2.0");
                     ("id", Value.get request "id");
                     ("error", JObj [("code", JInt (-1));
                                     ("message", JStr msg);
                                     ("data", JError name msg)])]),
       emit (EvFetch ds_list) m).
Proof.
  intros Hmethod Hnet Hst Hbody Hshape.
  assert (Hok : ok response = true) by (unfold ok; apply andb_true_iff; lia).
  assert (Hreq : Value.nullish request = false) by (by eapply get_str_not_nullish).
  assert (Hthrown : exists name msg,
            run w listDatasourcesDetailed m = (Thrown (JError name msg), emit (EvFetch ds_list) m)).
  { unfold listDatasourcesDetailed, CustomToolHandler.listDatasourcesDetailed.
    rewrite run_bind, run_fetch. fold ds_list. rewrite Hnet, Hok. cbn [negb].
    rewrite run_bind, run_json, Hbody.
    destruct (JSON.parse t) as [datasources|]; [|by eexists _, _].
    rewrite run_bind.
    destruct datasources as [| |b|n e|s|items|props|name msg];
      try (cbn [array_map run]; by eexists _, _).
    cbn [array_map].
    destruct (run_map_detailed_null items (emit (EvFetch ds_list) m) Hshape) as [msg Hmsg].
    rewrite Hmsg. by eexists _, _. }
  destruct Hthrown as (name & msg & Hrun).
  exists name, msg. unfold handleCustomTool.
  rewrite run_handleCustomTool by exact Hreq. rewrite Hmethod.
  change (CustomToolHandler.dispatch grafanaUrl grafanaApiKey
            (JStr "list_datasources_detailed") (Value.get request "params"))
    with listDatasourcesDetailed.
  rewrite Hrun. reflexivity.
Qed.

(** X13.  [handleCustomTool] calls the upstream only for the two tools:
    on a request with any other method it completes without any effect.
    A method that is none of [initialize], [tools/list] and the two tool
    names gives the error envelope with the message "Unknown custom tool:
    " followed by the method; [tools/list] gives the descriptors of
    [customTools]. *)
Theorem X13_only_the_tools_call_upstream (request : JsValue) (m : Machine) :
  Value.nullish request = false ->
  isCustomTool (Value.get request "method") = false ->
  let method := Value.get request "method" in
  exists envelope,
    run w (handleCustomTool request) m = (Normal envelope, m)
    /\ (Value.is_str method "initialize" = false ->
        Value.is_str method "tools/list" = false ->
        envelope =
          JObj [("jsonrpc", JStr "2.0");
                ("id", Value.get request "id");
                ("error",
                 JObj [("code", JInt (-1));
                       ("message", JStr ("Unknown custom tool: " +:+ Value.toString method));
                       ("data", Error ("Unknown custom tool: " +:+ Value.toString method))])])
    /\ (Value.is_str method "tools/list" = true ->
        envelope =
          JObj [("jsonrpc", JStr "2.0");
                ("id", Value.get request "id");
                ("result", JObj [("tools", JArr [CustomMcpTools.query_datasource;
                                                 CustomMcpTools.list_datasources_detailed])])]).
Proof.
  intros Hreq Hcustom method. unfold handleCustomTool.
  rewrite run_handleCustomTool by exact Hreq. fold method.
  unfold isCustomTool in Hcustom. fold method in Hcustom.
  apply orb_false_iff in Hcustom as [Hq Hl].
  unfold CustomToolHandler.dispatch. rewrite Hq, Hl.
  destruct (Value.is_str method "initialize") eqn:Hi.
  - eexists. split; [reflexivity|]. split; [discriminate|].
    intros Ht. apply is_str_true in Hi. apply is_str_true in Ht. congruence.
  - destruct (Value.is_str method "tools/list") eqn:Ht.
    + eexists. split; [reflexivity|]. split; [discriminate|]. intros _. reflexivity.
    + eexists. split; [reflexivity|]. split; [|discriminate]. intros _ _. reflexivity.
Qed.

(** X14.  The name tables agree: a name is accepted by [isCustomTool]
    exactly when the gateway advertises a local tool of that name in
    [tools/list], and exactly when [customTools] has a descriptor of that
    name; and every accepted name has its case in [handleCustomTool]'s
    switch, so a call the route lets through never ends in "Unknown
    custom tool". *)
Theorem X14_tool_name_tables_agree (name : JsValue) :
  (isCustomTool name = true <-> name ∈ Catalog.names Gateway.customTools)
  /\ (isCustomTool name = true <->
      name ∈ Catalog.names (map snd CustomMcpTools.customTools))
  /\ (isCustomTool name = true ->
      forall params,
        dispatch name params =
        if Value.is_str name "query_datasource" then queryDatasource params
        else listDatasourcesDetailed).
Proof.
  assert (Hiff : isCustomTool name = true <->
                 name = JStr "query_datasource" \/ name = JStr "list_datasources_detailed").
  { unfold isCustomTool. rewrite orb_true_iff, !is_str_true. reflexivity. }
  split; [|split].
  - rewrite Hiff.
    change (Catalog.names Gateway.customTools)
      with [JStr "list_datasources_detailed"; JStr "query_datasource"].
    rewrite elem_of_cons, list_elem_of_singleton. tauto.
  - rewrite Hiff.
    change (Catalog.names (map snd CustomMcpTools.customTools))
      with [JStr "query_datasource"; JStr "list_datasources_detailed"].
    rewrite elem_of_cons, list_elem_of_singleton. tauto.
  - intros Hcustom params. apply Hiff in Hcustom as [-> | ->]; reflexivity.
Qed.

(** X15.  The entry [queryDatasource] sends: its [refId] is "A" whatever
    the query object holds; a truthy [timeRange] argument sets the
    entry's [timeRange] to its [from] and [to], "now-1h" and "now" where
    they are missing, and a truthy [maxDataPoints] is copied; a falsy one
    (absent, or [maxDataPoints] 0) adds no such member. *)
Theorem X15_query_entry_members (datasourceUid query timeRange maxDataPoints : JsValue) :
  let entry := query_entry datasourceUid query timeRange maxDataPoints in
  req_body (ds_query datasourceUid query timeRange maxDataPoints)
    = JSON.stringify (JObj [("queries", JArr [JObj entry])])
  /\ Value.lookup "refId" entry = Some (JStr "A")
  /\ (Value.truthy timeRange = true ->
      Value.lookup "timeRange" entry
      = Some (JObj [("from", Value.or (Value.get timeRange "from") (JStr "now-1h"));
                    ("to", Value.or (Value.get timeRange "to") (JStr "now"))]))
  /\ (Value.truthy timeRange = false ->
      Value.has "timeRange" (Value.own_props query) = false ->
      Value.lookup "timeRange" entry = None)
  /\ (Value.truthy maxDataPoints = true ->
      Value.lookup "maxDataPoints" entry = Some maxDataPoints)
  /\ (Value.truthy maxDataPoints = false ->
      Value.has "maxDataPoints" (Value.own_props query) = false ->
      Value.lookup "maxDataPoints" entry = None).
Proof.
  intros entry. unfold entry, query_entry. cbv zeta.
  change (Value.object [("maxDataPoints", maxDataPoints)])
    with [("maxDataPoints", maxDataPoints)].
  match goal with
  | |- context [Value.object [("timeRange", ?x)]] =>
      change (Value.object [("timeRange", x)]) with [("timeRange", x)]
  end.
  change (Value.object [("from", Value.or (Value.get timeRange "from") (JStr "now-1h"));
                        ("to", Value.or (Value.get timeRange "to") (JStr "now"))])
    with [("from", Value.or (Value.get timeRange "from") (JStr "now-1h"));
          ("to", Value.or (Value.get timeRange "to") (JStr "now"))].
  split; [reflexivity|]. split; [|split; [|split; [|split]]].
  - rewrite lookup_spread_absent by (by apply has_guarded_spread).
    rewrite lookup_spread_absent by (by apply has_guarded_spread).
    apply lookup_set_eq.
  - intros Htr.
    rewrite lookup_spread_absent by (by apply has_guarded_spread).
    unfold Value.and at 1. rewrite Htr. unfold Value.spread at 1.
    cbn [Value.own_props fold_left fst snd]. apply lookup_set_eq.
  - intros Htr Hq.
    rewrite lookup_spread_absent by (by apply has_guarded_spread).
    unfold Value.and at 1. rewrite Htr.
    rewrite lookup_spread_absent by (by rewrite falsy_own_props).
    rewrite lookup_set_ne by done.
    rewrite lookup_spread_absent by exact Hq. reflexivity.
  - intros Hmdp. unfold Value.and at 2. rewrite Hmdp. unfold Value.spread at 1.
    cbn [Value.own_props fold_left fst snd]. apply lookup_set_eq.
  - intros Hmdp Hq. unfold Value.and at 2. rewrite Hmdp.
    rewrite lookup_spread_absent by (by rewrite falsy_own_props).
    rewrite lookup_spread_absent by (by apply has_guarded_spread).
    rewrite lookup_set_ne by done.
    rewrite lookup_spread_absent by exact Hq. reflexivity.
Qed.

End CustomToolOutcomes.

Section CustomToolScenarios.

Import Scenario Scenarios GatewayScenarios ToolScenarios ListingScenarios.

(** X11 on an upstream with two datasources. *)
Lemma X11_witness :
  exists listing examples guide,
    run (upstream_lists two_datasources) listDatasourcesDetailed initialized =
      (Normal (JObj [("content", JArr
                 [JObj [("type", JStr "text"); ("text", JStr listing)];
                  JObj [("type", JStr "text"); ("text", JStr examples)];
                  JObj [("type", JStr "text"); ("text", JStr guide)]])]),
       emit (EvFetch ds_list) initialized)
    /\ Js.startsWith listing "**Datasources Found**: 2" = true
    /\ Js.includes listing
         ("**Loki** (loki)" +:+ Js.nl +:+ "- UID: `L1`" +:+ Js.nl
            +:+ "- Default: No" +:+ Js.nl +:+ "- URL: N/A") = true.
Proof.
  assert (Hst : 200 <= status (listing_response two_datasources) <= 299) by (simpl; lia).
  assert (Hparse : JSON.parse (default "" (JSON.stringify (JArr two_datasources)))
                   = Some (JArr two_datasources)) by (vm_compute; reflexivity).
  assert (Hitems : Forall (fun ds => Value.nullish ds = false) two_datasources)
    by (repeat constructor).
  destruct (X11_listing_names_every_datasource "http://grafana:3000" "glsa_token"
              (upstream_lists two_datasources) initialized
              (listing_response two_datasources)
              (default "" (JSON.stringify (JArr two_datasources)))
              two_datasources eq_refl Hst eq_refl Hparse Hitems)
    as (listing & examples & guide & Hrun & Hstart & Hall).
  exists listing, examples, guide.
  split; [exact Hrun|]. split; [exact Hstart|].
  apply (Hall (JObj [("uid", JStr "L1"); ("name", JStr "Loki"); ("type", JStr "loki")])).
  apply elem_of_cons. right. apply elem_of_cons. left. reflexivity.
Defined.

(** X12 on an upstream that answers 200 with a JSON object. *)
Lemma X12_witness :
  exists name msg,
    run upstream_object (handleCustomTool list_request) initialized =
      (Normal (JObj [("jsonrpc", JStr "2.0");
                     ("id", JInt 2);
                     ("error", JObj [("code", JInt (-1));
                                     ("message", JStr msg);
                                     ("data", JError name msg)])]),
       emit (EvFetch ds_list) initialized).
Proof.
  refine (X12_listing_fails_on_malformed_upstream "http://grafana:3000" "glsa_token"
            upstream_object list_request initialized
            {| status := 200; statusText := "OK";
               headers := {[ "content-type" := "application/json" ]};
               body := Normal (json_object [member "message" (quoted "Unauthorized")]) |}
            (json_object [member "message" (quoted "Unauthorized")])
            eq_refl eq_refl _ eq_refl _).
  - simpl. lia.
  - vm_compute. exact I.
Defined.

(** X13 on a method the handler does not know. *)
Lemma X13_witness :
  exists envelope,
    run upstream_ok (handleCustomTool (request (JInt 5) "resources/list")) initialized
      = (Normal envelope, initialized)
    /\ Value.get (Value.get envelope "error") "message"
       = JStr "Unknown custom tool: resources/list".
Proof.
  destruct (X13_only_the_tools_call_upstream "http://grafana:3000" "glsa_token"
              upstream_ok (request (JInt 5) "resources/list") initialized
              eq_refl eq_refl)
    as (envelope & Hrun & Hunknown & _).
  exists envelope. split; [exact Hrun|].
  rewrite (Hunknown eq_refl eq_refl). reflexivity.
Defined.

End CustomToolScenarios.

(** ** Custom tool calls and the backend *)

Section CustomToolRouting.

Import CustomToolHandler.

Variable mcpTransport : string.
Variable grafanaUrl : string.
Variable grafanaServiceAccountToken : string.
Variable mcpServerPort : Z.
Variable stdioProxy : JsValue -> option string -> Prog Response.
Variable w : World.

Let post := Gateway.post mcpTransport grafanaUrl grafanaServiceAccountToken
              mcpServerPort stdioProxy.

Lemma api_headers_authorization :
  api_headers grafanaServiceAccountToken !! "Authorization"
  = Some ("Bearer " +:+ grafanaServiceAccountToken).
Proof.
  unfold api_headers. rewrite lookup_insert_ne by done. apply lookup_singleton_eq.
Qed.

(** X16.  A [tools/call] of one of the two custom tools, with an accepted
    token, never involves the proxy or the backend: whatever the
    transport mode and the state of the backend, the route answers status
    200, the proxy's fields are untouched, nothing is spawned, and the one
    request sent goes to the Grafana API ([/api/ds/query] or
    [/api/datasources]) with the service account token as its bearer
    credential. *)
Theorem X16_custom_tool_call_bypasses_backend (hdrs : gmap string string)
    (body_text token : string) (claims rpc : JsValue) (m : Machine) :
  hdrs !! "authorization" = Some ("Bearer " +:+ token) ->
  idp w (trace m) token = Normal claims ->
  JSON.parse body_text = Some rpc ->
  Value.get rpc "method" = JStr "tools/call" ->
  isCustomTool (Value.get (Value.get rpc "params") "name") = true ->
  exists r m' rq,
    run w (post hdrs body_text) m = (Normal r, m')
    /\ status r = 200
    /\ this m' = this m
    /\ trace m' = trace m ++ [EvValidate token; EvFetch rq]
    /\ (req_url rq = grafanaUrl +:+ "/api/ds/query"
        \/ req_url rq = grafanaUrl +:+ "/api/datasources")
    /\ req_headers rq !! "Authorization" = Some ("Bearer " +:+ grafanaServiceAccountToken).
Proof.
  intros Hauth Hvalid Hparse Hmethod Hcustom.
  unfold post. rewrite (run_post_bearer _ _ _ _ _ _ _ _ _ _ Hauth), Hvalid.
  rewrite (run_authenticated_custom _ _ _ _ _ _ _ _ _ _ Hparse Hmethod Hcustom).
  rewrite run_handleCustomTool by reflexivity.
  cbn [Value.get Value.lookup String.eqb Ascii.eqb Bool.eqb default from_option id].
  destruct (run_custom_tool_effect grafanaUrl grafanaServiceAccountToken w
              (Value.get (Value.get rpc "params") "name")
              (Value.or (Value.get (Value.get rpc "params") "arguments") (JObj []))
              (emit (EvValidate token) m) Hcustom (or_object_not_nullish _))
    as (r & rq & Hrun & Hrq).
  rewrite Hrun.
  assert (Htrace : trace (emit (EvFetch rq) (emit (EvValidate token) m))
                   = trace m ++ [EvValidate token; EvFetch rq]).
  { unfold emit. cbn [trace]. by rewrite <- app_assoc. }
  assert (Hto : (req_url rq = grafanaUrl +:+ "/api/ds/query"
                 \/ req_url rq = grafanaUrl +:+ "/api/datasources")
                /\ req_headers rq !! "Authorization"
                   = Some ("Bearer " +:+ grafanaServiceAccountToken)).
  { destruct Hrq as [-> | ->]; (split; [|apply api_headers_authorization]);
      [by left|by right]. }
  destruct Hto as [Hurl Hcred].
  destruct r as [result|error]; eexists _, _, rq;
    (split; [reflexivity|]); (split; [reflexivity|]); (split; [reflexivity|]);
    (split; [exact Htrace|]); (split; [exact Hurl|exact Hcred]).
Qed.

End CustomToolRouting.

Section CustomToolRoutingScenarios.

Import Scenario Scenarios GatewayScenarios ToolScenarios ListingScenarios.

(** X16 on a call of the listing tool while the transport is stdio and no
    stdio proxy is there. *)
Lemma X16_witness :
  exists r m' rq,
    run (upstream_lists two_datasources)
        (Gateway.post "stdio" "http://grafana:3000" "glsa_token" 3001 no_stdio
           (bearer "good") list_call_text) Interleaving.fresh = (Normal r, m')
    /\ status r = 200
    /\ this m' = this Interleaving.fresh
    /\ trace m' = trace Interleaving.fresh ++ [EvValidate "good"; EvFetch rq]
    /\ (req_url rq = "http://grafana:3000" +:+ "/api/ds/query"
        \/ req_url rq = "http://grafana:3000" +:+ "/api/datasources")
    /\ req_headers rq !! "Authorization" = Some ("Bearer " +:+ "glsa_token").
Proof.
  assert (H1 : bearer "good" !! "authorization" = Some ("Bearer " +:+ "good"))
    by (vm_compute; reflexivity).
  assert (H3 : JSON.parse list_call_text = Some list_call_body)
    by (vm_compute; reflexivity).
  exact (X16_custom_tool_call_bypasses_backend "stdio" "http://grafana:3000" "glsa_token"
           3001 no_stdio (upstream_lists two_datasources) (bearer "good") list_call_text
           "good" (JObj []) list_call_body Interleaving.fresh H1 eq_refl H3 eq_refl eq_refl).
Defined.

End CustomToolRoutingScenarios.

(** ** More on forwarding and on the catalog route *)

Section ForwardingPostcondition.

Import GrafanaMcpHttpProxy.

Variable config : Config.
Variable w : World.

(** The forwarding step leaves the proxy's fields alone and sends the
    request, and at most the retry after it. *)
Lemma run_forwarding_effects (requestBody : JsValue) (sessionId : option string)
    (m1 : Machine) :
  exists r last,
    run w (forwarding config requestBody sessionId) m1
      = (r, {| this := this m1; trace := trace m1 ++ last |})
    /\ (last = [EvFetch (forward config requestBody sessionId)]
        \/ last = [EvFetch (forward config requestBody sessionId);
                   EvFetch (retry config requestBody)]).
Proof.
  unfold forwarding. rewrite run_try_catch, run_bind, run_fetch.
  destruct (net w (trace m1) (forward config requestBody sessionId)) as [response|e];
    [|eexists _, _; split; [reflexivity|by left]].
  rewrite run_bind, run_text.
  destruct (body response) as [responseBody|e];
    [|eexists _, _; split; [reflexivity|by left]].
  destruct ((status response =? 400) && Js.includes responseBody "Invalid session ID").
  - rewrite run_bind, run_fetch. unfold emit. cbn [this trace].
    rewrite <- app_assoc. cbn [app].
    destruct (net w _ (retry config requestBody)) as [retryResponse|e];
      [|eexists _, _; split; [reflexivity|by right]].
    rewrite run_bind, run_text.
    destruct (body retryResponse); eexists _, _; (split; [reflexivity|by right]).
  - destruct (plain_text_error response responseBody).
    + rewrite run_bind. unfold prop.
      destruct (Value.nullish requestBody);
        eexists _, _; (split; [reflexivity|by left]).
    + eexists _, _. split; [reflexivity|by left].
Qed.

(** X17.  When [handleMcpRequest] completes with a response, the proxy
    is running (initialized, with a live process handle), at most one
    process was spawned for it (none if the proxy was running before), and
    the last thing it did was to send the request, or the request and its
    one retry: nothing is sent to the backend after the answer. *)
Theorem X17_response_only_from_running_proxy (requestBody : JsValue)
    (sessionId : option string) (m m' : Machine) (r : Response) :
  run w (handleMcpRequest config requestBody sessionId) m = (Normal r, m') ->
  running (this m') = true
  /\ spawn_count (trace m')
     = (spawn_count (trace m) + (if running (this m) then 0 else 1))%nat
  /\ exists evs last,
       trace m' = trace m ++ evs ++ last
       /\ (last = [EvFetch (forward config requestBody sessionId)]
           \/ last = [EvFetch (forward config requestBody sessionId);
                      EvFetch (retry config requestBody)]).
Proof.
  unfold handleMcpRequest. rewrite run_bind.
  destruct (run w (initializeMcpServer config) m) as [[[]|e] m1] eqn:Hinit;
    [|discriminate].
  destruct (run_initialize config w m m1 Hinit) as [Hrunning Hcount].
  destruct (run_forwarding_effects requestBody sessionId m1) as (r' & last & Hrun & Hlast).
  rewrite Hrun. intros [= -> <-]. cbn [this trace].
  split; [exact Hrunning|]. split.
  - rewrite spawn_count_app, Hcount.
    assert (spawn_count last = 0%nat) as -> by (by destruct Hlast as [-> | ->]).
    lia.
  - destruct (run_trace w (initializeMcpServer config) m) as [evs Hevs].
    rewrite Hinit in Hevs. cbn [snd] in Hevs.
    exists evs, last. rewrite Hevs. split; [by rewrite <- app_assoc|exact Hlast].
Qed.

End ForwardingPostcondition.

Section CatalogStatus.

Variable mcpTransport : string.
Variable grafanaUrl : string.
Variable grafanaServiceAccountToken : string.
Variable mcpServerPort : Z.
Variable stdioProxy : JsValue -> option string -> Prog Response.
Variable w : World.

Let post := Gateway.post mcpTransport grafanaUrl grafanaServiceAccountToken
              mcpServerPort stdioProxy.
Let tools_list := Gateway.tools_list mcpTransport grafanaUrl
                    grafanaServiceAccountToken mcpServerPort stdioProxy.
Let grafanaProxy := Gateway.grafanaProxy mcpTransport grafanaUrl
                      grafanaServiceAccountToken mcpServerPort stdioProxy.

(** Every way through the catalog branch ends in [c.json]. *)
Lemma run_tools_list_json (hdrs : gmap string string) (rpc : JsValue) (m : Machine) :
  exists v st,
    run w (tools_list hdrs rpc) m
      = (Normal (Gateway.c_json v st),
         snd (run w (grafanaProxy rpc (hdrs !! "mcp-session-id")) m))
    /\ (st = 200 \/ st = 500).
Proof.
  unfold tools_list, Gateway.tools_list. rewrite run_try_catch, run_bind.
  change (Gateway.c_req_header hdrs "mcp-session-id") with (hdrs !! "mcp-session-id").
  fold grafanaProxy.
  destruct (run w (grafanaProxy rpc (hdrs !! "mcp-session-id")) m)
    as [[grafanaResponse|e] m1]; cbn [snd];
    [|eexists _, _; split; [reflexivity|by right]].
  rewrite run_bind, run_text.
  destruct (body grafanaResponse) as [responseText|e];
    [|eexists _, _; split; [reflexivity|by right]].
  match goal with
  | |- context [prop ?d "result"] => generalize d; intros grafanaData
  end.
  rewrite run_bind. unfold prop.
  destruct (Value.nullish grafanaData);
    [eexists _, _; split; [reflexivity|by right]|].
  cbn [run].
  destruct (Value.truthy (Value.get grafanaData "result")
            && Value.truthy (Value.get (Value.get grafanaData "result") "tools"));
    [|eexists _, _; split; [reflexivity|by left]].
  rewrite run_bind. unfold Gateway.spread_array.
  destruct (Value.get (Value.get grafanaData "result") "tools");
    eexists _, _; (split; [reflexivity|]); (by left) || (by right).
Qed.

(** The branch without a tool list in the proxy's answer. *)
Lemma run_tools_list_no_tools (hdrs : gmap string string) (rpc : JsValue)
    (m m' : Machine) (grafanaResponse : Response) (responseText : string)
    (grafanaData : JsValue) :
  run w (grafanaProxy rpc (hdrs !! "mcp-session-id")) m = (Normal grafanaResponse, m') ->
  body grafanaResponse = Normal responseText ->
  JSON.parse responseText = Some grafanaData ->
  Value.nullish grafanaData = false ->
  Value.truthy (Value.get (Value.get grafanaData "result") "tools") = false ->
  run w (tools_list hdrs rpc) m = (Normal (Gateway.c_json grafanaData 200), m').
Proof.
  intros Hproxy Hbody Hparse Hdata Htools.
  unfold tools_list, Gateway.tools_list. rewrite run_try_catch, run_bind.
  change (Gateway.c_req_header hdrs "mcp-session-id") with (hdrs !! "mcp-session-id").
  fold grafanaProxy. rewrite Hproxy.
  rewrite run_bind, run_text, Hbody, Hparse.
  rewrite run_bind, run_prop by exact Hdata.
  rewrite Htools, andb_false_r. reflexivity.
Qed.

(** X18.  For [tools/list] with an accepted token the gateway never
    relays the backend's status: it answers a JSON body with status 200 or
    500, having done nothing but validate the token and call the proxy.
    In particular a JSON answer of the backend without a truthy
    [result.tools] (an error envelope, say) is parsed, serialized again
    and answered with status 200, whatever status the backend gave it. *)
Theorem X18_catalog_status_is_200_or_500 (hdrs : gmap string string)
    (body_text token : string) (claims rpc : JsValue) (m : Machine) :
  hdrs !! "authorization" = Some ("Bearer " +:+ token) ->
  idp w (trace m) token = Normal claims ->
  JSON.parse body_text = Some rpc ->
  Value.get rpc "method" = JStr "tools/list" ->
  let proxied := run w (grafanaProxy rpc (hdrs !! "mcp-session-id"))
                     (emit (EvValidate token) m) in
  (exists r text,
     run w (post hdrs body_text) m = (Normal r, snd proxied)
     /\ (status r = 200 \/ status r = 500)
     /\ headers r = {[ "content-type" := "application/json" ]}
     /\ body r = Normal text)
  /\ (forall grafanaResponse responseText grafanaData,
        fst proxied = Normal grafanaResponse ->
        body grafanaResponse = Normal responseText ->
        JSON.parse responseText = Some grafanaData ->
        Value.nullish grafanaData = false ->
        Value.truthy (Value.get (Value.get grafanaData "result") "tools") = false ->
        run w (post hdrs body_text) m
          = (Normal (Gateway.c_json grafanaData 200), snd proxied)).
Proof.
  intros Hauth Hvalid Hparse Hmethod proxied.
  assert (Hpost : run w (post hdrs body_text) m
                  = run w (tools_list hdrs rpc) (emit (EvValidate token) m)).
  { unfold post. rewrite (run_post_bearer _ _ _ _ _ _ _ _ _ _ Hauth), Hvalid.
    rewrite (run_authenticated_tools_list _ _ _ _ _ _ _ _ _ _ Hparse Hmethod).
    fold tools_list.
    destruct (run_tools_list_json hdrs rpc (emit (EvValidate token) m))
      as (v & st & Hrun & _).
    by rewrite Hrun. }
  rewrite Hpost. split.
  - destruct (run_tools_list_json hdrs rpc (emit (EvValidate token) m))
      as (v & st & Hrun & Hst).
    rewrite Hrun. eexists _, _. split; [reflexivity|].
    split; [exact Hst|]. split; reflexivity.
  - intros grafanaResponse responseText grafanaData Hproxy Hbody Hdata Hobj Htools.
    apply run_tools_list_no_tools
      with (grafanaResponse := grafanaResponse) (responseText := responseText); auto.
    unfold proxied in *. destruct (run w _ (emit (EvValidate token) m)) as [c m1].
    cbn [fst snd] in *. by rewrite Hproxy.
Qed.


End CatalogStatus.

Section PostconditionScenarios.

Import GrafanaMcpHttpProxy Scenario Scenarios GatewayScenarios CatalogScenarios.

(** X17 on a stale session: the proxy is running, nothing was spawned,
    and the retry is the last request sent. *)
Lemma X17_witness :
  let requestBody := request (JInt 3) "resources/list" in
  running (this initialized) = true
  /\ exists evs last,
       trace initialized
         ++ [EvFetch (forward config requestBody (Some "stale"));
             EvFetch (retry config requestBody)]
       = trace initialized ++ evs ++ last
       /\ (last = [EvFetch (forward config requestBody (Some "stale"))]
           \/ last = [EvFetch (forward config requestBody (Some "stale"));
                      EvFetch (retry config requestBody)]).
Proof.
  intros requestBody.
  assert (Hrun : run stale_session (handleMcpRequest config requestBody (Some "stale"))
                   initialized
                 = (Normal {| status := 200; statusText := "OK";
                              headers := {[ "content-type" := "application/json" ]};
                              body := Normal ("{" +:+ quoted "jsonrpc" +:+ ":"
                                                +:+ quoted "2.0" +:+ ","
                                                +:+ quoted "id" +:+ ":3,"
                                                +:+ quoted "result" +:+ ":{}}") |},
                    {| this := this initialized;
                       trace := trace initialized
                                  ++ [EvFetch (forward config requestBody (Some "stale"));
                                      EvFetch (retry config requestBody)] |}))
    by (vm_compute; reflexivity).
  destruct (X17_response_only_from_running_proxy config stale_session requestBody
              (Some "stale") initialized _ _ Hrun) as (Hrunning & _ & Hlast).
  split; [exact Hrunning|exact Hlast].
Defined.

(** X18 on a backend that answers the catalog request with an error
    envelope: status 200, the envelope serialized again. *)
Lemma X18_witness :
  exists m',
    run (backend method_not_found) (post (bearer "good") tools_list_request) initialized
    = (Normal (Gateway.c_json
                 (JObj [("jsonrpc", JStr "2.0"); ("id", JInt 1);
                        ("error", JObj [("code", JInt (-32601));
                                        ("message", JStr "Method not found")])])
                 200), m').
Proof.
  assert (H1 : bearer "good" !! "authorization" = Some ("Bearer " +:+ "good"))
    by (vm_compute; reflexivity).
  assert (H3 : JSON.parse tools_list_request = Some request_body)
    by (vm_compute; reflexivity).
  destruct (X18_catalog_status_is_200_or_500 "http" "http://grafana:3000" "glsa_token"
              3001 no_stdio (backend method_not_found) (bearer "good") tools_list_request
              "good" (JObj []) request_body initialized H1 eq_refl H3 eq_refl)
    as [_ Helse].
  eexists.
  apply (Helse {| status := 200; statusText := "OK";
                  headers := {[ "content-type" := "application/json" ]};
                  body := Normal method_not_found |}
               method_not_found
               (JObj [("jsonrpc", JStr "2.0"); ("id", JInt 1);
                      ("error", JObj [("code", JInt (-32601));
                                      ("message", JStr "Method not found")])])).
  - vm_compute; reflexivity.
  - reflexivity.
  - vm_compute; reflexivity.
  - reflexivity.
  - reflexivity.
Defined.

End PostconditionScenarios.

(** ** The authorization middleware *)

Section Middleware.

Import ProtectedGateway.

Variable w : World.

Lemma c_req_header_authorization (hdrs : gmap string string) :
  Gateway.c_req_header hdrs "Authorization" = hdrs !! "authorization".
Proof. reflexivity. Qed.

(** X20.  In the index.ts with the middleware, a request to a path that
    neither ends with [/health] nor contains [/.well-known/] and that has
    no Authorization header of the form "Bearer <token>", or whose token
    the validator rejects, is answered by the middleware with status 401,
    the header [WWW-Authenticate: Bearer realm="grafana-mcp-server",
    error="invalid_token"] and the error [invalid_token]; with a rejected
    token the description is the message of the validator's error.  The
    route's handler does not run, whichever it is (POST, GET or DELETE):
    the only effect is the call of the validator. *)
Theorem X20_middleware_rejects_before_the_route (path : string)
    (hdrs : gmap string string) (next : Prog Response) (m : Machine) :
  endsWith path "/health" = false ->
  Js.includes path "/.well-known/" = false ->
  (forall token, hdrs !! "authorization" <> Some ("Bearer " +:+ token))
  \/ (exists token e, hdrs !! "authorization" = Some ("Bearer " +:+ token)
                      /\ idp w (trace m) token = Thrown e) ->
  exists (description : JsValue) (evs : list Event),
    run w (middleware path hdrs next) m
      = (Normal (invalid_token description), {| this := this m; trace := trace m ++ evs |})
    /\ status (invalid_token description) = 401
    /\ headers (invalid_token description) !! "www-authenticate" = Some challenge
    /\ body (invalid_token description)
       = Normal (default "" (JSON.stringify
                   (JObj [("error", JStr "invalid_token");
                          ("error_description", description)])))
    /\ (evs = [] /\ description = JStr "Missing or invalid authorization header"
        \/ exists token e,
             hdrs !! "authorization" = Some ("Bearer " +:+ token)
             /\ idp w (trace m) token = Thrown e
             /\ evs = [EvValidate token]
             /\ description = (if Value.is_error e then Value.get e "message"
                               else JStr "Token validation failed")).
Proof.
  intros Hhealth Hknown Hauth. unfold middleware.
  rewrite Hhealth, Hknown. cbn [orb]. rewrite c_req_header_authorization.
  destruct Hauth as [Hnone|(token & e & Hsome & Hbad)].
  - rewrite (no_bearer_true _ Hnone).
    exists (JStr "Missing or invalid authorization header"), [].
    split; [cbn [mret prog_ret run]; rewrite app_nil_r; by destruct m|].
    split; [reflexivity|]. split; [reflexivity|]. split; [reflexivity|]. by left.
  - rewrite Hsome, no_bearer_false, bearer_token_spec.
    exists (if Value.is_error e then Value.get e "message"
            else JStr "Token validation failed"), [EvValidate token].
    split.
    + rewrite run_bind, run_try_catch, run_bind. unfold Gateway.validateToken.
      cbn [run]. rewrite Hbad. reflexivity.
    + split; [reflexivity|]. split; [reflexivity|]. split; [reflexivity|].
      right. by exists token, e.
Qed.

End Middleware.

Section MiddlewareScenarios.

Import Scenario Scenarios GatewayScenarios ProtectedScenarios.

(** X20 on a DELETE with an expired token: here the session is not
    terminated. *)
Lemma X20_witness :
  let hdrs : gmap string string :=
    <[ "authorization" := "Bearer expired" ]> {[ "mcp-session-id" := "s1" ]} in
  exists description evs,
    run (backend "") (delete hdrs) initialized
      = (Normal (ProtectedGateway.invalid_token description),
         {| this := this initialized; trace := trace initialized ++ evs |})
    /\ evs = [EvValidate "expired"]
    /\ description = JStr "Invalid token".
Proof.
  intros hdrs.
  assert (Hhdr : hdrs !! "authorization" = Some ("Bearer " +:+ "expired"))
    by (vm_compute; reflexivity).
  destruct (X20_middleware_rejects_before_the_route (backend "") path hdrs
              (ProtectedGateway.delete_handler "http" 3001 hdrs) initialized
              eq_refl eq_refl
              (or_intror (ex_intro _ "expired"
                 (ex_intro _ (Error "Invalid token") (conj Hhdr eq_refl)))))
    as (description & evs & Hrun & _ & _ & _ & Hcase).
  exists description, evs. split; [exact Hrun|].
  destruct Hcase as [[-> ->]|(token & e & Htoken & He & Hevs & Hd)].
  - exfalso. vm_compute in Hrun. discriminate Hrun.
  - assert (Htok : token = "expired").
    { rewrite Hhdr in Htoken. vm_compute in Htoken. congruence. }
    subst token.
    assert (He' : e = Error "Invalid token") by (vm_compute in He; unfold Error; congruence).
    subst e. split; [exact Hevs|exact Hd].
Defined.

End MiddlewareScenarios.

(** ** Shutdown and the stored process handle *)

Section StoredHandle.

Import GrafanaMcpHttpProxy Interleaving Supervisor Stored.

Variable config : GrafanaMcpHttpProxy.Config.

Lemma keeps_bind {A B : Type} (p : Prog A) (f : A -> Prog B) :
  keeps p -> (forall a, keeps (f a)) -> keeps (p ≫= f).
Proof.
  intros Hp Hf. unfold mbind, prog_bind.
  induction Hp; cbn [bind]; try constructor; auto.
Qed.

Lemma keeps_try_catch {A : Type} (p : Prog A) (h : JsValue -> Prog A) :
  keeps p -> (forall e, keeps (h e)) -> keeps (try_catch p h).
Proof.
  intros Hp Hh. induction Hp; cbn [try_catch]; try constructor; auto.
Qed.

Lemma keeps_fetch_prog (rq : Request) : keeps (fetch rq).
Proof. constructor. intros [r|e]; constructor. Qed.

Lemma keeps_attempt : keeps (attempt config).
Proof.
  unfold attempt. apply keeps_bind.
  - apply keeps_try_catch; [|intros; constructor].
    apply keeps_bind; [apply keeps_fetch_prog|intros; constructor].
  - intros [|]; [constructor|].
    apply keeps_try_catch; [|intros; constructor].
    apply keeps_bind; [apply keeps_fetch_prog|intros; constructor].
Qed.

Lemma keeps_attempts (remaining : nat) : keeps (attempts config remaining).
Proof.
  induction remaining as [|remaining IH]; cbn [attempts]; [constructor|].
  apply keeps_bind; [apply keeps_attempt|].
  intros [|]; [constructor|].
  apply keeps_bind; [repeat constructor|intros; exact IH].
Qed.

Lemma keeps_after_spawn :
  keeps (waitForServer config ≫= fun _ => modify_this (set_isInitialized true)).
Proof.
  apply keeps_bind; [apply keeps_attempts|]. intros.
  constructor; [reflexivity|constructor].
Qed.

Lemma settle_keeps {A : Type} (p : Prog A) (m : Machine) :
  keeps p ->
  keeps (fst (settle p m))
  /\ trace (snd (settle p m)) = trace m
  /\ mcpProcess (this (snd (settle p m))) = mcpProcess (this m).
Proof.
  intros Hp. revert m.
  induction Hp as [a|e|rq k Hk IH|ms k Hk IH|t k Hk IH|k Hk IH|f k Hf Hk IH]; intros m;
    cbn [settle fst snd]; try (split; [by constructor|split; reflexivity]).
  - apply IH.
  - destruct (IH {| this := f (this m); trace := trace m |}) as (H1 & H2 & H3).
    split; [exact H1|]. split; [exact H2|]. rewrite H3. cbn [this]. apply Hf.
Qed.

Lemma last_spawned_emit (ev : Event) (m : Machine) :
  is_spawn ev = false -> last_spawned (emit ev m) = last_spawned m.
Proof.
  intros Hev. unfold last_spawned, emit. cbn [trace]. rewrite spawn_count_app.
  assert (spawn_count [ev] = 0%nat) as ->.
  { unfold spawn_count. rewrite filter_cons. case_decide; [congruence|reflexivity]. }
  by rewrite Nat.add_0_r.
Qed.

Lemma last_spawned_trace (m m' : Machine) :
  trace m' = trace m -> last_spawned m' = last_spawned m.
Proof. unfold last_spawned. by intros ->. Qed.

Lemma stored_demands (n : nat) : invariant config (demands config n).
Proof.
  split; [|reflexivity]. cbn [demands tasks]. apply Forall_replicate. reflexivity.
Qed.

(** Resuming a started task past an awaited operation. *)
Lemma stored_resume (c : Interleaving.Config) (i : nat) (p' : Prog unit) (ev : Event) :
  invariant config c ->
  keeps p' ->
  is_spawn ev = false ->
  invariant config (resume i p' (emit ev (machine c)) (tasks c)).
Proof.
  intros [Hall Hstored] Hk Hev.
  destruct (settle_keeps p' (emit ev (machine c)) Hk) as (Hk' & Htrace & Hproc).
  unfold invariant, resume. cbn [tasks machine]. split.
  - apply Forall_insert; [exact Hall|exact Hk'].
  - rewrite Hproc, (last_spawned_trace _ _ Htrace), last_spawned_emit by exact Hev.
    exact Hstored.
Qed.

Lemma stored_step (c c' : Interleaving.Config) :
  invariant config c -> step c c' -> invariant config c'.
Proof.
  intros Hinv Hstep.
  destruct Hstep as [c i p Hi|c i rq k r Hi|c i ms k Hi|c i t k r Hi|c Hp].
  - destruct Hinv as [Hall Hstored].
    assert (Hp : p = initializeMcpServer config).
    { eapply Forall_lookup_1 in Hall; [|exact Hi]. exact Hall. }
    subst p. unfold invariant, resume. cbn [tasks machine].
    destruct (running (this (machine c))) eqn:Hrun.
    + rewrite settle_initialize_running by exact Hrun. cbn [fst snd]. split.
      * apply Forall_insert; [exact Hall|constructor].
      * exact Hstored.
    + rewrite settle_initialize_step by exact Hrun.
      destruct (settle_keeps _ (spawning config (machine c)) keeps_after_spawn)
        as (Hk' & Htrace & Hproc).
      split; [apply Forall_insert; [exact Hall|exact Hk']|].
      rewrite Hproc, (last_spawned_trace _ _ Htrace).
      unfold last_spawned. rewrite spawned_spawning. reflexivity.
  - assert (Hk : keeps (Fetch rq k)).
    { destruct Hinv as [Hall _]. eapply Forall_lookup_1 in Hall; [|exact Hi]. exact Hall. }
    inversion Hk as [| |rq' k' Hk'| | | |]; subst.
    by apply stored_resume.
  - assert (Hk : keeps (Sleep ms k)).
    { destruct Hinv as [Hall _]. eapply Forall_lookup_1 in Hall; [|exact Hi]. exact Hall. }
    inversion Hk as [| | |ms' k' Hk'| | |]; subst.
    by apply stored_resume.
  - assert (Hk : keeps (ValidateToken t k)).
    { destruct Hinv as [Hall _]. eapply Forall_lookup_1 in Hall; [|exact Hi]. exact Hall. }
    inversion Hk as [| | | |t' k' Hk'| |]; subst.
    by apply stored_resume.
  - destruct Hinv as [Hall Hstored]. split; [exact Hall|exact Hstored].
Qed.

Lemma stored_steps (n : nat) (c : Interleaving.Config) :
  steps (demands config n) c -> invariant config c.
Proof.
  intros H. remember (demands config n) as c0 eqn:E.
  induction H as [c|c1 c2 c3 H12 IH H23].
  - subst c. apply stored_demands.
  - eapply stored_step; [apply IH; exact E|exact H23].
Qed.

(** X21.  However [n] first-time demands for readiness interleave (and
    whenever child processes exit), the stored handle is that of the
    process spawned last.  So [shutdown] signals at most one process, the
    one spawned last: processes spawned by earlier demands are never
    signalled by it.  After [shutdown] the proxy holds no handle and is
    not running, and a second [shutdown] signals nothing. *)
Theorem X21_shutdown_signals_the_last_spawned_only (n : nat) (c : Interleaving.Config) :
  steps (demands config n) c ->
  let result := Shutdown.shutdown Shutdown.no_session (this (machine c)) in
  fst result
    = match spawned c with
      | O => []
      | S _ => [Shutdown.Kill {| pid := spawned c; killed := false |}]
      end
  /\ mcpProcess (snd (snd result)) = None
  /\ running (snd (snd result)) = false
  /\ fst (Shutdown.shutdown (fst (snd result)) (snd (snd result))) = [].
Proof.
  intros Hsteps result. unfold result. clear result.
  destruct (stored_steps n c Hsteps) as [_ Hstored].
  unfold last_spawned in Hstored. fold (spawned c) in Hstored.
  unfold Shutdown.shutdown.
  cbn [Shutdown.sseConnection Shutdown.no_session fst snd app].
  destruct (spawned c) as [|k].
  - rewrite Hstored. cbn [fst snd app Shutdown.sseConnection].
    rewrite Hstored. cbn [fst].
    split; [reflexivity|]. split; [reflexivity|].
    split; [|reflexivity]. unfold running. rewrite Hstored. apply andb_false_r.
  - rewrite Hstored. cbn [fst snd app mcpProcess Shutdown.sseConnection].
    split; [reflexivity|]. split; [reflexivity|]. split; reflexivity.
Qed.

End StoredHandle.

Section ShutdownScenarios.

Import GrafanaMcpHttpProxy Interleaving DemandScenarios.

(** X21 on two demands that overlap: two processes are spawned, and
    [shutdown] signals the second only. *)
Lemma X21_witness :
  spawned both_in_flight = 2%nat
  /\ fst (Shutdown.shutdown Shutdown.no_session (this (machine both_in_flight)))
     = [Shutdown.Kill {| pid := 2; killed := false |}].
Proof.
  assert (Hsteps : steps (demands Scenario.config 2) both_in_flight).
  { eapply steps_step; [eapply steps_step; [apply steps_refl|]|].
    - exact (step_arrive (demands Scenario.config 2) 0 demanded eq_refl).
    - exact (step_arrive one_in_flight 1 demanded eq_refl). }
  split; [vm_compute; reflexivity|].
  exact (proj1 (X21_shutdown_signals_the_last_spawned_only Scenario.config 2
                  both_in_flight Hsteps)).
Defined.

End ShutdownScenarios.

(** ** The guarded POST route *)

Section ProtectedPost.

Import ProtectedGateway.

Variable grafanaProxy : JsValue -> option string -> Prog Response.
Variable w : World.

(** X22.  In the index.ts with the middleware, a POST to the base path
    with an accepted token and a JSON body is handed to the proxy as
    parsed, whatever its method ([tools/list] and calls of
    [query_datasource] included: this text has no local tools), with the
    caller's session header; the proxy's response is the route's response,
    and a failure of the proxy becomes status 500 with the error
    [internal_error]. *)
Theorem X22_guarded_post_relays_every_method (path : string)
    (hdrs : gmap string string) (body_text token : string) (claims rpc : JsValue)
    (m : Machine) :
  endsWith path "/health" = false ->
  Js.includes path "/.well-known/" = false ->
  hdrs !! "authorization" = Some ("Bearer " +:+ token) ->
  idp w (trace m) token = Normal claims ->
  JSON.parse body_text = Some rpc ->
  run w (post grafanaProxy path hdrs body_text) m =
  match run w (grafanaProxy rpc (hdrs !! "mcp-session-id")) (emit (EvValidate token) m) with
  | (Normal r, m') => (Normal r, m')
  | (Thrown _, m') =>
      (Normal (Gateway.c_json
                 (Gateway.error_body "internal_error" "Failed to process MCP request") 500),
       m')
  end.
Proof.
  intros Hhealth Hknown Hauth Hvalid Hparse.
  unfold post, middleware. rewrite Hhealth, Hknown. cbn [orb].
  rewrite c_req_header_authorization, Hauth, no_bearer_false, bearer_token_spec.
  rewrite run_bind, run_try_catch, run_bind. unfold Gateway.validateToken.
  cbn [run]. rewrite Hvalid. cbn [of_completion run mret prog_ret].
  unfold post_handler. rewrite run_try_catch, run_bind.
  unfold Gateway.c_req_json. rewrite Hparse. cbn [mret prog_ret run].
  change (Gateway.c_req_header hdrs "mcp-session-id") with (hdrs !! "mcp-session-id").
  destruct (run w (grafanaProxy rpc (hdrs !! "mcp-session-id")) (emit (EvValidate token) m))
    as [[r|e] m']; reflexivity.
Qed.

End ProtectedPost.

Section ProtectedPostScenarios.

Import Scenario Scenarios GatewayScenarios ToolScenarios RelayScenarios
       ProtectedScenarios.

(** X22 on a call of [query_datasource]: it goes to the backend. *)
Lemma X22_witness :
  run (backend initialized_answer) (post (bearer "good") call_text) initialized
  = (Normal {| status := 200; statusText := "OK";
               headers := {[ "content-type" := "application/json" ]};
               body := Normal initialized_answer |},
     {| this := this initialized;
        trace := trace initialized
                   ++ [EvValidate "good";
                       EvFetch (GrafanaMcpHttpProxy.forward
                                  (Gateway.proxyConfig "http://grafana:3000" "glsa_token" 3001)
                                  call_body None)] |}).
Proof.
  assert (H1 : bearer "good" !! "authorization" = Some ("Bearer " +:+ "good"))
    by (vm_compute; reflexivity).
  assert (H3 : JSON.parse call_text = Some call_body) by (vm_compute; reflexivity).
  refine (eq_trans
            (X22_guarded_post_relays_every_method
               (Gateway.grafanaProxy "http" "http://grafana:3000" "glsa_token" 3001 no_stdio)
               (backend initialized_answer) path (bearer "good") call_text "good"
               (JObj []) call_body initialized eq_refl eq_refl H1 eq_refl H3) _).
  vm_compute; reflexivity.
Defined.

End ProtectedPostScenarios.
